(** * Synthetics: a shallow embedding of the measurement and dispatch engine

    The development follows the Go packages of the repository:
    [config] (test catalogue, sizes, timeouts), [metrics] (the labelled
    collector), [jitter], [awsv4] (request signing), [k6output],
    [executor] (the four executors and the curl timing parser),
    [scheduler], [logging] and [testdata], after the fragments of Go's
    standard library they use.
    What the outside world does (the network, child processes, the
    clock, the random source, the order of map iteration) is an explicit
    argument of the functions that meet it.

    Conventions.  A [time.Duration] is a [Z] counting nanoseconds.  Go
    strings are [string]; [[]byte] is [list byte].  A Go [error] is a
    value of an inductive type carrying the message's shape.  Values that
    Go computes in [float64] from decimal text (sizes, percentages, curl
    seconds) are computed exactly on decimals [m / 10^k], without the
    rounding of [float64]; where the source converts to [int64] the
    conversion is written out.  The definitions concerned say where Go's
    rounded result can differ. *)

From Stdlib Require Import ZArith List Lia Bool.
From Stdlib Require Import Strings.String Strings.Ascii Strings.Byte.
From Stdlib Require Import DecimalString.
From Stdlib Require DecimalPos.
From stdpp Require Import gmap strings list sorting.

Local Open Scope string_scope.
Local Open Scope Z_scope.

(** ** Machine integers *)

Definition minInt64 : Z := - 2 ^ 63.
Definition maxInt64 : Z := 2 ^ 63 - 1.

Definition inInt64 (z : Z) : bool := (minInt64 <=? z) && (z <=? maxInt64).

(** Two's-complement wrap-around of [int64] arithmetic. *)
Definition wrap64 (z : Z) : Z := (z + 2 ^ 63) mod 2 ^ 64 - 2 ^ 63.

(** ** The fragments of Go's [strings], [strconv] and [fmt] that the code uses *)

Module GoStrings.

Definition isSpace (c : ascii) : bool :=
  let n := N_of_ascii c in
  ((9 <=? n) && (n <=? 13))%N || (n =? 32)%N.

Definition isDigit (c : ascii) : bool :=
  let n := N_of_ascii c in ((48 <=? n) && (n <=? 57))%N.

Fixpoint trimLeft (s : string) : string :=
  match s with
  | String c s' => if isSpace c then trimLeft s' else s
  | EmptyString => EmptyString
  end.

Definition reverse (s : string) : string :=
  string_of_list_ascii (List.rev (list_ascii_of_string s)).

(** [strings.TrimSpace], on ASCII white space. *)
Definition TrimSpace (s : string) : string :=
  reverse (trimLeft (reverse (trimLeft s))).

Definition upperChar (c : ascii) : ascii :=
  let n := N_of_ascii c in
  if ((97 <=? n) && (n <=? 122))%N then ascii_of_N (n - 32) else c.

Definition lowerChar (c : ascii) : ascii :=
  let n := N_of_ascii c in
  if ((65 <=? n) && (n <=? 90))%N then ascii_of_N (n + 32) else c.

Fixpoint mapChars (f : ascii -> ascii) (s : string) : string :=
  match s with
  | String c s' => String (f c) (mapChars f s')
  | EmptyString => EmptyString
  end.

Definition ToUpper : string -> string := mapChars upperChar.
Definition ToLower : string -> string := mapChars lowerChar.

Definition HasPrefix (s p : string) : bool := String.prefix p s.

Definition HasSuffix (s p : string) : bool :=
  String.prefix (reverse p) (reverse s).

(** [strings.Split] with a one-character separator; the accumulator
    holds the current field, reversed. *)
Fixpoint splitGo (sep : ascii) (acc : list ascii) (s : string) : list string :=
  match s with
  | EmptyString => [string_of_list_ascii (List.rev acc)]
  | String c s' =>
      if Ascii.eqb c sep
      then string_of_list_ascii (List.rev acc) :: splitGo sep [] s'
      else splitGo sep (c :: acc) s'
  end.

Definition Split (s : string) (sep : ascii) : list string := splitGo sep [] s.

(** [strings.Join]. *)
Fixpoint Join (l : list string) (sep : string) : string :=
  match l with
  | [] => ""
  | [x] => x
  | x :: rest => x +:+ sep +:+ Join rest sep
  end.

(** [strings.Fields]: the maximal runs of non-space characters. *)
Fixpoint fieldsGo (acc : list ascii) (s : string) : list string :=
  let flush := match acc with
               | [] => []
               | _ => [string_of_list_ascii (List.rev acc)]
               end in
  match s with
  | EmptyString => flush
  | String c s' =>
      if isSpace c then flush ++ fieldsGo [] s' else fieldsGo (c :: acc) s'
  end.

Definition Fields (s : string) : list string := fieldsGo [] s.

(** [strings.TrimPrefix] and [strings.TrimSuffix]. *)
Definition dropChars (n : nat) (s : string) : string :=
  String.substring n (String.length s - n) s.

Definition TrimPrefix (s p : string) : string :=
  if HasPrefix s p then dropChars (String.length p) s else s.

Definition TrimSuffix (s p : string) : string :=
  if HasSuffix s p then String.substring 0 (String.length s - String.length p) s else s.

End GoStrings.

Module strconv.

(** [fmt.Sprintf("%d", z)]. *)
Definition Itoa (z : Z) : string := NilZero.string_of_int (Z.to_int z).

Definition digitVal (c : ascii) : Z := Z.of_N (N_of_ascii c) - 48.

(** A decimal literal [mant / 10 ^ scale]. *)
Record Decimal := { mant : Z; scale : nat }.

(** Reading the digits of a literal: [seenDot] once the point has been
    passed, [digits] counts the digits read so far. *)
Fixpoint readDecimal (s : string) (seenDot : bool) (digits : nat) (acc : Decimal)
  : option Decimal :=
  match s with
  | EmptyString => match digits with O => None | _ => Some acc end
  | String c s' =>
      if GoStrings.isDigit c then
        readDecimal s' seenDot (S digits)
          {| mant := 10 * mant acc + digitVal c;
             scale := if seenDot then S (scale acc) else scale acc |}
      else if Ascii.eqb c "." then
        if seenDot then None else readDecimal s' true digits acc
      else None
  end.

(** [strconv.ParseFloat(s, 64)] on plain decimal literals: an optional
    sign, digits and at most one point, with at least one digit.  The
    value is kept as the exact decimal, where Go rounds it to the nearest
    [float64] (and reports a range error beyond the largest one).  The
    other spellings Go accepts (exponents, hexadecimal, infinities, NaN)
    are reported as syntax errors here; the callers feed it the digits
    of a size, a percentage or curl's fixed-point seconds.  [None] is a
    non-nil [err]. *)
Definition ParseFloat (s : string) : option Decimal :=
  match s with
  | String "-" s' =>
      match readDecimal s' false O {| mant := 0; scale := O |} with
      | Some d => Some {| mant := - mant d; scale := scale d |}
      | None => None
      end
  | String "+" s' => readDecimal s' false O {| mant := 0; scale := O |}
  | _ => readDecimal s false O {| mant := 0; scale := O |}
  end.

(** [int64(d * float64(k))]: the exact product truncated toward zero.
    Go truncates the rounded [float64] product, which can be one unit
    less when the exact product is an integer or just above one
    (0.000065 times 1e9 is 64999 in Go, 65000 here).  Outside the range
    of [int64] Go leaves the result to the implementation; we take the
    amd64 one, the smallest [int64]. *)
Definition toInt64Scaled (d : Decimal) (k : Z) : Z :=
  let q := Z.quot (mant d * k) (10 ^ Z.of_nat (scale d)) in
  if inInt64 q then q else minInt64.

(** [float64 -> int64] of an exact quotient, truncated toward zero; Go
    truncates the quotient of rounded operands, which can differ by one
    unit. *)
Definition toInt64Quot (num den : Z) : Z :=
  let q := Z.quot num den in
  if inInt64 q then q else minInt64.

Fixpoint readDigits (s : string) (digits : nat) (acc : Z) : option Z :=
  match s with
  | EmptyString => match digits with O => None | _ => Some acc end
  | String c s' =>
      if GoStrings.isDigit c
      then readDigits s' (S digits) (10 * acc + digitVal c)
      else None
  end.

(** [strconv.Atoi]: an optional sign and decimal digits, within the
    range of [int] (64 bits).  [None] is a non-nil [err]. *)
Definition Atoi (s : string) : option Z :=
  let r := match s with
           | String "-" s' => option_map Z.opp (readDigits s' O 0)
           | String "+" s' => readDigits s' O 0
           | _ => readDigits s O 0
           end in
  match r with
  | Some z => if inInt64 z then Some z else None
  | None => None
  end.

End strconv.

(** ** Package [time]: durations and [time.ParseDuration] *)

Module time.

Definition Duration := Z.

Definition Nanosecond : Duration := 1.
Definition Microsecond : Duration := 1000 * Nanosecond.
Definition Millisecond : Duration := 1000 * Microsecond.
Definition Second : Duration := 1000 * Millisecond.
Definition Minute : Duration := 60 * Second.
Definition Hour : Duration := 60 * Minute.

(** The two spellings of the micro sign, as UTF-8 bytes. *)
Definition micro1 : string :=
  String (ascii_of_N 194) (String (ascii_of_N 181) "s").
Definition micro2 : string :=
  String (ascii_of_N 206) (String (ascii_of_N 188) "s").

Definition unitMap (u : string) : option Z :=
  if String.eqb u "ns" then Some Nanosecond
  else if String.eqb u "us" || String.eqb u micro1 || String.eqb u micro2
  then Some Microsecond
  else if String.eqb u "ms" then Some Millisecond
  else if String.eqb u "s" then Some Second
  else if String.eqb u "m" then Some Minute
  else if String.eqb u "h" then Some Hour
  else None.

(** One digit of [leadingInt]: [None] on overflow. *)
Definition leadingIntStep (x : Z) (c : ascii) : option Z :=
  if 2 ^ 63 / 10 <? x then None
  else let x' := x * 10 + strconv.digitVal c in
       if 2 ^ 63 <? x' then None else Some x'.

(** The fraction read so far by [leadingFraction]: value, scale, and
    whether precision has stopped accumulating. *)
Record fraction := { fval : Z; fscale : Z; foverflow : bool }.

Definition leadingFractionStep (fr : fraction) (c : ascii) : fraction :=
  if foverflow fr then fr
  else if (2 ^ 63 - 1) / 10 <? fval fr
  then {| fval := fval fr; fscale := fscale fr; foverflow := true |}
  else let y := fval fr * 10 + strconv.digitVal c in
       if 2 ^ 63 <? y
       then {| fval := fval fr; fscale := fscale fr; foverflow := true |}
       else {| fval := y; fscale := fscale fr * 10; foverflow := false |}.

(** Where the scan of one [number unit] group stands. *)
Inductive phase :=
| InInt (pre : bool) (v : Z)
| InFrac (pre post : bool) (v : Z) (fr : fraction)
| InUnit (u : list ascii) (v : Z) (fr : fraction).

Definition noFraction : fraction := {| fval := 0; fscale := 1; foverflow := false |}.

(** The end of a group: scale by the unit and add to the running total
    [d], an unsigned 64-bit value.  The fraction's contribution,
    [float64(f) * (float64(unit) / scale)] in the source, is taken
    exactly. *)
Definition closeGroup (d : Z) (u : list ascii) (v : Z) (fr : fraction) : option Z :=
  match unitMap (string_of_list_ascii (List.rev u)) with
  | None => None
  | Some unit =>
      if 2 ^ 63 / unit <? v then None
      else
        let v1 := v * unit in
        let v2 := if 0 <? fval fr then v1 + (fval fr * unit) / fscale fr else v1 in
        if (0 <? fval fr) && (2 ^ 63 <? v2) then None
        else let d' := (d + v2) mod 2 ^ 64 in
             if 2 ^ 63 <? d' then None else Some d'
  end.

Definition isNumChar (c : ascii) : bool :=
  GoStrings.isDigit c || Ascii.eqb c ".".

(** The loop [for s != ""] of [ParseDuration], one character at a time.
    [None] is any of its error returns. *)
Fixpoint scanGroups (s : string) (d : Z) (ph : phase) : option Z :=
  match s with
  | EmptyString =>
      match ph with
      | InUnit u v fr => closeGroup d u v fr
      | _ => None
      end
  | String c s' =>
      match ph with
      | InInt pre v =>
          if GoStrings.isDigit c then
            match leadingIntStep v c with
            | Some v' => scanGroups s' d (InInt true v')
            | None => None
            end
          else if Ascii.eqb c "." then scanGroups s' d (InFrac pre false v noFraction)
          else if pre then scanGroups s' d (InUnit [c] v noFraction)
          else None
      | InFrac pre post v fr =>
          if GoStrings.isDigit c then
            scanGroups s' d (InFrac pre true v (leadingFractionStep fr c))
          else if negb pre && negb post then None
          else if Ascii.eqb c "." then None
          else scanGroups s' d (InUnit [c] v fr)
      | InUnit u v fr =>
          if isNumChar c then
            match closeGroup d u v fr with
            | None => None
            | Some d' =>
                if GoStrings.isDigit c
                then scanGroups s' d' (InInt true (strconv.digitVal c))
                else scanGroups s' d' (InFrac false false 0 noFraction)
            end
          else scanGroups s' d (InUnit (c :: u) v fr)
      end
  end.

(** [time.ParseDuration]; [None] is a non-nil [err]. *)
Definition ParseDuration (s0 : string) : option Duration :=
  let '(neg, s) :=
    match s0 with
    | String "-" s' => (true, s')
    | String "+" s' => (false, s')
    | _ => (false, s0)
    end in
  if String.eqb s "0" then Some 0
  else if String.eqb s "" then None
  else match scanGroups s 0 (InInt false 0) with
       | None => None
       | Some d =>
           if neg then Some (- d)
           else if 2 ^ 63 - 1 <? d then None else Some d
       end.

End time.

(** ** Package [config] *)

Module config.

Inductive error :=
| ErrEmptySize
| ErrInvalidNumber (s : string)
| ErrUnknownUnit (unit : string)
| ErrReadFile
| ErrYaml.

Definition KB : Z := 1024.
Definition MB : Z := 1024 * KB.
Definition GB : Z := 1024 * MB.

(** [type ByteSize int64]. *)
Definition ByteSize := Z.

Definition Int64 (bs : ByteSize) : Z := bs.

(** [ByteSize.String]: the coarsest unit that divides the size. *)
Definition String_ (bs : ByteSize) : string :=
  let bytes := bs in
  if (GB <=? bytes) && (Z.rem bytes GB =? 0) then
    strconv.Itoa (Z.quot bytes GB) +:+ "GB"
  else if (MB <=? bytes) && (Z.rem bytes MB =? 0) then
    strconv.Itoa (Z.quot bytes MB) +:+ "MB"
  else if (KB <=? bytes) && (Z.rem bytes KB =? 0) then
    strconv.Itoa (Z.quot bytes KB) +:+ "KB"
  else strconv.Itoa bytes +:+ "B".

(** The loop of [parseByteSize] that finds where the number ends: the
    text before the first character that is neither a digit nor a point,
    and the text from that character on.  When the loop runs to the end
    both stay empty. *)
Fixpoint splitNumber (s : string) (seen : list ascii) : string * string :=
  match s with
  | EmptyString => ("", "")
  | String c s' =>
      if GoStrings.isDigit c || Ascii.eqb c "."
      then splitNumber s' (c :: seen)
      else (string_of_list_ascii (List.rev seen), s)
  end.

Definition unitMultiplier (unitStr : string) : option Z :=
  if String.eqb unitStr "B" || String.eqb unitStr "" then Some 1
  else if String.eqb unitStr "KB" || String.eqb unitStr "K" then Some 1024
  else if String.eqb unitStr "MB" || String.eqb unitStr "M" then Some (1024 * 1024)
  else if String.eqb unitStr "GB" || String.eqb unitStr "G" then Some (1024 * 1024 * 1024)
  else None.

(** [parseByteSize]. *)
Definition parseByteSize (s0 : string) : Z + error :=
  let s := GoStrings.TrimSpace s0 in
  if String.eqb s "" then inr ErrEmptySize else
  let '(numStr0, unitStr0) := splitNumber s [] in
  let '(numStr, unitStr) :=
    if String.eqb unitStr0 "" then (s, "B") else (numStr0, unitStr0) in
  match strconv.ParseFloat (GoStrings.TrimSpace numStr) with
  | None => inr (ErrInvalidNumber s)
  | Some num =>
      let unitStr := GoStrings.TrimSpace (GoStrings.ToUpper unitStr) in
      match unitMultiplier unitStr with
      | None => inr (ErrUnknownUnit unitStr)
      | Some multiplier => inl (strconv.toInt64Scaled num multiplier)
      end
  end.

(** [JitterConfig]; the tri-state [Enabled *bool] is an [option bool]. *)
Module JitterConfig.
Record t := { Enabled : option bool; Max : string }.
End JitterConfig.

Module SatelliteConfig.
Record t := { AccessGrant : string; Bucket : string }.
End SatelliteConfig.

Module S3Config.
Record t := { Endpoint : string; AccessKey : string; SecretKey : string; Region : string }.
End S3Config.

Module K6Config.
Record t := { BinaryPath : string; OutputFormat : string }.
End K6Config.

Module MetricsConfig.
Record t := { Port : Z; Path : string }.
End MetricsConfig.

Module LoggingConfig.
Record t := { Level : string; Format : string }.
End LoggingConfig.

Module TestStep.
Record t := {
  Name : string;
  Script : string;
  Timeout : string;
  FileSize : option ByteSize;
  TTLSeconds : option Z;
  FilePrefix : option string;
  MaxAgeMinutes : option Z;
  MaxDelete : option Z;
  Jitter : option JitterConfig.t
}.
End TestStep.

Module Test.
Record t := {
  Name : string;
  Schedule : string;
  Enabled : bool;
  Executor : string;
  Bucket : option string;
  Filename : option string;
  Jitter : option JitterConfig.t;
  Steps : list TestStep.t
}.
End Test.

Module Config.
Record t := {
  Satellite : SatelliteConfig.t;
  S3 : S3Config.t;
  Tests : list Test.t;
  K6 : K6Config.t;
  Metrics : MetricsConfig.t;
  Logging : LoggingConfig.t;
  Jitter : JitterConfig.t
}.
End Config.

(** [Test.GetExecutor]. *)
Definition GetExecutor (t : Test.t) : string :=
  if String.eqb (Test.Executor t) "" then "uplink" else Test.Executor t.

(** [Test.GetBucket]. *)
Definition GetBucket (t : Test.t) (globalBucket : string) : string :=
  match Test.Bucket t with
  | Some b => if String.eqb b "" then globalBucket else b
  | None => globalBucket
  end.

(** [Test.GetFilename]. *)
Definition GetFilename (t : Test.t) (ulid : string) : string :=
  match Test.Filename t with
  | Some f => if String.eqb f "" then Test.Name t +:+ "-" +:+ ulid +:+ ".bin" else f
  | None => Test.Name t +:+ "-" +:+ ulid +:+ ".bin"
  end.

(** [Test.IsSingleStep]. *)
Definition IsSingleStep (t : Test.t) : bool :=
  Nat.eqb (List.length (Test.Steps t)) 1.

(** [TestStep.TimeoutDuration]. *)
Definition TimeoutDuration (t : TestStep.t) : time.Duration :=
  match time.ParseDuration (TestStep.Timeout t) with
  | None => 2 * time.Minute
  | Some d => d
  end.

(** [JitterConfig.IsEnabled], on a pointer that may be nil. *)
Definition IsEnabled (j : option JitterConfig.t) : bool :=
  match j with
  | Some j' => match JitterConfig.Enabled j' with Some b => b | None => false end
  | None => false
  end.

(** [JitterConfig.GetEffectiveJitter]. *)
Definition GetEffectiveJitter (j parent : option JitterConfig.t) : JitterConfig.t :=
  let result :=
    match parent with
    | Some p => p
    | None => {| JitterConfig.Enabled := None; JitterConfig.Max := "" |}
    end in
  match j with
  | Some j' =>
      {| JitterConfig.Enabled :=
           match JitterConfig.Enabled j' with
           | Some b => Some b
           | None => JitterConfig.Enabled result
           end;
         JitterConfig.Max :=
           if String.eqb (JitterConfig.Max j') "" then JitterConfig.Max result
           else JitterConfig.Max j' |}
  | None => result
  end.

(** [JitterConfig.ParseMaxJitter]; [None] is a non-nil [err], for
    which the callers' [maxJitter] is 0.  A percentage is compared with 0
    and 100 as the exact decimal, where Go compares the rounded
    [float64]: a percentage within half a unit of the last place of 100
    (such as 100.000000000000001) or of 0 is in range for Go and out of
    range here. *)
Definition ParseMaxJitter (j : option JitterConfig.t) (scheduleInterval : time.Duration)
  : option time.Duration :=
  match j with
  | None => Some 0
  | Some j' =>
      if String.eqb (JitterConfig.Max j') "" then Some 0 else
      let max := GoStrings.TrimSpace (JitterConfig.Max j') in
      if GoStrings.HasSuffix max "%" then
        match strconv.ParseFloat (GoStrings.TrimSuffix max "%") with
        | None => None
        | Some percent =>
            let one := 10 ^ Z.of_nat (strconv.scale percent) in
            if (strconv.mant percent <? 0) || (100 * one <? strconv.mant percent) then None
            else if scheduleInterval <=? 0 then None
            else Some (strconv.toInt64Quot (scheduleInterval * strconv.mant percent)
                                           (one * 100))
        end
      else time.ParseDuration max
  end.

Definition isSome {A} (o : option A) : bool :=
  match o with Some _ => true | None => false end.

(** [ParseCronInterval]; [None] is the invalid-schedule error. *)
Definition ParseCronInterval (schedule : string) : option time.Duration :=
  match GoStrings.Fields schedule with
  | minute :: hour :: _ :: _ :: _ :: _ =>
      let everyN (field : string) (unit : Z) : option time.Duration :=
        if GoStrings.HasPrefix field "*/" then
          match strconv.Atoi (GoStrings.TrimPrefix field "*/") with
          | Some n => if 0 <? n then Some (wrap64 (n * unit)) else None
          | None => None
          end
        else None in
      match everyN minute time.Minute with
      | Some d => Some d
      | None =>
          match (if String.eqb minute "0" then everyN hour time.Hour else None) with
          | Some d => Some d
          | None =>
              if isSome (strconv.Atoi minute) && String.eqb hour "*" then Some time.Hour
              else if isSome (strconv.Atoi minute) && isSome (strconv.Atoi hour)
              then Some (24 * time.Hour)
              else Some time.Minute
          end
      end
  | _ => None
  end.

(** [Test.GetTestJitter] and [TestStep.GetStepJitter]. *)
Definition GetTestJitter (t : Test.t) (global : JitterConfig.t) : JitterConfig.t :=
  GetEffectiveJitter (Test.Jitter t) (Some global).

Definition GetStepJitter (s : TestStep.t) (testJitter : option JitterConfig.t)
  : JitterConfig.t :=
  GetEffectiveJitter (TestStep.Jitter s) testJitter.

(** [Load].  The file system, the expansion of [${NAME}] references and
    the YAML decoder are the environment of the function. *)
Section Load.
Variable ReadFile : string -> option string.
Variable ExpandEnv : string -> string.
Variable Unmarshal : string -> option Config.t.

Definition orDefault (s d : string) : string :=
  if String.eqb s "" then d else s.

Definition setDefaults (cfg : Config.t) : Config.t :=
  {| Config.Satellite := Config.Satellite cfg;
     Config.S3 :=
       {| S3Config.Endpoint := S3Config.Endpoint (Config.S3 cfg);
          S3Config.AccessKey := S3Config.AccessKey (Config.S3 cfg);
          S3Config.SecretKey := S3Config.SecretKey (Config.S3 cfg);
          S3Config.Region := orDefault (S3Config.Region (Config.S3 cfg)) "us-east-1" |};
     Config.Tests := Config.Tests cfg;
     Config.K6 :=
       {| K6Config.BinaryPath :=
            orDefault (K6Config.BinaryPath (Config.K6 cfg)) "/usr/local/bin/k6";
          K6Config.OutputFormat :=
            orDefault (K6Config.OutputFormat (Config.K6 cfg)) "json" |};
     Config.Metrics :=
       {| MetricsConfig.Port :=
            if MetricsConfig.Port (Config.Metrics cfg) =? 0 then 8080
            else MetricsConfig.Port (Config.Metrics cfg);
          MetricsConfig.Path :=
            orDefault (MetricsConfig.Path (Config.Metrics cfg)) "/metrics" |};
     Config.Logging :=
       {| LoggingConfig.Level := orDefault (LoggingConfig.Level (Config.Logging cfg)) "info";
          LoggingConfig.Format :=
            orDefault (LoggingConfig.Format (Config.Logging cfg)) "json" |};
     Config.Jitter := Config.Jitter cfg |}.

Definition Load (path : string) : Config.t + error :=
  match ReadFile path with
  | None => inr ErrReadFile
  | Some data =>
      match Unmarshal (ExpandEnv data) with
      | None => inr ErrYaml
      | Some cfg => inl (setDefaults cfg)
      end
  end.
End Load.

End config.

(** ** Package [metrics]: the labelled collector *)

Module metrics.

(** Label tuples of the vectors. *)
Abbreviation labels3 := (string * string * string)%type.
Abbreviation labels4 := (string * string * string * string)%type.
Abbreviation labels5 := (string * string * string * string * string)%type.

(** A [CounterVec] maps a label tuple to the value of its counter, 0
    for a child that was never touched.  Values are exact integers. *)
Section Vectors.
Context {K : Type} `{Countable K}.

Definition value (m : gmap K Z) (k : K) : Z := default 0 (m !! k).

(** [Counter.Inc]. *)
Definition Inc (k : K) (m : gmap K Z) : gmap K Z := <[k := value m k + 1]> m.

(** [Counter.Add], which panics on a negative argument: [None]. *)
Definition Add (k : K) (v : Z) (m : gmap K Z) : option (gmap K Z) :=
  if v <? 0 then None else Some (<[k := value m k + v]> m).

(** [Histogram.Observe]: the observations of a child, latest first. *)
Definition Observe (k : K) (v : Z) (m : gmap K (list Z)) : gmap K (list Z) :=
  <[k := v :: default [] (m !! k)]> m.

(** [Gauge.Set]. *)
Definition GaugeSet (k : K) (v : Z) (m : gmap K Z) : gmap K Z := <[k := v]> m.
End Vectors.

Record Collector := {
  testRunsTotal : gmap labels4 Z;
  testRunDuration : gmap labels3 (list Z);
  storjDuration : gmap labels5 (list Z);
  storjBytes : gmap labels4 Z;
  storjOperationCount : gmap labels4 Z;
  storjOperationSuccess : gmap labels4 Z;
  httpTiming : gmap labels4 (list Z);
  lastDuration : gmap labels3 Z;
  lastHTTPPhase : gmap labels4 Z
}.

(** [NewCollector]. *)
Definition NewCollector : Collector :=
  {| testRunsTotal := ∅; testRunDuration := ∅; storjDuration := ∅; storjBytes := ∅;
     storjOperationCount := ∅; storjOperationSuccess := ∅; httpTiming := ∅;
     lastDuration := ∅; lastHTTPPhase := ∅ |}.

Definition with_testRunsTotal (f : gmap labels4 Z -> gmap labels4 Z) (c : Collector) :=
  {| testRunsTotal := f (testRunsTotal c); testRunDuration := testRunDuration c;
     storjDuration := storjDuration c; storjBytes := storjBytes c;
     storjOperationCount := storjOperationCount c;
     storjOperationSuccess := storjOperationSuccess c; httpTiming := httpTiming c;
     lastDuration := lastDuration c; lastHTTPPhase := lastHTTPPhase c |}.

Definition with_testRunDuration (f : gmap labels3 (list Z) -> gmap labels3 (list Z))
  (c : Collector) :=
  {| testRunsTotal := testRunsTotal c; testRunDuration := f (testRunDuration c);
     storjDuration := storjDuration c; storjBytes := storjBytes c;
     storjOperationCount := storjOperationCount c;
     storjOperationSuccess := storjOperationSuccess c; httpTiming := httpTiming c;
     lastDuration := lastDuration c; lastHTTPPhase := lastHTTPPhase c |}.

Definition with_storjDuration (f : gmap labels5 (list Z) -> gmap labels5 (list Z))
  (c : Collector) :=
  {| testRunsTotal := testRunsTotal c; testRunDuration := testRunDuration c;
     storjDuration := f (storjDuration c); storjBytes := storjBytes c;
     storjOperationCount := storjOperationCount c;
     storjOperationSuccess := storjOperationSuccess c; httpTiming := httpTiming c;
     lastDuration := lastDuration c; lastHTTPPhase := lastHTTPPhase c |}.

Definition with_storjBytes (m : gmap labels4 Z) (c : Collector) :=
  {| testRunsTotal := testRunsTotal c; testRunDuration := testRunDuration c;
     storjDuration := storjDuration c; storjBytes := m;
     storjOperationCount := storjOperationCount c;
     storjOperationSuccess := storjOperationSuccess c; httpTiming := httpTiming c;
     lastDuration := lastDuration c; lastHTTPPhase := lastHTTPPhase c |}.

Definition with_storjOperationCount (f : gmap labels4 Z -> gmap labels4 Z) (c : Collector) :=
  {| testRunsTotal := testRunsTotal c; testRunDuration := testRunDuration c;
     storjDuration := storjDuration c; storjBytes := storjBytes c;
     storjOperationCount := f (storjOperationCount c);
     storjOperationSuccess := storjOperationSuccess c; httpTiming := httpTiming c;
     lastDuration := lastDuration c; lastHTTPPhase := lastHTTPPhase c |}.

Definition with_storjOperationSuccess (f : gmap labels4 Z -> gmap labels4 Z)
  (c : Collector) :=
  {| testRunsTotal := testRunsTotal c; testRunDuration := testRunDuration c;
     storjDuration := storjDuration c; storjBytes := storjBytes c;
     storjOperationCount := storjOperationCount c;
     storjOperationSuccess := f (storjOperationSuccess c); httpTiming := httpTiming c;
     lastDuration := lastDuration c; lastHTTPPhase := lastHTTPPhase c |}.

Definition with_httpTiming (f : gmap labels4 (list Z) -> gmap labels4 (list Z))
  (c : Collector) :=
  {| testRunsTotal := testRunsTotal c; testRunDuration := testRunDuration c;
     storjDuration := storjDuration c; storjBytes := storjBytes c;
     storjOperationCount := storjOperationCount c;
     storjOperationSuccess := storjOperationSuccess c; httpTiming := f (httpTiming c);
     lastDuration := lastDuration c; lastHTTPPhase := lastHTTPPhase c |}.

Definition with_lastDuration (f : gmap labels3 Z -> gmap labels3 Z) (c : Collector) :=
  {| testRunsTotal := testRunsTotal c; testRunDuration := testRunDuration c;
     storjDuration := storjDuration c; storjBytes := storjBytes c;
     storjOperationCount := storjOperationCount c;
     storjOperationSuccess := storjOperationSuccess c; httpTiming := httpTiming c;
     lastDuration := f (lastDuration c); lastHTTPPhase := lastHTTPPhase c |}.

Definition with_lastHTTPPhase (f : gmap labels4 Z -> gmap labels4 Z) (c : Collector) :=
  {| testRunsTotal := testRunsTotal c; testRunDuration := testRunDuration c;
     storjDuration := storjDuration c; storjBytes := storjBytes c;
     storjOperationCount := storjOperationCount c;
     storjOperationSuccess := storjOperationSuccess c; httpTiming := httpTiming c;
     lastDuration := lastDuration c; lastHTTPPhase := f (lastHTTPPhase c) |}.

(** [HTTPTimings]. *)
Record HTTPTimings := {
  DNSLookup : time.Duration;
  TCPConnect : time.Duration;
  TLSHandshake : time.Duration;
  TTFB : time.Duration;
  Transfer : time.Duration;
  Total : time.Duration
}.

Definition statusLabel (success : bool) : string :=
  if success then "success" else "failure".

(** [Collector.RecordTestRun]. *)
Definition RecordTestRun (testName stepName executor : string) (success : bool)
  (duration : time.Duration) (c : Collector) : Collector :=
  let status := statusLabel success in
  with_testRunDuration (Observe (testName, stepName, executor) duration)
    (with_testRunsTotal (Inc (testName, stepName, executor, status)) c).

(** The tail shared by [RecordStorjUpload] and [RecordStorjDownload]:
    the bytes and operation counters move on success only. *)
Definition recordOutcome (testName action executor bucket : string) (bytes : Z)
  (success : bool) (c : Collector) : option Collector :=
  if success then
    match Add (testName, action, executor, bucket) bytes (storjBytes c) with
    | None => None
    | Some b =>
        Some (with_storjOperationSuccess (Inc (testName, action, executor, "success"))
                (with_storjOperationCount (Inc (testName, action, executor, bucket))
                   (with_storjBytes b c)))
    end
  else Some (with_storjOperationSuccess (Inc (testName, action, executor, "failure")) c).

(** [Collector.RecordStorjUpload]; [None] when [Counter.Add] panics. *)
Definition RecordStorjUpload (testName executor bucket fileSize : string)
  (duration : time.Duration) (bytes : Z) (success : bool) (c : Collector)
  : option Collector :=
  let action := "upload" in
  let c1 := if negb (String.eqb fileSize "") && (0 <? duration)
            then with_storjDuration
                   (Observe (testName, action, executor, bucket, fileSize) duration) c
            else c in
  let c2 := if 0 <? duration
            then with_lastDuration (GaugeSet (testName, action, executor) duration) c1
            else c1 in
  recordOutcome testName action executor bucket bytes success c2.

(** [formatBytesLabel]. *)
Definition formatBytesLabel (bytes : Z) : string :=
  if (config.GB <=? bytes) && (Z.rem bytes config.GB =? 0) then
    strconv.Itoa (Z.quot bytes config.GB) +:+ "GB"
  else if (config.MB <=? bytes) && (Z.rem bytes config.MB =? 0) then
    strconv.Itoa (Z.quot bytes config.MB) +:+ "MB"
  else if (config.KB <=? bytes) && (Z.rem bytes config.KB =? 0) then
    strconv.Itoa (Z.quot bytes config.KB) +:+ "KB"
  else strconv.Itoa bytes +:+ "B".

(** [Collector.RecordStorjDownload]; [None] when [Counter.Add] panics. *)
Definition RecordStorjDownload (testName executor bucket fileSize0 : string)
  (duration : time.Duration) (bytes : Z) (success : bool) (c : Collector)
  : option Collector :=
  let action := "download" in
  let fileSize1 := if String.eqb fileSize0 "" && (0 <? bytes)
                   then formatBytesLabel bytes else fileSize0 in
  let fileSize := if String.eqb fileSize1 "" then "unknown" else fileSize1 in
  let c1 := if 0 <? duration
            then with_storjDuration
                   (Observe (testName, action, executor, bucket, fileSize) duration) c
            else c in
  let c2 := if 0 <? duration
            then with_lastDuration (GaugeSet (testName, action, executor) duration) c1
            else c1 in
  recordOutcome testName action executor bucket bytes success c2.

(** [Collector.RecordStorjList]. *)
Definition RecordStorjList (testName executor bucket : string) (success : bool)
  (c : Collector) : Collector :=
  let action := "list" in
  let c1 := with_storjOperationSuccess
              (Inc (testName, action, executor, statusLabel success)) c in
  if success
  then with_storjOperationCount (Inc (testName, action, executor, bucket)) c1
  else c1.

(** [Collector.RecordHTTPTimingPhase]. *)
Definition RecordHTTPTimingPhase (testName action executor phase : string)
  (duration : time.Duration) (c : Collector) : Collector :=
  if 0 <? duration
  then with_lastHTTPPhase (GaugeSet (testName, action, executor, phase) duration)
         (with_httpTiming (Observe (testName, action, executor, phase) duration) c)
  else c.

(** [Collector.RecordHTTPTiming]: one sample for each positive phase. *)
Definition RecordHTTPTiming (testName action executor : string) (t : HTTPTimings)
  (c : Collector) : Collector :=
  let phase name d := RecordHTTPTimingPhase testName action executor name d in
  phase "total" (Total t)
    (phase "transfer" (Transfer t)
       (phase "ttfb" (TTFB t)
          (phase "tls" (TLSHandshake t)
             (phase "connect" (TCPConnect t)
                (phase "dns" (DNSLookup t) c))))).

(** [Collector.RecordStorjDelete]; the count is added only when it is
    positive, so this never panics. *)
Definition RecordStorjDelete (testName executor bucket fileSize : string)
  (duration : time.Duration) (count : Z) (success : bool) (c : Collector) : Collector :=
  let action := "delete" in
  let c1 := if negb (String.eqb fileSize "") && (0 <? duration)
            then with_storjDuration
                   (Observe (testName, action, executor, bucket, fileSize) duration) c
            else c in
  let c2 := if 0 <? duration
            then with_lastDuration (GaugeSet (testName, action, executor) duration) c1
            else c1 in
  let c3 := with_storjOperationSuccess
              (Inc (testName, action, executor, statusLabel success)) c2 in
  if success && (0 <? count)
  then with_storjOperationCount
         (fun m => <[(testName, action, executor, bucket) :=
                       value m (testName, action, executor, bucket) + count]> m) c3
  else c3.

End metrics.

(** ** Package [jitter] *)

Module jitter.

(** What the caller's [context.Context] does while [Apply] waits:
    [cancelledAfter] is how long after the call [ctx.Done()] becomes
    ready, [None] if it never does during the wait; 0 (or less) for a
    context cancelled beforehand. *)
Record Context := { cancelledAfter : option time.Duration }.

Inductive error := Canceled.

(** The result of a call: the returned [error] ([None] is nil) and the
    time spent waiting. *)
Record Result := { err : option error; waited : time.Duration }.

Section Apply.
(** [rand.Int63n] of [math/rand], the draw of this call. *)
Variable Int63n : Z -> Z.
(** Which case [select] takes when the timer and [ctx.Done()] become
    ready together: [true] for the timer. *)
Variable timerWinsTie : bool.

(** [Apply].  The [select] takes whichever of the timer and the
    context's cancellation comes first. *)
Definition Apply (ctx : Context) (maxJitter : time.Duration) (label : string) : Result :=
  if maxJitter <=? 0 then {| err := None; waited := 0 |}
  else
    let jitterDuration := Int63n maxJitter in
    match cancelledAfter ctx with
    | None => {| err := None; waited := jitterDuration |}
    | Some t =>
        let t' := Z.max 0 t in
        if jitterDuration <? t' then {| err := None; waited := jitterDuration |}
        else if t' <? jitterDuration then {| err := Some Canceled; waited := t' |}
        else if timerWinsTie then {| err := None; waited := jitterDuration |}
        else {| err := Some Canceled; waited := t' |}
    end.
End Apply.

End jitter.

(** ** Package [awsv4]: AWS Signature Version 4 *)

Module awsv4.

Definition algorithm : string := "AWS4-HMAC-SHA256".
Definition serviceName : string := "s3".
Definition terminationStr : string := "aws4_request".
Definition unsignedPayload : string := "UNSIGNED-PAYLOAD".

Record Credentials := { AccessKey : string; SecretKey : string; Region : string }.

(** A [time.Time] in UTC, by its civil fields. *)
Record Time := {
  Year : Z; Month : Z; Day : Z; Hour : Z; Minute : Z; Second : Z
}.

Fixpoint zeros (n : nat) : string :=
  match n with O => "" | S n' => String "0" (zeros n') end.

(** A number printed in at least [width] digits, as [Time.Format] does. *)
Definition padInt (width : nat) (z : Z) : string :=
  let digits := strconv.Itoa (Z.abs z) in
  (if z <? 0 then "-" else "") +:+ zeros (width - String.length digits) +:+ digits.

(** [t.Format(dateFormat)], layout [20060102]. *)
Definition formatDate (t : Time) : string :=
  padInt 4 (Year t) +:+ padInt 2 (Month t) +:+ padInt 2 (Day t).

(** [t.Format(timeFormat)], layout [20060102T150405Z]. *)
Definition formatTime (t : Time) : string :=
  formatDate t +:+ "T" +:+ padInt 2 (Hour t) +:+ padInt 2 (Minute t)
    +:+ padInt 2 (Second t) +:+ "Z".

(** [http.Header] and [url.Values]: maps from a name to its values. *)
Abbreviation Header := (gmap string (list string)).

Definition isAlpha (c : ascii) : bool :=
  let n := N_of_ascii c in
  ((97 <=? n) && (n <=? 122))%N || ((65 <=? n) && (n <=? 90))%N.

(** The bytes of an HTTP token. *)
Definition isTokenChar (c : ascii) : bool :=
  isAlpha c || GoStrings.isDigit c ||
  existsb (Ascii.eqb c)
    ["!"; "#"; "$"; "%"; "&"; "'"; "*"; "+"; "-"; "."; "^"; "_"; "`"; "|"; "~"]%char.

Fixpoint allChars (f : ascii -> bool) (s : string) : bool :=
  match s with
  | EmptyString => true
  | String c s' => f c && allChars f s'
  end.

Fixpoint canonicalGo (upper : bool) (s : string) : string :=
  match s with
  | EmptyString => EmptyString
  | String c s' =>
      String (if upper then GoStrings.upperChar c else GoStrings.lowerChar c)
             (canonicalGo (Ascii.eqb c "-") s')
  end.

(** [http.CanonicalHeaderKey]: a name with a byte outside the token set
    is returned as it is. *)
Definition CanonicalHeaderKey (s : string) : string :=
  if allChars isTokenChar s then canonicalGo true s else s.

(** [Header.Set]. *)
Definition HeaderSet (key value : string) (h : Header) : Header :=
  <[CanonicalHeaderKey key := [value]]> h.

(** The parts of an [*http.Request] that signing reads and writes:
    [URLPath] is [req.URL.Path] and [Query] is [req.URL.Query()]. *)
Record Request := {
  Method : string;
  Host : string;
  URLPath : string;
  Query : Header;
  Headers : Header
}.

(** The order in which a [range] statement visits a map is chosen by
    the runtime, anew for each statement.  A [Ranger] gives, for the
    [n]-th [range] of a call, the visiting order as a rearrangement of
    the map's entries. *)
Definition Ranger := nat -> list (string * list string) -> list (string * list string).

Definition rangeMap (rng : Ranger) (n : nat) (m : Header) : list (string * list string) :=
  rng n (map_to_list m).

(** [sort.Strings]: ascending in the byte-wise order of strings. *)
Definition sortStrings (l : list string) : list string := merge_sort String.le l.

Definition upperhex (n : N) : ascii :=
  if (n <? 10)%N then ascii_of_N (48 + n) else ascii_of_N (55 + n).

Definition lowerhex (n : N) : ascii :=
  if (n <? 10)%N then ascii_of_N (48 + n) else ascii_of_N (87 + n).

(** [hex.EncodeToString]. *)
Fixpoint hexEncode (bs : list byte) : string :=
  match bs with
  | [] => ""
  | b :: bs' =>
      let n := Byte.to_N b in
      String (lowerhex (n / 16)) (String (lowerhex (n mod 16)) (hexEncode bs'))
  end.

Inductive escapeMode := encodePathSegment | encodeQueryComponent.

(** [shouldEscape] of [net/url], for the two modes in use. *)
Definition shouldEscape (c : ascii) (mode : escapeMode) : bool :=
  if isAlpha c || GoStrings.isDigit c then false
  else if existsb (Ascii.eqb c) ["-"; "_"; "."; "~"]%char then false
  else if existsb (Ascii.eqb c) ["$"; "&"; "+"; ","; "/"; ":"; ";"; "="; "?"; "@"]%char
  then match mode with
       | encodePathSegment => existsb (Ascii.eqb c) ["/"; ";"; ","; "?"]%char
       | encodeQueryComponent => true
       end
  else true.

Fixpoint escape (s : string) (mode : escapeMode) : string :=
  match s with
  | EmptyString => EmptyString
  | String c s' =>
      if shouldEscape c mode then
        match mode with
        | encodeQueryComponent =>
            if Ascii.eqb c " " then String "+" (escape s' mode)
            else String "%" (String (upperhex (N_of_ascii c / 16))
                               (String (upperhex (N_of_ascii c mod 16)) (escape s' mode)))
        | encodePathSegment =>
            String "%" (String (upperhex (N_of_ascii c / 16))
                          (String (upperhex (N_of_ascii c mod 16)) (escape s' mode)))
        end
      else String c (escape s' mode)
  end.

(** [url.PathEscape] and [url.QueryEscape]. *)
Definition PathEscape (s : string) : string := escape s encodePathSegment.
Definition QueryEscape (s : string) : string := escape s encodeQueryComponent.

(** [canonicalURIEncode]. *)
Definition canonicalURIEncode (path : string) : string :=
  GoStrings.Join (List.map PathEscape (GoStrings.Split path "/")) "/".

(** [canonicalizeQueryString]; its [range] is the statement [n]. *)
Definition canonicalizeQueryString (rng : Ranger) (n : nat) (values : Header) : string :=
  if Nat.eqb (size values) 0 then "" else
  let keys := sortStrings (List.map fst (rangeMap rng n values)) in
  let parts :=
    List.concat
      (List.map (fun key =>
                   List.map (fun value => QueryEscape key +:+ "=" +:+ QueryEscape value)
                            (default [] (values !! key)))
                keys) in
  GoStrings.Join parts "&".

Definition isSignedName (lowerName : string) : bool :=
  GoStrings.HasPrefix lowerName "x-amz-" || String.eqb lowerName "content-type".

(** The inner loop of [canonicalizeHeaders]: the trimmed first value of
    the first visited header whose lower-cased name is [name] and which
    has a value; the empty string when there is none. *)
Fixpoint lookupHeader (visit : list (string * list string)) (name : string) : string :=
  match visit with
  | [] => ""
  | (hName, hValues) :: rest =>
      match hValues with
      | v :: _ =>
          if String.eqb (GoStrings.ToLower hName) name then GoStrings.TrimSpace v
          else lookupHeader rest name
      | [] => lookupHeader rest name
      end
  end.

(** The second loop of [canonicalizeHeaders], over the sorted names;
    the inner [range] for the [i]-th name is the statement [n + i]. *)
Fixpoint canonicalHeaderParts (rng : Ranger) (n : nat) (headers : Header) (host : string)
  (names : list string) : list string :=
  match names with
  | [] => []
  | name :: rest =>
      let value := if String.eqb name "host" then host
                   else lookupHeader (rangeMap rng n headers) name in
      (name +:+ ":" +:+ value +:+ String (ascii_of_N 10) "")
        :: canonicalHeaderParts rng (S n) headers host rest
  end.

(** [canonicalizeHeaders]; its [range] statements are [n], [n+1], ... *)
Definition canonicalizeHeaders (rng : Ranger) (n : nat) (headers : Header) (host : string)
  : string * string :=
  let collected :=
    List.filter isSignedName
      (List.map (fun e => GoStrings.ToLower (fst e)) (rangeMap rng n headers)) in
  let signedHeadersList := sortStrings ("host" :: collected) in
  let canonicalHeaders :=
    GoStrings.Join (canonicalHeaderParts rng (S n) headers host signedHeadersList) "" in
  (canonicalHeaders, GoStrings.Join signedHeadersList ";").

Definition newline : string := String (ascii_of_N 10) "".

(** [buildCanonicalRequest]. *)
Definition buildCanonicalRequest (rng : Ranger) (req : Request) (payloadHash : string)
  : string * string :=
  let canonicalURI :=
    canonicalURIEncode (if String.eqb (URLPath req) "" then "/" else URLPath req) in
  let canonicalQueryString := canonicalizeQueryString rng 0 (Query req) in
  let '(canonicalHeaders, signedHeaders) :=
    canonicalizeHeaders rng 1 (Headers req) (Host req) in
  (GoStrings.Join
     [Method req; canonicalURI; canonicalQueryString; canonicalHeaders; signedHeaders;
      payloadHash] newline,
   signedHeaders).

Section Signing.
(** [sha256.Sum256] and HMAC with SHA-256, from [crypto]. *)
Variable SHA256 : list byte -> list byte.
Variable HMAC : list byte -> list byte -> list byte.

(** [hashSHA256] and [hmacSHA256]. *)
Definition hashSHA256 (data : list byte) : string := hexEncode (SHA256 data).
Definition hmacSHA256 (key data : list byte) : list byte := HMAC key data.

Definition bytesOf (s : string) : list byte := list_byte_of_string s.

(** [buildStringToSign]. *)
Definition buildStringToSign (algorithm amzDate credentialScope canonicalRequest : string)
  : string :=
  GoStrings.Join
    [algorithm; amzDate; credentialScope; hashSHA256 (bytesOf canonicalRequest)] newline.

(** [deriveSigningKey]. *)
Definition deriveSigningKey (secretKey dateStamp region service : string) : list byte :=
  let kDate := hmacSHA256 (bytesOf ("AWS4" +:+ secretKey)) (bytesOf dateStamp) in
  let kRegion := hmacSHA256 kDate (bytesOf region) in
  let kService := hmacSHA256 kRegion (bytesOf service) in
  hmacSHA256 kService (bytesOf terminationStr).

Definition setHeaders (f : Header -> Header) (req : Request) : Request :=
  {| Method := Method req; Host := Host req; URLPath := URLPath req;
     Query := Query req; Headers := f (Headers req) |}.

(** [signRequestAtTime]; [payload] is [None] for a nil slice.  The
    function always returns a nil error; the result is the request
    with its headers written. *)
Definition signRequestAtTime (rng : Ranger) (req : Request) (creds : Credentials)
  (payload : option (list byte)) (t : Time) : Request :=
  let amzDate := formatTime t in
  let req1 := setHeaders (HeaderSet "X-Amz-Date" amzDate) req in
  let req2 := setHeaders (HeaderSet "Host" (Host req1)) req1 in
  let payloadHash := match payload with
                     | Some p => hashSHA256 p
                     | None => unsignedPayload
                     end in
  let req3 := setHeaders (HeaderSet "X-Amz-Content-Sha256" payloadHash) req2 in
  let '(canonicalReq, signedHeaders) := buildCanonicalRequest rng req3 payloadHash in
  let dateStamp := formatDate t in
  let credentialScope :=
    dateStamp +:+ "/" +:+ Region creds +:+ "/" +:+ serviceName +:+ "/" +:+ terminationStr in
  let stringToSign := buildStringToSign algorithm amzDate credentialScope canonicalReq in
  let signingKey := deriveSigningKey (SecretKey creds) dateStamp (Region creds) serviceName in
  let signature := hexEncode (hmacSHA256 signingKey (bytesOf stringToSign)) in
  let authHeader :=
    algorithm +:+ " Credential=" +:+ AccessKey creds +:+ "/" +:+ credentialScope
      +:+ ", SignedHeaders=" +:+ signedHeaders +:+ ", Signature=" +:+ signature in
  setHeaders (HeaderSet "Authorization" authHeader) req3.


(** [signRequestAtTimeUnsigned]. *)
Definition signRequestAtTimeUnsigned (rng : Ranger) (req : Request)
  (creds : Credentials) (t : Time) : Request :=
  let amzDate := formatTime t in
  let req1 := setHeaders (HeaderSet "X-Amz-Date" amzDate) req in
  let req2 := setHeaders (HeaderSet "Host" (Host req1)) req1 in
  let req3 :=
    setHeaders (HeaderSet "X-Amz-Content-Sha256" unsignedPayload) req2 in
  let '(canonicalReq, signedHeaders) :=
    buildCanonicalRequest rng req3 unsignedPayload in
  let dateStamp := formatDate t in
  let credentialScope :=
    dateStamp +:+ "/" +:+ Region creds +:+ "/" +:+ serviceName +:+ "/"
      +:+ terminationStr in
  let stringToSign :=
    buildStringToSign algorithm amzDate credentialScope canonicalReq in
  let signingKey :=
    deriveSigningKey (SecretKey creds) dateStamp (Region creds)
      serviceName in
  let signature :=
    hexEncode (hmacSHA256 signingKey (bytesOf stringToSign)) in
  let authHeader :=
    algorithm +:+ " Credential=" +:+ AccessKey creds +:+ "/" +:+ credentialScope
      +:+ ", SignedHeaders=" +:+ signedHeaders +:+ ", Signature=" +:+ signature in
  setHeaders (HeaderSet "Authorization" authHeader) req3.

(** [Signer]: the credentials, and the signing key derived for the day
    [dateStamp]; a new signer has a nil key and an empty date. *)
Record Signer := {
  creds : Credentials;
  signingKey : list byte;
  dateStamp : string
}.

(** [NewSigner]. *)
Definition NewSigner (creds : Credentials) : Signer :=
  {| creds := creds; signingKey := []; dateStamp := "" |}.

(** [Signer.Sign], at the instant [now] that [time.Now().UTC()] returns:
    the signer with its cache as the call leaves it, and the request with
    its headers written.  The error it returns is always nil. *)
Definition Sign (rng : Ranger) (s : Signer) (req : Request) (now : Time)
  : Signer * Request :=
  let dateStamp' := formatDate now in
  let s1 :=
    if negb (String.eqb (dateStamp s) dateStamp')
    then {| creds := creds s;
            signingKey :=
              deriveSigningKey (SecretKey (creds s)) dateStamp'
                (Region (creds s)) serviceName;
            dateStamp := dateStamp' |}
    else s in
  let amzDate := formatTime now in
  let req1 := setHeaders (HeaderSet "X-Amz-Date" amzDate) req in
  let req2 := setHeaders (HeaderSet "Host" (Host req1)) req1 in
  let req3 :=
    setHeaders (HeaderSet "X-Amz-Content-Sha256" unsignedPayload) req2 in
  let '(canonicalReq, signedHeaders) :=
    buildCanonicalRequest rng req3 unsignedPayload in
  let credentialScope :=
    dateStamp' +:+ "/" +:+ Region (creds s1) +:+ "/" +:+ serviceName +:+ "/"
      +:+ terminationStr in
  let stringToSign :=
    buildStringToSign algorithm amzDate credentialScope canonicalReq in
  let signature :=
    hexEncode (hmacSHA256 (signingKey s1) (bytesOf stringToSign)) in
  let authHeader :=
    algorithm +:+ " Credential=" +:+ AccessKey (creds s1) +:+ "/"
      +:+ credentialScope +:+ ", SignedHeaders=" +:+ signedHeaders +:+ ", Signature="
      +:+ signature in
  (s1, setHeaders (HeaderSet "Authorization" authHeader) req3).
End Signing.

End awsv4.

(** ** Package [k6output]: the child's metric stream *)

Module k6output.

(** [MetricPoint], without the time and the tags, which the executor
    does not read.  The value is the decimal the JSON number spells. *)
Record MetricPoint := { Metric : string; Value : strconv.Decimal }.

(** [GroupMetricsByName], as the lookup [grouped[name]]: the points of
    that metric, in the order of the stream. *)
Definition GroupMetricsByName (points : list MetricPoint) (name : string)
  : list MetricPoint :=
  List.filter (fun p => String.eqb (Metric p) name) points.

End k6output.

(** ** Package [executor] *)

Module executor.

(** The errors the executors return, by the shape of their message. *)
Inductive error :=
| ErrCurlFormat (output : string)
| ErrUnknownOperation (kind name : string)
| ErrOperation (what : string)
| ErrStepJitter
| ErrStepExecution (cause : error)
| ErrTestFailed (test step : string) (cause : error)
| ErrEnsureBucket (bucket : string) (cause : error).

(** *** The curl timing report *)

(** The closure [parseSeconds] of [parseCurlOutput], on the fixed-point
    seconds that curl writes.  The nanoseconds are those of the exact
    decimal: Go's can be one less (see [strconv.toInt64Scaled]), and a
    spelling that only Go's [ParseFloat] reads gives 0 here. *)
Definition parseSeconds (s : string) : time.Duration :=
  match strconv.ParseFloat s with
  | None => 0
  | Some f => strconv.toInt64Scaled f time.Second
  end.

(** [parseCurlOutput]: the status code and the phase timings.  The
    subtractions are those of [int64]. *)
Definition parseCurlOutput (output : string) : (string * metrics.HTTPTimings) + error :=
  match GoStrings.Split (GoStrings.TrimSpace output) "|" with
  | [p0; p1; p2; p3; p4; p5] =>
      let statusCode := p0 in
      let dnsLookup := parseSeconds p1 in
      let tcpConnect := parseSeconds p2 in
      let tlsHandshake := parseSeconds p3 in
      let ttfb := parseSeconds p4 in
      let total := parseSeconds p5 in
      inl (statusCode,
           {| metrics.DNSLookup := dnsLookup;
              metrics.TCPConnect := wrap64 (tcpConnect - dnsLookup);
              metrics.TLSHandshake := wrap64 (tlsHandshake - tcpConnect);
              metrics.TTFB := wrap64 (ttfb - tlsHandshake);
              metrics.Transfer := wrap64 (total - ttfb);
              metrics.Total := total |})
  | _ => inr (ErrCurlFormat output)
  end.

(** *** The run loop shared by the executors *)

(** The outcome of a piece of executor code on the collector: [None]
    when it panics, otherwise the collector it leaves and the [error]
    it returns ([None] for nil). *)
Definition outcome := option (metrics.Collector * option error).

(** The interface [TestExecutor], for executors of type [E] that run in
    a world of type [W]. *)
Class TestExecutor (E W : Type) := {
  RunTest : E -> W -> config.Test.t -> metrics.Collector -> outcome
}.

(** What the outside world does during one step: the context and the
    random draw seen by the step's jitter, what the backend's calls
    return ([opWorld]), and the two readings of the clock,
    [time.Since(stepStart)] and [time.Since(testStart)]. *)
Record StepWorld (W : Type) := {
  ctx : jitter.Context;
  Int63n : Z -> Z;
  timerWinsTie : bool;
  opWorld : W;
  sinceStepStart : time.Duration;
  sinceTestStart : time.Duration
}.
Arguments ctx {W}.
Arguments Int63n {W}.
Arguments timerWinsTie {W}.
Arguments opWorld {W}.
Arguments sinceStepStart {W}.
Arguments sinceTestStart {W}.

(** What the outside world does during one run: the ULID drawn, what
    the bucket calls return, the world of the [i]-th step, and
    [time.Since(testStart)] at the end of the run. *)
Record RunWorld (B W : Type) := {
  testULID : string;
  bucketWorld : B;
  stepWorld : nat -> StepWorld W;
  runDuration : time.Duration
}.
Arguments testULID {B W}.
Arguments bucketWorld {B W}.
Arguments stepWorld {B W}.
Arguments runDuration {B W}.

(** An S3-style backend: the name it reports as the [executor] label,
    the word it uses in its unknown-operation message, and its bucket
    and object operations. *)
Class Backend (B W : Type) := {
  executorName : string;
  operationKind : string;
  ensureBucket : B -> string -> option error;
  uploadObject : W -> string -> string -> string -> config.TestStep.t ->
                 metrics.Collector -> outcome;
  downloadObject : W -> string -> string -> string -> metrics.Collector -> outcome;
  deleteObject : W -> string -> string -> string -> string -> metrics.Collector -> outcome
}.

(** The step-level jitter at the head of every [runStep]. *)
Definition stepJitter {W} (w : StepWorld W) (testName : string) (step : config.TestStep.t)
  : option jitter.error :=
  match config.TestStep.Jitter step with
  | Some j =>
      if config.IsEnabled (Some j) then
        let maxJitter := default 0 (config.ParseMaxJitter (Some j) 0) in
        if 0 <? maxJitter then
          jitter.err (jitter.Apply (Int63n w) (timerWinsTie w) (ctx w) maxJitter
                        ("step " +:+ testName +:+ "/" +:+ config.TestStep.Name step))
        else None
      else None
  | None => None
  end.

(** The loop [for i, step := range test.Steps] that the four [RunTest]
    methods have in common, from its [i]-th iteration on, and the code
    after it.  [runStep i step] is the method's own [runStep] on the
    [i]-th step; [sinceStart i] is [time.Since(testStart)] when that step
    has failed. *)
Fixpoint runLoop (executorName testName : string)
  (runStep : nat -> config.TestStep.t -> metrics.Collector -> outcome)
  (sinceStart : nat -> time.Duration) (runDuration : time.Duration)
  (i : nat) (steps : list config.TestStep.t) (c : metrics.Collector) : outcome :=
  match steps with
  | [] => Some (metrics.RecordTestRun testName "" executorName true runDuration c, None)
  | step :: rest =>
      match runStep i step c with
      | None => None
      | Some (c1, Some err) =>
          Some (metrics.RecordTestRun testName (config.TestStep.Name step) executorName
                  false (sinceStart i) c1,
                Some (ErrTestFailed testName (config.TestStep.Name step) err))
      | Some (c1, None) =>
          runLoop executorName testName runStep sinceStart runDuration (S i) rest c1
      end
  end.

Module Generic.
Section WithBackend.
Context {B W : Type} `{Backend B W}.

(** The [switch step.Name] of [runStep]. *)
Definition dispatch (w : W) (testName : string) (step : config.TestStep.t)
  (filename bucket fileSizeLabel : string) (c : metrics.Collector) : outcome :=
  let name := config.TestStep.Name step in
  if String.eqb name "upload" then uploadObject w testName bucket filename step c
  else if String.eqb name "download" then downloadObject w testName bucket filename c
  else if String.eqb name "delete"
  then deleteObject w testName bucket filename fileSizeLabel c
  else Some (c, Some (ErrUnknownOperation operationKind name)).

(** [runStep] of [S3Executor], [CurlS3Executor] and [HttpS3Executor].
    The deadline, [step.TimeoutDuration()], travels to the operation in
    its context; whether the operation's calls meet it is part of what
    the world answers. *)
Definition runStep (w : StepWorld W) (testName : string) (step : config.TestStep.t)
  (filename bucket : string) (isSingleStep : bool) (c : metrics.Collector) : outcome :=
  match stepJitter w testName step with
  | Some _ => Some (c, Some ErrStepJitter)
  | None =>
      let fileSizeLabel :=
        match config.TestStep.FileSize step with
        | Some fs => config.String_ fs
        | None => ""
        end in
      match dispatch (opWorld w) testName step filename bucket fileSizeLabel c with
      | None => None
      | Some (c1, Some err) =>
          Some (metrics.RecordTestRun testName (config.TestStep.Name step) executorName
                  false (sinceStepStart w) c1,
                Some (ErrStepExecution err))
      | Some (c1, None) =>
          Some (metrics.RecordTestRun testName (config.TestStep.Name step) executorName
                  true (sinceStepStart w) c1,
                None)
      end
  end.

(** The loop of [RunTest] with this executor's [runStep]. *)
Definition runSteps (world : RunWorld B W) (test : config.Test.t)
  (filename bucket : string) (i : nat) (steps : list config.TestStep.t)
  (c : metrics.Collector) : outcome :=
  runLoop executorName (config.Test.Name test)
    (fun i step =>
       runStep (stepWorld world i) (config.Test.Name test) step filename bucket
         (config.IsSingleStep test))
    (fun i => sinceTestStart (stepWorld world i)) (runDuration world) i steps c.

(** [RunTest] of [S3Executor], [CurlS3Executor] and [HttpS3Executor]. *)
Definition RunTest (cfg : config.Config.t) (world : RunWorld B W) (test : config.Test.t)
  (c : metrics.Collector) : outcome :=
  let sharedFilename := config.GetFilename test (testULID world) in
  let bucket :=
    config.GetBucket test (config.SatelliteConfig.Bucket (config.Config.Satellite cfg)) in
  match ensureBucket (bucketWorld world) bucket with
  | Some err => Some (c, Some (ErrEnsureBucket bucket err))
  | None => runSteps world test sharedFilename bucket 0 (config.Test.Steps test) c
  end.
End WithBackend.
End Generic.

(** The default size of an upload and its label. *)
Definition uploadSize (step : config.TestStep.t) : Z * string :=
  match config.TestStep.FileSize step with
  | Some fs => (config.Int64 fs, config.String_ fs)
  | None => (1024 * 1024, "1MB")
  end.

(** *** [S3Executor]: the AWS SDK *)

Module S3Executor.

(** [S3Executor]: the configuration it was created with (the SDK client
    and the collector are the world and the state). *)
Record t := { cfg : config.Config.t }.

(** What the SDK's bucket calls return: whether each returned a nil
    error. *)
Record BucketWorld := { headOk : bool; createOk : bool; verifyOk : bool }.

(** What the calls of one object operation return. *)
Record OpWorld := {
  randReadOk : bool;
  callOk : bool;
  elapsed : time.Duration;
  contentLength : option Z;
  bytesRead : Z;
  copyOk : bool
}.

Definition name : string := "s3".

(** [S3Executor.ensureBucket]. *)
Definition ensureBucket (w : BucketWorld) (bucket : string) : option error :=
  if headOk w then None
  else if verifyOk w then None
  else Some (ErrOperation "bucket not accessible after creation attempt").

(** [S3Executor.uploadObject]; [make] panics on a negative length. *)
Definition uploadObject (w : OpWorld) (testName bucket filename : string)
  (step : config.TestStep.t) (c : metrics.Collector) : outcome :=
  let '(fileSize, fileSizeLabel) := uploadSize step in
  if fileSize <? 0 then None
  else if negb (randReadOk w)
  then Some (c, Some (ErrOperation "failed to generate random data"))
  else if negb (callOk w) then
    c1 ← metrics.RecordStorjUpload testName name bucket fileSizeLabel (elapsed w)
           fileSize false c;
    Some (c1, Some (ErrOperation "S3 PutObject failed"))
  else
    c1 ← metrics.RecordStorjUpload testName name bucket fileSizeLabel (elapsed w)
           fileSize true c;
    Some (c1, None).

(** [S3Executor.downloadObject]. *)
Definition downloadObject (w : OpWorld) (testName bucket filename : string)
  (c : metrics.Collector) : outcome :=
  if negb (callOk w) then
    c1 ← metrics.RecordStorjDownload testName name bucket "" (elapsed w) 0 false c;
    Some (c1, Some (ErrOperation "S3 GetObject failed"))
  else if negb (copyOk w) then
    c1 ← metrics.RecordStorjDownload testName name bucket "" (elapsed w) (bytesRead w)
           false c;
    Some (c1, Some (ErrOperation "failed to read S3 object"))
  else
    c1 ← metrics.RecordStorjDownload testName name bucket "" (elapsed w) (bytesRead w)
           true c;
    Some (c1, None).

(** [S3Executor.deleteObject]. *)
Definition deleteObject (w : OpWorld) (testName bucket filename fileSizeLabel : string)
  (c : metrics.Collector) : outcome :=
  if negb (callOk w)
  then Some (metrics.RecordStorjDelete testName name bucket fileSizeLabel 0 0 false c,
             Some (ErrOperation "S3 DeleteObject failed"))
  else Some (metrics.RecordStorjDelete testName name bucket fileSizeLabel (elapsed w) 1
               true c,
             None).

#[global] Instance backend : Backend BucketWorld OpWorld := {|
  executorName := name;
  operationKind := "S3";
  executor.ensureBucket := ensureBucket;
  executor.uploadObject := uploadObject;
  executor.downloadObject := downloadObject;
  executor.deleteObject := deleteObject
|}.

(** [S3Executor.runStep] and [S3Executor.RunTest]. *)
Definition runStep := Generic.runStep (H := backend).
Definition RunTest (e : t) := Generic.RunTest (H := backend) (cfg e).

#[global] Instance testExecutor : TestExecutor t (RunWorld BucketWorld OpWorld) := {|
  executor.RunTest := RunTest
|}.

End S3Executor.

(** *** [CurlS3Executor]: a curl child process *)

Module CurlS3Executor.

(** [CurlS3Executor]: the configuration it was created with. *)
Record t := { cfg : config.Config.t }.

Definition executorNameCurlS3 : string := "curl-s3".

(** One run of curl that prints only the status: [None] when the
    command fails, otherwise its output. *)
Record StatusCall := { signOk : bool; output : option string }.

Record BucketWorld := { head : StatusCall; put : StatusCall; verify : StatusCall }.

(** What the calls of one object operation return: the temporary
    file, [signAndGetHeaders] (the headers and the signing time),
    curl's output and the size of the downloaded file. *)
Record OpWorld := {
  randReadOk : bool;
  createTempOk : bool;
  writeOk : bool;
  signed : option (list string * time.Duration);
  cmdOutput : option string;
  statSize : option Z
}.

Definition statusIs (o : option string) (code : string) : bool :=
  match o with
  | Some out => String.eqb (GoStrings.TrimSpace out) code
  | None => false
  end.

(** [CurlS3Executor.ensureBucket]. *)
Definition ensureBucket (w : BucketWorld) (bucket : string) : option error :=
  if negb (signOk (head w)) then Some (ErrOperation "failed to sign HEAD request")
  else if statusIs (output (head w)) "200" then None
  else if negb (signOk (put w)) then Some (ErrOperation "failed to sign PUT request")
  else match output (put w) with
       | None => Some (ErrOperation "failed to create bucket")
       | Some _ =>
           if negb (signOk (verify w))
           then Some (ErrOperation "failed to sign verify request")
           else match output (verify w) with
                | None => Some (ErrOperation "bucket not accessible after creation attempt")
                | Some out =>
                    if String.eqb (GoStrings.TrimSpace out) "200" then None
                    else Some (ErrOperation "bucket not accessible after creation attempt")
                end
       end.

(** [CurlS3Executor.uploadObject]. *)
Definition uploadObject (w : OpWorld) (testName bucket filename : string)
  (step : config.TestStep.t) (c : metrics.Collector) : outcome :=
  let '(fileSize, fileSizeLabel) := uploadSize step in
  let record := metrics.RecordStorjUpload testName executorNameCurlS3 bucket fileSizeLabel in
  if fileSize <? 0 then None
  else if negb (randReadOk w)
  then Some (c, Some (ErrOperation "failed to generate random data"))
  else if negb (createTempOk w)
  then Some (c, Some (ErrOperation "failed to create temp file"))
  else if negb (writeOk w) then Some (c, Some (ErrOperation "failed to write temp file"))
  else
    match signed w with
    | None => Some (c, Some (ErrOperation "failed to sign request"))
    | Some (headers, signDuration) =>
        match cmdOutput w with
        | None =>
            c1 ← record 0 fileSize false c;
            Some (c1, Some (ErrOperation "curl PUT failed"))
        | Some out =>
            match parseCurlOutput out with
            | inr e =>
                c1 ← record 0 fileSize false c;
                Some (c1, Some (ErrOperation "failed to parse curl output"))
            | inl (statusCode, timings) =>
                let c1 :=
                  metrics.RecordHTTPTimingPhase testName "upload" executorNameCurlS3
                    "sign" signDuration
                    (metrics.RecordHTTPTiming testName "upload" executorNameCurlS3
                       timings c) in
                if negb (String.eqb statusCode "200") && negb (String.eqb statusCode "201")
                then
                  c2 ← record (metrics.Total timings) fileSize false c1;
                  Some (c2, Some (ErrOperation "curl PUT returned status"))
                else
                  c2 ← record (metrics.Total timings) fileSize true c1;
                  Some (c2, None)
            end
        end
    end.

(** [CurlS3Executor.downloadObject]. *)
Definition downloadObject (w : OpWorld) (testName bucket filename : string)
  (c : metrics.Collector) : outcome :=
  let record := metrics.RecordStorjDownload testName executorNameCurlS3 bucket "" in
  match signed w with
  | None => Some (c, Some (ErrOperation "failed to sign request"))
  | Some (headers, signDuration) =>
      if negb (createTempOk w)
      then Some (c, Some (ErrOperation "failed to create temp file"))
      else
        match cmdOutput w with
        | None =>
            c1 ← record 0 0 false c;
            Some (c1, Some (ErrOperation "curl GET failed"))
        | Some out =>
            match parseCurlOutput out with
            | inr e =>
                c1 ← record 0 0 false c;
                Some (c1, Some (ErrOperation "failed to parse curl output"))
            | inl (statusCode, timings) =>
                let c1 :=
                  metrics.RecordHTTPTimingPhase testName "download" executorNameCurlS3
                    "sign" signDuration
                    (metrics.RecordHTTPTiming testName "download" executorNameCurlS3
                       timings c) in
                if negb (String.eqb statusCode "200") then
                  c2 ← record (metrics.Total timings) 0 false c1;
                  Some (c2, Some (ErrOperation "curl GET returned status"))
                else
                  match statSize w with
                  | None =>
                      c2 ← record (metrics.Total timings) 0 false c1;
                      Some (c2, Some (ErrOperation "failed to stat downloaded file"))
                  | Some bytesRead =>
                      c2 ← record (metrics.Total timings) bytesRead true c1;
                      Some (c2, None)
                  end
            end
        end
  end.

(** [CurlS3Executor.deleteObject]. *)
Definition deleteObject (w : OpWorld) (testName bucket filename fileSizeLabel : string)
  (c : metrics.Collector) : outcome :=
  let record := metrics.RecordStorjDelete testName executorNameCurlS3 bucket fileSizeLabel in
  match signed w with
  | None => Some (c, Some (ErrOperation "failed to sign request"))
  | Some (headers, signDuration) =>
      match cmdOutput w with
      | None => Some (record 0 0 false c, Some (ErrOperation "curl DELETE failed"))
      | Some out =>
          match parseCurlOutput out with
          | inr e =>
              Some (record 0 0 false c, Some (ErrOperation "failed to parse curl output"))
          | inl (statusCode, timings) =>
              let c1 :=
                metrics.RecordHTTPTimingPhase testName "delete" executorNameCurlS3
                  "sign" signDuration
                  (metrics.RecordHTTPTiming testName "delete" executorNameCurlS3
                     timings c) in
              if negb (String.eqb statusCode "200") && negb (String.eqb statusCode "204")
              then Some (record 0 0 false c1,
                         Some (ErrOperation "curl DELETE returned status"))
              else Some (record (metrics.Total timings) 1 true c1, None)
          end
      end
  end.

#[global] Instance backend : Backend BucketWorld OpWorld := {|
  executorName := executorNameCurlS3;
  operationKind := "Curl S3";
  executor.ensureBucket := ensureBucket;
  executor.uploadObject := uploadObject;
  executor.downloadObject := downloadObject;
  executor.deleteObject := deleteObject
|}.

(** [CurlS3Executor.runStep] and [CurlS3Executor.RunTest]. *)
Definition runStep := Generic.runStep (H := backend).
Definition RunTest (e : t) := Generic.RunTest (H := backend) (cfg e).

#[global] Instance testExecutor : TestExecutor t (RunWorld BucketWorld OpWorld) := {|
  executor.RunTest := RunTest
|}.

End CurlS3Executor.

(** *** [HttpS3Executor]: raw HTTP requests *)

Module HttpS3Executor.

(** [HttpS3Executor]: the configuration it was created with. *)
Record t := { cfg : config.Config.t }.

Definition executorNameHttpS3 : string := "http-s3".

(** [httpTimingTracer]: the instants its hooks recorded, in nanoseconds
    on the monotonic clock; [None] is the zero [time.Time] of a hook that
    never ran. *)
Record httpTimingTracer := {
  start : Z;
  dnsStart : option Z;
  dnsDone : option Z;
  connectStart : option Z;
  connectDone : option Z;
  tlsStart : option Z;
  tlsDone : option Z;
  firstByteTime : option Z;
  wroteRequest : option Z
}.

(** The difference of a pair of instants when both were recorded. *)
Definition between (from to : option Z) : time.Duration :=
  match from, to with
  | Some a, Some b => b - a
  | _, _ => 0
  end.

(** [httpTimingTracer.toMetrics]. *)
Definition toMetrics (t : httpTimingTracer) (transferDone : Z) : metrics.HTTPTimings :=
  {| metrics.DNSLookup := between (dnsStart t) (dnsDone t);
     metrics.TCPConnect := between (connectStart t) (connectDone t);
     metrics.TLSHandshake := between (tlsStart t) (tlsDone t);
     metrics.TTFB := between (wroteRequest t) (firstByteTime t);
     metrics.Transfer := match firstByteTime t with
                         | Some fb => transferDone - fb
                         | None => 0
                         end;
     metrics.Total := transferDone - start t |}.

(** One exchange of [ensureBucket]: whether the request could be built
    and signed, and the status of the response, [None] when
    [client.Do] fails. *)
Record Call := { requestOk : bool; signOk : bool; status : option Z }.

Record BucketWorld := { head : Call; put : Call; verify : Call }.

(** What the calls of one object operation return: the signing time
    ([None] when signing fails), the tracer as the exchange left it, the
    status of the response ([None] when [client.Do] fails), the clock at
    the failure of [client.Do] or of the status check and at the end of
    the transfer, and what draining the body read. *)
Record OpWorld := {
  randReadOk : bool;
  newRequestOk : bool;
  signed : option time.Duration;
  tracer : httpTimingTracer;
  response : option Z;
  sinceTracerStart : time.Duration;
  transferDone : Z;
  bytesRead : Z;
  copyOk : bool
}.

(** [HttpS3Executor.ensureBucket]. *)
Definition ensureBucket (w : BucketWorld) (bucket : string) : option error :=
  if negb (requestOk (head w)) then Some (ErrOperation "failed to create HEAD request")
  else if negb (signOk (head w)) then Some (ErrOperation "failed to sign HEAD request")
  else if match status (head w) with Some code => code =? 200 | None => false end then None
  else if negb (requestOk (put w)) then Some (ErrOperation "failed to create PUT request")
  else if negb (signOk (put w)) then Some (ErrOperation "failed to sign PUT request")
  else match status (put w) with
       | None => Some (ErrOperation "failed to create bucket")
       | Some _ =>
           if negb (requestOk (verify w))
           then Some (ErrOperation "failed to create verify request")
           else if negb (signOk (verify w))
           then Some (ErrOperation "failed to sign verify request")
           else match status (verify w) with
                | None => Some (ErrOperation "bucket not accessible after creation attempt")
                | Some code =>
                    if code =? 200 then None
                    else Some (ErrOperation "bucket not accessible after creation attempt")
                end
       end.

(** The timing samples of one exchange: the phases and the signing. *)
Definition recordTimings (testName action : string) (w : OpWorld)
  (signDuration : time.Duration) (c : metrics.Collector) : metrics.Collector :=
  metrics.RecordHTTPTimingPhase testName action executorNameHttpS3 "sign" signDuration
    (metrics.RecordHTTPTiming testName action executorNameHttpS3
       (toMetrics (tracer w) (transferDone w)) c).

(** [HttpS3Executor.uploadObject]. *)
Definition uploadObject (w : OpWorld) (testName bucket filename : string)
  (step : config.TestStep.t) (c : metrics.Collector) : outcome :=
  let '(fileSize, fileSizeLabel) := uploadSize step in
  let record := metrics.RecordStorjUpload testName executorNameHttpS3 bucket fileSizeLabel in
  if fileSize <? 0 then None
  else if negb (randReadOk w)
  then Some (c, Some (ErrOperation "failed to generate random data"))
  else if negb (newRequestOk w) then Some (c, Some (ErrOperation "failed to create request"))
  else
    match signed w with
    | None => Some (c, Some (ErrOperation "failed to sign request"))
    | Some signDuration =>
        match response w with
        | None =>
            c1 ← record (sinceTracerStart w) fileSize false c;
            Some (c1, Some (ErrOperation "HTTP PUT failed"))
        | Some code =>
            let timings := toMetrics (tracer w) (transferDone w) in
            let c1 := recordTimings testName "upload" w signDuration c in
            if negb (code =? 200) && negb (code =? 201) then
              c2 ← record (metrics.Total timings) fileSize false c1;
              Some (c2, Some (ErrOperation "HTTP PUT returned status"))
            else
              c2 ← record (metrics.Total timings) fileSize true c1;
              Some (c2, None)
        end
    end.

(** [HttpS3Executor.downloadObject]. *)
Definition downloadObject (w : OpWorld) (testName bucket filename : string)
  (c : metrics.Collector) : outcome :=
  let record := metrics.RecordStorjDownload testName executorNameHttpS3 bucket "" in
  if negb (newRequestOk w) then Some (c, Some (ErrOperation "failed to create request"))
  else
    match signed w with
    | None => Some (c, Some (ErrOperation "failed to sign request"))
    | Some signDuration =>
        match response w with
        | None =>
            c1 ← record (sinceTracerStart w) 0 false c;
            Some (c1, Some (ErrOperation "HTTP GET failed"))
        | Some code =>
            if negb (code =? 200) then
              c1 ← record (sinceTracerStart w) 0 false c;
              Some (c1, Some (ErrOperation "HTTP GET returned status"))
            else
              let timings := toMetrics (tracer w) (transferDone w) in
              let c1 := recordTimings testName "download" w signDuration c in
              if negb (copyOk w) then
                c2 ← record (metrics.Total timings) (bytesRead w) false c1;
                Some (c2, Some (ErrOperation "failed to read HTTP response"))
              else
                c2 ← record (metrics.Total timings) (bytesRead w) true c1;
                Some (c2, None)
        end
    end.

(** [HttpS3Executor.deleteObject]. *)
Definition deleteObject (w : OpWorld) (testName bucket filename fileSizeLabel : string)
  (c : metrics.Collector) : outcome :=
  let record := metrics.RecordStorjDelete testName executorNameHttpS3 bucket fileSizeLabel in
  if negb (newRequestOk w) then Some (c, Some (ErrOperation "failed to create request"))
  else
    match signed w with
    | None => Some (c, Some (ErrOperation "failed to sign request"))
    | Some signDuration =>
        match response w with
        | None => Some (record 0 0 false c, Some (ErrOperation "HTTP DELETE failed"))
        | Some code =>
            let timings := toMetrics (tracer w) (transferDone w) in
            let c1 := recordTimings testName "delete" w signDuration c in
            if negb (code =? 200) && negb (code =? 204)
            then Some (record 0 0 false c1, Some (ErrOperation "HTTP DELETE returned status"))
            else Some (record (metrics.Total timings) 1 true c1, None)
        end
    end.

#[global] Instance backend : Backend BucketWorld OpWorld := {|
  executorName := executorNameHttpS3;
  operationKind := "HTTP S3";
  executor.ensureBucket := ensureBucket;
  executor.uploadObject := uploadObject;
  executor.downloadObject := downloadObject;
  executor.deleteObject := deleteObject
|}.

(** [HttpS3Executor.runStep] and [HttpS3Executor.RunTest]. *)
Definition runStep := Generic.runStep (H := backend).
Definition RunTest (e : t) := Generic.RunTest (H := backend) (cfg e).

#[global] Instance testExecutor : TestExecutor t (RunWorld BucketWorld OpWorld) := {|
  executor.RunTest := RunTest
|}.

End HttpS3Executor.

(** *** [UplinkExecutor]: k6 with the native extension *)

Module UplinkExecutor.

(** [UplinkExecutor]: the configuration it was created with. *)
Record t := { cfg : config.Config.t }.

Definition name : string := "uplink".

(** What the child process does in one step: whether [CombinedOutput]
    returned a nil error, and what [ParseJSONOutput] reads from the
    output file, [None] when it fails. *)
Record OpWorld := {
  commandOk : bool;
  parsed : option (list k6output.MetricPoint)
}.

Definition valueInt (p : k6output.MetricPoint) : Z :=
  strconv.toInt64Quot (strconv.mant (k6output.Value p))
    (10 ^ Z.of_nat (strconv.scale (k6output.Value p))).

(** [time.Duration(point.Value) * time.Millisecond]. *)
Definition valueMillis (p : k6output.MetricPoint) : time.Duration :=
  wrap64 (valueInt p * time.Millisecond).

Definition valuePositive (p : k6output.MetricPoint) : bool :=
  0 <? strconv.mant (k6output.Value p).

(** The first point of a group, read by [get]; the default when the
    group is empty or absent. *)
Definition firstOr {A} (points : list k6output.MetricPoint)
  (get : k6output.MetricPoint -> A) (default : A) : A :=
  match points with
  | p :: _ => get p
  | [] => default
  end.

(** The loop over [storj_delete_duration_ms]. *)
Definition recordDeleteDurations (testName bucket fileSizeLabel : string)
  (points : list k6output.MetricPoint) (c : metrics.Collector) : metrics.Collector :=
  foldl (fun c p =>
           metrics.RecordStorjDelete testName name bucket fileSizeLabel (valueMillis p) 1
             true c)
        c points.

(** The loop over [storj_delete_success]: only failures are recorded. *)
Definition recordDeleteFailures (testName bucket fileSizeLabel : string)
  (points : list k6output.MetricPoint) (c : metrics.Collector) : metrics.Collector :=
  foldl (fun c p =>
           if valuePositive p then c
           else metrics.RecordStorjDelete testName name bucket fileSizeLabel 0 1 false c)
        c points.

(** [UplinkExecutor.parseAndRecordMetrics], after [ParseJSONOutput] has
    returned [points]; [None] when a recorder panics. *)
Definition recordMetrics (points : list k6output.MetricPoint)
  (testName bucket fileSizeLabel : string) (c : metrics.Collector)
  : option metrics.Collector :=
  let grouped := k6output.GroupMetricsByName points in
  let uploadDuration := firstOr (grouped "storj_upload_duration_ms") valueMillis 0 in
  let uploadBytes := firstOr (grouped "storj_upload_bytes_total") valueInt 0 in
  let uploadSuccess := firstOr (grouped "storj_upload_success") valuePositive true in
  c1 ← (if (0 <? uploadDuration) || (0 <? uploadBytes)
        then metrics.RecordStorjUpload testName name bucket fileSizeLabel uploadDuration
               uploadBytes uploadSuccess c
        else Some c);
  let downloadDuration := firstOr (grouped "storj_download_duration_ms") valueMillis 0 in
  let downloadBytes := firstOr (grouped "storj_download_bytes_total") valueInt 0 in
  let downloadSuccess := firstOr (grouped "storj_download_success") valuePositive true in
  c2 ← (if (0 <? downloadDuration) || (0 <? downloadBytes)
        then metrics.RecordStorjDownload testName name bucket fileSizeLabel downloadDuration
               downloadBytes downloadSuccess c1
        else Some c1);
  let c3 := recordDeleteDurations testName bucket fileSizeLabel
              (grouped "storj_delete_duration_ms") c2 in
  let c4 := recordDeleteFailures testName bucket fileSizeLabel
              (grouped "storj_delete_success") c3 in
  let totalDeletes :=
    foldl (fun total p => wrap64 (total + valueInt p)) 0
          (grouped "storj_delete_count_total") in
  Some (if 0 <? totalDeletes
        then metrics.RecordStorjDelete testName name bucket "" 0 totalDeletes true c4
        else c4).

(** [UplinkExecutor.runStep].  A failure of [parseAndRecordMetrics] is
    only logged. *)
Definition runStep (w : StepWorld OpWorld) (testName : string) (step : config.TestStep.t)
  (sharedFilename testULID bucket : string) (isSingleStep : bool) (c : metrics.Collector)
  : outcome :=
  match stepJitter w testName step with
  | Some _ => Some (c, Some ErrStepJitter)
  | None =>
      let fileSizeLabel :=
        match config.TestStep.FileSize step with
        | Some fs => config.String_ fs
        | None => ""
        end in
      if negb (commandOk (opWorld w)) then
        Some (metrics.RecordTestRun testName (config.TestStep.Name step) name false
                (sinceStepStart w) c,
              Some (ErrStepExecution (ErrOperation "k6 run failed")))
      else
        c1 ← match parsed (opWorld w) with
             | Some points => recordMetrics points testName bucket fileSizeLabel c
             | None => Some c
             end;
        Some (metrics.RecordTestRun testName (config.TestStep.Name step) name true
                (sinceStepStart w) c1,
              None)
  end.

(** [UplinkExecutor.RunTest]; this executor does not ensure the bucket. *)
Definition RunTest (e : t) (world : RunWorld unit OpWorld) (test : config.Test.t)
  (c : metrics.Collector) : outcome :=
  let sharedFilename := config.GetFilename test (testULID world) in
  let bucket :=
    config.GetBucket test (config.SatelliteConfig.Bucket (config.Config.Satellite (cfg e))) in
  runLoop name (config.Test.Name test)
    (fun i step =>
       runStep (stepWorld world i) (config.Test.Name test) step sharedFilename
         (testULID world) bucket (config.IsSingleStep test))
    (fun i => sinceTestStart (stepWorld world i)) (runDuration world)
    0 (config.Test.Steps test) c.

#[global] Instance testExecutor : TestExecutor t (RunWorld unit OpWorld) := {|
  executor.RunTest := RunTest
|}.

End UplinkExecutor.

End executor.

(** ** Package [scheduler] *)

Module scheduler.

Inductive error :=
| ErrUnknownExecutor (executorType testName : string)
| ErrTestNotFound (testName : string)
| ErrCron (schedule : string)
| ErrRun (cause : executor.error).

(** The result of an on-demand run: [None] when the executor panics. *)
Definition result := option (metrics.Collector * option error).

Definition ofOutcome (o : executor.outcome) : result :=
  match o with
  | None => None
  | Some (c, Some e) => Some (c, Some (ErrRun e))
  | Some (c, None) => Some (c, None)
  end.

Section Scheduler.
Context {E W : Type} `{executor.TestExecutor E W}.

(** [Scheduler]: the registry of executors and the configuration. *)
Record Scheduler := {
  executors : gmap string E;
  config : config.Config.t
}.

(** An entry of the cron table: what the closure given to
    [cron.AddFunc] captured. *)
Record Entry := {
  entrySchedule : string;
  entryTest : config.Test.t;
  entryExecutorType : string;
  entryExecutor : E;
  entryMaxJitter : time.Duration
}.

(** Whether [cron.AddFunc] accepts a schedule. *)
Variable cronAccepts : string -> bool.

(** The jitter computed for a test in [Start]. *)
Definition testMaxJitter (s : Scheduler) (test : config.Test.t) : time.Duration :=
  let effectiveJitter :=
    config.GetTestJitter test (config.Config.Jitter (config s)) in
  if config.IsEnabled (Some effectiveJitter) then
    let scheduleInterval :=
      default 0 (config.ParseCronInterval (config.Test.Schedule test)) in
    default 0 (config.ParseMaxJitter (Some effectiveJitter) scheduleInterval)
  else 0.

(** The loop of [Start] over the configured tests: the entries added
    to the cron table, oldest first, and the error of [AddFunc] that
    stopped it, if any. *)
Fixpoint schedule (s : Scheduler) (tests : list config.Test.t) (table : list Entry)
  : list Entry * option error :=
  match tests with
  | [] => (table, None)
  | test :: rest =>
      if negb (config.Test.Enabled test) then schedule s rest table
      else
        let executorType := config.GetExecutor test in
        match executors s !! executorType with
        | None => schedule s rest table
        | Some exec =>
            if cronAccepts (config.Test.Schedule test) then
              schedule s rest
                (table ++ [{| entrySchedule := config.Test.Schedule test;
                              entryTest := test;
                              entryExecutorType := executorType;
                              entryExecutor := exec;
                              entryMaxJitter := testMaxJitter s test |}])
            else (table, Some (ErrCron (config.Test.Schedule test)))
        end
  end.

(** [Scheduler.Start]: the cron table it leaves and the error it
    returns; the cron engine is started when the error is nil. *)
Definition Start (s : Scheduler) : list Entry * option error :=
  schedule s (config.Config.Tests (config s)) [].

(** One firing of an entry: the closure given to [cron.AddFunc].  It
    returns nothing; a failed run is only logged. *)
Definition fire (e : Entry) (ctx : jitter.Context) (Int63n : Z -> Z) (timerWinsTie : bool)
  (w : W) (c : metrics.Collector) : option metrics.Collector :=
  let interrupted :=
    if 0 <? entryMaxJitter e
    then jitter.err (jitter.Apply Int63n timerWinsTie ctx (entryMaxJitter e)
                       ("test " +:+ config.Test.Name (entryTest e)))
    else None in
  match interrupted with
  | Some _ => Some c
  | None =>
      match executor.RunTest (entryExecutor e) w (entryTest e) c with
      | None => None
      | Some (c', _) => Some c'
      end
  end.

(** The loop of [RunNow] over the configured tests. *)
Fixpoint runNow (s : Scheduler) (tests : list config.Test.t) (w : W) (testName : string)
  (c : metrics.Collector) : result :=
  match tests with
  | [] => Some (c, Some (ErrTestNotFound testName))
  | test :: rest =>
      if String.eqb (config.Test.Name test) testName then
        let executorType := config.GetExecutor test in
        match executors s !! executorType with
        | None => Some (c, Some (ErrUnknownExecutor executorType testName))
        | Some exec => ofOutcome (executor.RunTest exec w test c)
        end
      else runNow s rest w testName c
  end.

(** [Scheduler.RunNow]. *)
Definition RunNow (s : Scheduler) (w : W) (testName : string) (c : metrics.Collector)
  : result :=
  runNow s (config.Config.Tests (config s)) w testName c.
End Scheduler.

Arguments Scheduler E : clear implicits.
Arguments Entry E : clear implicits.

End scheduler.

(** ** Package [logging] *)

Module logging.

(** [type Level int] and its four constants. *)
Definition Level := Z.

Definition LevelDebug : Level := 0.
Definition LevelInfo : Level := 1.
Definition LevelWarn : Level := 2.
Definition LevelError : Level := 3.

(** [SetLevel]: the value it leaves in the package variable
    [currentLevel]. *)
Definition SetLevel (level : string) : Level :=
  let l := GoStrings.ToLower level in
  if String.eqb l "debug" then LevelDebug
  else if String.eqb l "info" then LevelInfo
  else if String.eqb l "warn" || String.eqb l "warning" then LevelWarn
  else if String.eqb l "error" then LevelError
  else LevelInfo.

(** [Debug], [Info], [Warn] and [Error]: whether the message is
    printed when the package variable holds [currentLevel]. *)
Definition Debug (currentLevel : Level) : bool := currentLevel <=? LevelDebug.
Definition Info (currentLevel : Level) : bool := currentLevel <=? LevelInfo.
Definition Warn (currentLevel : Level) : bool := currentLevel <=? LevelWarn.
Definition Error (currentLevel : Level) : bool := currentLevel <=? LevelError.

End logging.

(** ** Package [testdata] *)

Module testdata.

Definition chunkSize : Z := 1024 * 1024.

Inductive error := ErrCreate | ErrRandom | ErrWrite.

(** What the file system and the random source do during one call of
    [ensureFile]: the size [os.Stat] reports, [None] when it fails;
    whether [os.Create] succeeds; whether the [i]-th [rand.Read] and the
    [i]-th [f.Write] succeed. *)
Record World := {
  statSize : option Z;
  createOk : bool;
  randOk : nat -> bool;
  writeOk : nat -> bool
}.

(** The loop [for remaining > 0] of [ensureFile], from its [i]-th
    iteration: the sizes of the chunks written, in order, and the error
    returned.  [None] when [fuel] iterations were not enough. *)
Fixpoint writeChunks (fuel : nat) (w : World) (i : nat) (remaining : Z)
  : option (list Z * option error) :=
  if remaining <=? 0 then Some ([], None) else
  match fuel with
  | O => None
  | S fuel' =>
      let toWrite := if remaining <? chunkSize then remaining else chunkSize in
      if negb (randOk w i) then Some ([], Some ErrRandom)
      else if negb (writeOk w i) then Some ([], Some ErrWrite)
      else match writeChunks fuel' w (S i) (remaining - toWrite) with
           | Some (chunks, e) => Some (toWrite :: chunks, e)
           | None => None
           end
  end.

(** What a call of [ensureFile] did to the file. *)
Inductive result :=
| Kept
| Written (chunks : list Z) (err : option error).

(** [ensureFile]. *)
Definition ensureFile (fuel : nat) (w : World) (filename : string) (size : Z)
  : option result :=
  if match statSize w with Some existing => existing =? size | None => false end
  then Some Kept
  else if negb (createOk w) then Some (Written [] (Some ErrCreate))
  else match writeChunks fuel w 0 size with
       | Some (chunks, e) => Some (Written chunks e)
       | None => None
       end.

End testdata.

(** * Vocabulary of the properties *)

(** The counter vector after one increment at each label tuple of a
    list, in order. *)
Definition incAll {K : Type} `{Countable K} (keys : list K) (m : gmap K Z) : gmap K Z :=
  foldl (fun m k => metrics.Inc k m) m keys.

(** The label tuple of [synthetics_test_runs_total] that
    [RecordTestRun] increments. *)
Definition runKey (testName stepName executor : string) (success : bool)
  : string * string * string * string :=
  (testName, stepName, executor, metrics.statusLabel success).

(** The object operations of a backend record what they measure but
    never a test run. *)
Class BackendFrame {B W : Type} (H : executor.Backend B W) : Prop := {
  uploadObject_frame : forall w testName bucket filename step c c' e,
    executor.uploadObject w testName bucket filename step c = Some (c', e) ->
    metrics.testRunsTotal c' = metrics.testRunsTotal c;
  downloadObject_frame : forall w testName bucket filename c c' e,
    executor.downloadObject w testName bucket filename c = Some (c', e) ->
    metrics.testRunsTotal c' = metrics.testRunsTotal c;
  deleteObject_frame : forall w testName bucket filename fileSizeLabel c c' e,
    executor.deleteObject w testName bucket filename fileSizeLabel c = Some (c', e) ->
    metrics.testRunsTotal c' = metrics.testRunsTotal c
}.

(** The labels incremented for steps that succeed. *)
Definition successKeys (executorName testName : string) (steps : list config.TestStep.t)
  : list (string * string * string * string) :=
  (fun step => runKey testName (config.TestStep.Name step) executorName true) <$> steps.

(** The three ways a [runStep] ends, seen on
    [synthetics_test_runs_total]: success, with one success increment
    under the step's name; an interrupted jitter, with nothing recorded;
    a failed operation, with one failure increment under the step's
    name. *)
Definition stepRecorded (executorName testName : string) (step : config.TestStep.t)
  (c c' : metrics.Collector) (e : option executor.error) : Prop :=
  let name := config.TestStep.Name step in
  (e = None
   /\ metrics.testRunsTotal c'
      = metrics.Inc (runKey testName name executorName true) (metrics.testRunsTotal c))
  \/ (e = Some executor.ErrStepJitter /\ c' = c)
  \/ (exists cause,
        e = Some (executor.ErrStepExecution cause)
        /\ metrics.testRunsTotal c'
           = metrics.Inc (runKey testName name executorName false) (metrics.testRunsTotal c)).

(** The failure increments of a run that fails at a step: the one of
    [RunTest], which follows the one of [runStep] unless the step's jitter
    was interrupted, the one case in which [runStep] returns an error
    without recording it. *)
Definition failureIncrements (cause : executor.error) : nat :=
  match cause with
  | executor.ErrStepJitter => 1
  | _ => 2
  end.

(** What a run of [test] that took the collector from [c] to [c'] and
    returned [e] has added to [synthetics_test_runs_total]:
    - on a nil return, one success increment for each step, under its
      name, and then one under the empty step label (so exactly one under
      the empty label when no step has an empty name);
    - when the bucket could not be ensured, nothing;
    - on a failure at a step, one success increment for each step before
      the failing one, under its name, and then the failure increments
      under the name of the failing step: two of them, that of [runStep]
      and that of [RunTest], or the latter alone after an interrupted
      jitter.  Nothing else is incremented, so the empty step label gets
      no increment unless a step is named by the empty string. *)
Definition runIncrements (executorName : string) (test : config.Test.t)
  (c c' : metrics.Collector) (e : option executor.error) : Prop :=
  let T := config.Test.Name test in
  let steps := config.Test.Steps test in
  let runs c stepName success :=
    metrics.value (metrics.testRunsTotal c) (runKey T stepName executorName success) in
  match e with
  | None =>
      metrics.testRunsTotal c'
      = incAll (successKeys executorName T steps ++ [runKey T "" executorName true])
          (metrics.testRunsTotal c)
      /\ (Forall (fun step => config.TestStep.Name step <> "") steps ->
          runs c' "" true = runs c "" true + 1
          /\ runs c' "" false = runs c "" false)
  | Some (executor.ErrEnsureBucket _ _) => c' = c
  | Some (executor.ErrTestFailed testName stepName cause) =>
      testName = T
      /\ (cause = executor.ErrStepJitter
          \/ exists err, cause = executor.ErrStepExecution err)
      /\ exists j step,
           steps !! j = Some step /\ config.TestStep.Name step = stepName
           /\ metrics.testRunsTotal c'
              = incAll (successKeys executorName T (take j steps)
                        ++ replicate (failureIncrements cause)
                             (runKey T stepName executorName false))
                  (metrics.testRunsTotal c)
           /\ forall name,
                runs c' name true
                = runs c name true
                  + Z.of_nat (length (filter (fun s => config.TestStep.Name s = name)
                                             (take j steps)))
                /\ runs c' name false
                   = runs c name false
                     + (if decide (name = stepName)
                        then Z.of_nat (failureIncrements cause) else 0)
  | Some _ => False
  end.

(** A [Ranger] is admissible when every visiting order it gives is a
    rearrangement of the entries of the map. *)
Definition validRanger (rng : awsv4.Ranger) : Prop :=
  forall n l, rng n l ≡ₚ l.

(** The names of the headers that signing writes before it builds the
    canonical request. *)
Definition signingNames : gset string :=
  {[ "X-Amz-Date"; "Host"; "X-Amz-Content-Sha256" ]}.


(** Every duration sample of the operation and phase histograms, and
    every value of the two live gauges, is positive. *)
Definition positiveSamples (c : metrics.Collector) : Prop :=
  (forall k samples, metrics.storjDuration c !! k = Some samples -> Forall (Z.lt 0) samples)
  /\ (forall k samples, metrics.httpTiming c !! k = Some samples -> Forall (Z.lt 0) samples)
  /\ (forall k v, metrics.lastDuration c !! k = Some v -> 0 < v)
  /\ (forall k v, metrics.lastHTTPPhase c !! k = Some v -> 0 < v).

(** The cache of a signer is coherent when its key, if it has one, is
    the key derived from its credentials for the day it is stamped with. *)
Definition keyCached (HMAC : list byte -> list byte -> list byte) (s : awsv4.Signer)
  : Prop :=
  awsv4.dateStamp s = ""
  \/ awsv4.signingKey s
     = awsv4.deriveSigningKey HMAC (awsv4.SecretKey (awsv4.creds s)) (awsv4.dateStamp s)
         (awsv4.Region (awsv4.creds s)) awsv4.serviceName.

(** A path in which every character is escaped on its own and every
    slash is kept. *)
Fixpoint escapeKeepingSlashes (path : string) : string :=
  match path with
  | EmptyString => EmptyString
  | String c rest =>
      (if Ascii.eqb c "/" then "/" else awsv4.PathEscape (String c ""))
        +:+ escapeKeepingSlashes rest
  end.

(** What an object operation that took the collector from [c] to [c']
    and returned [e] has added to the operation counters:
    - on a nil return, one operation under the bucket and one success;
    - on an error, no bytes and no operation, and either nothing at all
      (the operation gave up before the exchange) or one failure. *)
Definition operationAccounted (testName action executorName bucket : string)
  (c c' : metrics.Collector) (e : option executor.error) : Prop :=
  match e with
  | None =>
      metrics.storjOperationCount c'
      = metrics.Inc (testName, action, executorName, bucket) (metrics.storjOperationCount c)
      /\ metrics.storjOperationSuccess c'
         = metrics.Inc (testName, action, executorName, "success")
             (metrics.storjOperationSuccess c)
  | Some _ =>
      metrics.storjBytes c' = metrics.storjBytes c
      /\ metrics.storjOperationCount c' = metrics.storjOperationCount c
      /\ (metrics.storjOperationSuccess c' = metrics.storjOperationSuccess c
          \/ metrics.storjOperationSuccess c'
             = metrics.Inc (testName, action, executorName, "failure")
                 (metrics.storjOperationSuccess c))
  end.

(** The object operations of a backend account for what they return. *)
Class BackendAccounting {B W : Type} (H : executor.Backend B W) : Prop := {
  uploadObject_accounted : forall w testName bucket filename step c c' e,
    executor.uploadObject w testName bucket filename step c = Some (c', e) ->
    operationAccounted testName "upload" executor.executorName bucket c c' e;
  downloadObject_accounted : forall w testName bucket filename c c' e,
    executor.downloadObject w testName bucket filename c = Some (c', e) ->
    operationAccounted testName "download" executor.executorName bucket c c' e;
  deleteObject_accounted : forall w testName bucket filename fileSizeLabel c c' e,
    executor.deleteObject w testName bucket filename fileSizeLabel c = Some (c', e) ->
    operationAccounted testName "delete" executor.executorName bucket c c' e
}.

(** Two collectors with the same bytes and operation counters. *)
Definition sameCounters (c0 c : metrics.Collector) : Prop :=
  metrics.storjBytes c0 = metrics.storjBytes c
  /\ metrics.storjOperationCount c0 = metrics.storjOperationCount c
  /\ metrics.storjOperationSuccess c0 = metrics.storjOperationSuccess c.

(** The metrics of the k6 stream that [parseAndRecordMetrics] reads. *)
Definition uplinkMetricNames : list string :=
  [ "storj_upload_duration_ms"; "storj_upload_bytes_total"; "storj_upload_success";
    "storj_download_duration_ms"; "storj_download_bytes_total"; "storj_download_success";
    "storj_delete_duration_ms"; "storj_delete_success"; "storj_delete_count_total" ].

Definition isUplinkMetric (p : k6output.MetricPoint) : bool :=
  existsb (String.eqb (k6output.Metric p)) uplinkMetricNames.

(** A test that [Start] tries to schedule: enabled, with a registered
    executor. *)
Definition eligible {E : Type} (s : scheduler.Scheduler E) (test : config.Test.t) : bool :=
  config.Test.Enabled test
  && bool_decide (is_Some (scheduler.executors s !! config.GetExecutor test)).

(** An entry as [Start] builds it for its test. *)
Definition entryBuilt {E : Type} (cronAccepts : string -> bool)
  (s : scheduler.Scheduler E) (e : scheduler.Entry E) : Prop :=
  scheduler.entrySchedule e = config.Test.Schedule (scheduler.entryTest e)
  /\ scheduler.entryExecutorType e = config.GetExecutor (scheduler.entryTest e)
  /\ scheduler.executors s !! config.GetExecutor (scheduler.entryTest e)
     = Some (scheduler.entryExecutor e)
  /\ scheduler.entryMaxJitter e = scheduler.testMaxJitter s (scheduler.entryTest e)
  /\ cronAccepts (scheduler.entrySchedule e) = true.

(** * Sample inputs *)

(** An upload step with the given [timeout]. *)
Definition stepWithTimeout (timeout : string) : config.TestStep.t :=
  {| config.TestStep.Name := "upload"; config.TestStep.Script := "";
     config.TestStep.Timeout := timeout; config.TestStep.FileSize := None;
     config.TestStep.TTLSeconds := None; config.TestStep.FilePrefix := None;
     config.TestStep.MaxAgeMinutes := None; config.TestStep.MaxDelete := None;
     config.TestStep.Jitter := None |}.

(** A step of the given name, with a timeout of 30 seconds. *)
Definition stepNamed (name : string) : config.TestStep.t :=
  {| config.TestStep.Name := name; config.TestStep.Script := "";
     config.TestStep.Timeout := "30s"; config.TestStep.FileSize := None;
     config.TestStep.TTLSeconds := None; config.TestStep.FilePrefix := None;
     config.TestStep.MaxAgeMinutes := None; config.TestStep.MaxDelete := None;
     config.TestStep.Jitter := None |}.

(** A world in which every call of the SDK succeeds. *)
Definition s3Fine : executor.S3Executor.OpWorld :=
  {| executor.S3Executor.randReadOk := true; executor.S3Executor.callOk := true;
     executor.S3Executor.elapsed := 250 * time.Millisecond;
     executor.S3Executor.contentLength := Some 1048576;
     executor.S3Executor.bytesRead := 1048576; executor.S3Executor.copyOk := true |}.

(** A world in which curl reports a successful exchange. *)
Definition curlFine : executor.CurlS3Executor.OpWorld :=
  {| executor.CurlS3Executor.randReadOk := true;
     executor.CurlS3Executor.createTempOk := true;
     executor.CurlS3Executor.writeOk := true;
     executor.CurlS3Executor.signed := Some (["Host: gateway"], 40 * time.Microsecond);
     executor.CurlS3Executor.cmdOutput := Some "200|0.001|0.002|0.003|0.010|0.020";
     executor.CurlS3Executor.statSize := Some 1048576 |}.

(** A world in which the raw HTTP exchange succeeds. *)
Definition httpFine : executor.HttpS3Executor.OpWorld :=
  {| executor.HttpS3Executor.randReadOk := true;
     executor.HttpS3Executor.newRequestOk := true;
     executor.HttpS3Executor.signed := Some (40 * time.Microsecond);
     executor.HttpS3Executor.tracer :=
       {| executor.HttpS3Executor.start := 0;
          executor.HttpS3Executor.dnsStart := Some 100000;
          executor.HttpS3Executor.dnsDone := Some 1100000;
          executor.HttpS3Executor.connectStart := Some 1200000;
          executor.HttpS3Executor.connectDone := Some 2200000;
          executor.HttpS3Executor.tlsStart := Some 2300000;
          executor.HttpS3Executor.tlsDone := Some 5300000;
          executor.HttpS3Executor.firstByteTime := Some 15000000;
          executor.HttpS3Executor.wroteRequest := Some 9000000 |};
     executor.HttpS3Executor.response := Some 200;
     executor.HttpS3Executor.sinceTracerStart := 20 * time.Millisecond;
     executor.HttpS3Executor.transferDone := 20000000;
     executor.HttpS3Executor.bytesRead := 5242880;
     executor.HttpS3Executor.copyOk := true |}.

(** The metric stream of a native upload of 512 KiB in 734 ms. *)
Definition nativeUploadPoints : list k6output.MetricPoint :=
  [ {| k6output.Metric := "storj_upload_duration_ms";
       k6output.Value := {| strconv.mant := 734; strconv.scale := 0 |} |};
    {| k6output.Metric := "storj_upload_bytes_total";
       k6output.Value := {| strconv.mant := 524288; strconv.scale := 0 |} |};
    {| k6output.Metric := "storj_upload_success";
       k6output.Value := {| strconv.mant := 1; strconv.scale := 0 |} |} ].

(** A step without cancellation whose backend calls meet the world [w]. *)
Definition stepWorldOf {W} (w : W) : executor.StepWorld W :=
  {| executor.ctx := {| jitter.cancelledAfter := None |};
     executor.Int63n := fun _ => 0;
     executor.timerWinsTie := true;
     executor.opWorld := w;
     executor.sinceStepStart := 300 * time.Millisecond;
     executor.sinceTestStart := 400 * time.Millisecond |}.

(** A test of the SDK executor, every five minutes. *)
Definition sampleTest (name : string) (enabled : bool) (steps : list config.TestStep.t)
  : config.Test.t :=
  {| config.Test.Name := name; config.Test.Schedule := "*/5 * * * *";
     config.Test.Enabled := enabled; config.Test.Executor := "s3";
     config.Test.Bucket := None; config.Test.Filename := None;
     config.Test.Jitter := None; config.Test.Steps := steps |}.

(** A configuration, after [Load]'s defaults, with the given tests. *)
Definition sampleConfig (tests : list config.Test.t) : config.Config.t :=
  {| config.Config.Satellite :=
       {| config.SatelliteConfig.AccessGrant := "grant";
          config.SatelliteConfig.Bucket := "synthetics" |};
     config.Config.S3 :=
       {| config.S3Config.Endpoint := "https://gateway.example";
          config.S3Config.AccessKey := "AK"; config.S3Config.SecretKey := "SK";
          config.S3Config.Region := "us-east-1" |};
     config.Config.Tests := tests;
     config.Config.K6 :=
       {| config.K6Config.BinaryPath := "/usr/local/bin/k6";
          config.K6Config.OutputFormat := "json" |};
     config.Config.Metrics :=
       {| config.MetricsConfig.Port := 8080; config.MetricsConfig.Path := "/metrics" |};
     config.Config.Logging :=
       {| config.LoggingConfig.Level := "info"; config.LoggingConfig.Format := "json" |};
     config.Config.Jitter :=
       {| config.JitterConfig.Enabled := None; config.JitterConfig.Max := "" |} |}.

(** A world in which the call to the gateway fails. *)
Definition s3Down : executor.S3Executor.OpWorld :=
  {| executor.S3Executor.randReadOk := true; executor.S3Executor.callOk := false;
     executor.S3Executor.elapsed := 250 * time.Millisecond;
     executor.S3Executor.contentLength := None;
     executor.S3Executor.bytesRead := 0; executor.S3Executor.copyOk := true |}.

(** A run in which the bucket exists and every step meets the world [w]. *)
Definition s3Run (w : executor.S3Executor.OpWorld)
  : executor.RunWorld executor.S3Executor.BucketWorld executor.S3Executor.OpWorld :=
  {| executor.testULID := "01J9ZK3V7Q4M8N2K5T9R6W1YB0";
     executor.bucketWorld :=
       {| executor.S3Executor.headOk := true; executor.S3Executor.createOk := true;
          executor.S3Executor.verifyOk := true |};
     executor.stepWorld := fun _ => stepWorldOf w;
     executor.runDuration := time.Second |}.

(** The usual test: upload, download, delete. *)
Definition roundTrip : config.Test.t :=
  sampleTest "t1" true [stepNamed "upload"; stepNamed "download"; stepNamed "delete"].

(** The SDK executor of the sample configuration. *)
Definition s3Executor : executor.S3Executor.t :=
  {| executor.S3Executor.cfg := sampleConfig [roundTrip] |}.

(** A disabled test. *)
Definition nightly : config.Test.t :=
  sampleTest "nightly" false [stepNamed "upload"; stepNamed "delete"].

(** A scheduler with the SDK executor registered and both tests configured. *)
Definition sampleScheduler : scheduler.Scheduler executor.S3Executor.t :=
  {| scheduler.executors :=
       {[ "s3" := {| executor.S3Executor.cfg := sampleConfig [roundTrip; nightly] |} ]};
     scheduler.config := sampleConfig [roundTrip; nightly] |}.

(** A document whose only test has an empty list of steps. *)
Definition emptyStepsDocument : string :=
  "tests: [{name: idle, schedule: '*/5 * * * *', enabled: true, executor: s3, steps: []}]".

(** The test that document decodes to. *)
Definition idle : config.Test.t := sampleTest "idle" true [].

(** The request of an upload with a TTL. *)
Definition uploadRequest : awsv4.Request :=
  {| awsv4.Method := "PUT";
     awsv4.Host := "gateway.example";
     awsv4.URLPath := "/synthetics/t1-01J9ZK3V7Q4M8N2K5T9R6W1YB0.bin";
     awsv4.Query := {[ "x-id" := ["PutObject"] ]};
     awsv4.Headers := {[ "Content-Type" := ["application/octet-stream"];
                         "X-Amz-Meta-Ttl-Seconds" := ["60"] ]} |}.


Definition sampleCredentials : awsv4.Credentials :=
  {| awsv4.AccessKey := "AK"; awsv4.SecretKey := "SK"; awsv4.Region := "us-east-1" |}.

Definition sampleTime : awsv4.Time :=
  {| awsv4.Year := 2024; awsv4.Month := 3; awsv4.Day := 7;
     awsv4.Hour := 23; awsv4.Minute := 59; awsv4.Second := 9 |}.

(** Two admissible orders: that of [map_to_list], and its reverse. *)
Definition inOrder : awsv4.Ranger := fun _ l => l.

Definition backwards : awsv4.Ranger := fun _ l => reverse l.

(** * Checks of the embedding on literal inputs *)

Example String_5MB : config.String_ (5 * config.MB) = "5MB".
Proof. reflexivity. Qed.

Example parse_5MB : config.parseByteSize "5MB" = inl 5242880.
Proof. vm_compute. reflexivity. Qed.

Example parse_misc :
  (config.parseByteSize " 1.5kb ", config.parseByteSize "12",
   config.parseByteSize "MB", config.parseByteSize "1GB", config.String_ 1536,
   config.String_ 1, config.String_ 0, config.String_ (-2048))
  = (inl 1536, inl 12, inr (config.ErrInvalidNumber "MB"), inl 1073741824, "1536B",
     "1B", "0B", "-2048B").
Proof. vm_compute. reflexivity. Qed.

Example ParseDuration_samples :
  (time.ParseDuration "30s", time.ParseDuration "1m", time.ParseDuration "1h30m",
   time.ParseDuration "1.5s", time.ParseDuration "0", time.ParseDuration "",
   time.ParseDuration "abc", time.ParseDuration "10", time.ParseDuration "-2ms",
   time.ParseDuration ".5m", time.ParseDuration "0s", time.ParseDuration "1..s")
  = (Some 30000000000, Some 60000000000, Some 5400000000000,
     Some 1500000000, Some 0, None, None, None, Some (-2000000),
     Some 30000000000, Some 0, None).
Proof. vm_compute. reflexivity. Qed.

Example ParseCronInterval_samples :
  (config.ParseCronInterval "*/5 * * * *", config.ParseCronInterval "0 */2 * * *",
   config.ParseCronInterval "30 * * * *", config.ParseCronInterval "0 0 * * *",
   config.ParseCronInterval "* * * *")
  = (Some (5 * time.Minute), Some (2 * time.Hour), Some time.Hour,
     Some (24 * time.Hour), None).
Proof. vm_compute. reflexivity. Qed.

Example ParseMaxJitter_samples :
  (config.ParseMaxJitter (Some {| config.JitterConfig.Enabled := Some true;
                                  config.JitterConfig.Max := "10%" |}) (5 * time.Minute),
   config.ParseMaxJitter (Some {| config.JitterConfig.Enabled := Some true;
                                  config.JitterConfig.Max := "30s" |}) 0,
   config.ParseMaxJitter (Some {| config.JitterConfig.Enabled := Some true;
                                  config.JitterConfig.Max := "10%" |}) 0)
  = (Some (30 * time.Second), Some (30 * time.Second), None).
Proof. vm_compute. reflexivity. Qed.

Example escape_samples :
  (awsv4.canonicalURIEncode "/my bucket/a+b;c.bin", awsv4.QueryEscape "a b&c=d/e",
   awsv4.CanonicalHeaderKey "x-amz-meta-ttl-seconds", awsv4.CanonicalHeaderKey "a b",
   awsv4.hexEncode [x00; xff; x1a]%byte,
   awsv4.formatTime {| awsv4.Year := 2024; awsv4.Month := 3; awsv4.Day := 7;
                       awsv4.Hour := 23; awsv4.Minute := 59; awsv4.Second := 9 |})
  = ("/my%20bucket/a+b%3Bc.bin", "a+b%26c%3Dd%2Fe", "X-Amz-Meta-Ttl-Seconds", "a b",
     "00ff1a", "20240307T235909Z").
Proof. vm_compute. reflexivity. Qed.

Example parseCurlOutput_sample :
  executor.parseCurlOutput "404|0.001|0.002|0.003|0.010|0.020"
  = inl ("404", {| metrics.DNSLookup := 1000000; metrics.TCPConnect := 1000000;
                   metrics.TLSHandshake := 1000000; metrics.TTFB := 7000000;
                   metrics.Transfer := 10000000; metrics.Total := 20000000 |}).
Proof. vm_compute. reflexivity. Qed.

(** The native upload of the first scenario: one sample of 0.734 s
    under the label [512KB], 524288 bytes and one success. *)
Example native_upload_scenario :
  exists c,
    executor.UplinkExecutor.recordMetrics nativeUploadPoints "t1" "synthetics" "512KB"
      metrics.NewCollector = Some c
    /\ metrics.storjDuration c !! ("t1", "upload", "uplink", "synthetics", "512KB")
       = Some [734 * time.Millisecond]
    /\ metrics.value (metrics.storjBytes c) ("t1", "upload", "uplink", "synthetics") = 524288
    /\ metrics.value (metrics.storjOperationSuccess c) ("t1", "upload", "uplink", "success")
       = 1.
Proof. eexists. vm_compute. repeat split. Qed.

(** The curl download of the third scenario, answered with 404: the
    step fails, no bytes are counted, one failure is counted, and the
    phases are still recorded. *)
Example curl_download_404_scenario :
  exists c,
    executor.CurlS3Executor.downloadObject
      {| executor.CurlS3Executor.randReadOk := true;
         executor.CurlS3Executor.createTempOk := true;
         executor.CurlS3Executor.writeOk := true;
         executor.CurlS3Executor.signed := Some ([], 40 * time.Microsecond);
         executor.CurlS3Executor.cmdOutput := Some "404|0.001|0.002|0.003|0.010|0.020";
         executor.CurlS3Executor.statSize := Some 0 |}
      "t1" "synthetics" "t1-01.bin" metrics.NewCollector
    = Some (c, Some (executor.ErrOperation "curl GET returned status"))
    /\ metrics.storjBytes c = ∅
    /\ metrics.value (metrics.storjOperationSuccess c) ("t1", "download", "curl-s3", "failure")
       = 1
    /\ metrics.httpTiming c !! ("t1", "download", "curl-s3", "ttfb") = Some [7000000].
Proof. eexists. vm_compute. repeat split. Qed.

(** * Properties *)

(** ** Machine integers *)

Lemma wrap64_small z : minInt64 <= z <= maxInt64 -> wrap64 z = z.
Proof.
  unfold wrap64, minInt64, maxInt64. intros Hz.
  rewrite Z.mod_small by lia. lia.
Qed.

Lemma inInt64_spec z : inInt64 z = true <-> minInt64 <= z <= maxInt64.
Proof. unfold inInt64. rewrite andb_true_iff, !Z.leb_le. tauto. Qed.

Lemma toInt64Scaled_range d k :
  minInt64 <= strconv.toInt64Scaled d k <= maxInt64.
Proof.
  unfold strconv.toInt64Scaled.
  destruct (inInt64 _) eqn:E.
  - by apply inInt64_spec.
  - unfold minInt64, maxInt64. lia.
Qed.

(** ** Sizes (C9) *)

(** C9.  For each of the pairs (1, B), (1, KB), (5, MB) and (1, GB),
    [ByteSize.String] of the byte count [n * unit] is the canonical label,
    and [parseByteSize] of that string gives back the byte count. *)
Theorem size_labels_round_trip :
  Forall (fun '(n, unit, label) =>
            config.parseByteSize (config.String_ (n * unit)) = inl (n * unit)
            /\ config.String_ (n * unit) = label)
         [(1, 1, "1B"); (1, config.KB, "1KB"); (5, config.MB, "5MB"); (1, config.GB, "1GB")].
Proof. repeat constructor; vm_compute; reflexivity. Qed.

(** ** Step timeouts (C6) *)

(** A timeout of ["0"] parses, as zero, so [TimeoutDuration] returns zero
    and not the default of two minutes. *)
Lemma TimeoutDuration_zero_not_default :
  time.ParseDuration "0" = Some 0
  /\ config.TimeoutDuration (stepWithTimeout "0") = 0
  /\ config.TimeoutDuration (stepWithTimeout "0") <> 2 * time.Minute.
Proof. vm_compute. repeat split; congruence. Qed.

(** A number without a unit is scanned to the end in the integer phase,
    which is an error. *)
Lemma scanGroups_digits s d pre v :
  awsv4.allChars GoStrings.isDigit s = true ->
  time.scanGroups s d (time.InInt pre v) = None.
Proof.
  revert pre v. induction s as [|c s IH]; intros pre v Hs; simpl in *; [done|].
  apply andb_true_iff in Hs as [-> Hs].
  destruct (time.leadingIntStep v c); auto.
Qed.

(** So a bare number other than ["0"] does not parse. *)
Lemma ParseDuration_bare_number s :
  awsv4.allChars GoStrings.isDigit s = true -> s <> "0" -> time.ParseDuration s = None.
Proof.
  intros Hdigits Hne. destruct s as [|c s]; [done|].
  pose proof (scanGroups_digits (String c s) 0 false 0 Hdigits) as Hscan.
  simpl in Hdigits. apply andb_true_iff in Hdigits as [Hc _].
  unfold time.ParseDuration.
  destruct c as [[] [] [] [] [] [] [] []]; try discriminate Hc.
  all: cbv beta iota zeta; rewrite Hscan.
  all: match goal with
       | |- context [String.eqb ?a "0"] => destruct (String.eqb_spec a "0") as [Heq|_]
       end; [congruence | done].
Qed.

(** C6, as the code has it.  [TimeoutDuration] returns the default of
    two minutes exactly when the timeout does not parse as a duration,
    which includes the empty string and a bare number other than ["0"];
    every timeout that parses, zero included, is returned as parsed. *)
Theorem TimeoutDuration_default_iff_unparseable (step : config.TestStep.t) :
  (time.ParseDuration (config.TestStep.Timeout step) = None ->
   config.TimeoutDuration step = 2 * time.Minute)
  /\ (forall d, time.ParseDuration (config.TestStep.Timeout step) = Some d ->
                config.TimeoutDuration step = d)
  /\ (config.TestStep.Timeout step = "" -> config.TimeoutDuration step = 2 * time.Minute)
  /\ (awsv4.allChars GoStrings.isDigit (config.TestStep.Timeout step) = true ->
      config.TestStep.Timeout step <> "0" ->
      config.TimeoutDuration step = 2 * time.Minute)
  /\ (config.TestStep.Timeout step = "0" -> config.TimeoutDuration step = 0).
Proof.
  unfold config.TimeoutDuration. repeat split.
  - by intros ->.
  - by intros d ->.
  - by intros ->.
  - intros Hdigits Hne. by rewrite ParseDuration_bare_number.
  - by intros ->.
Qed.

Lemma TimeoutDuration_default_iff_unparseable_witness :
  config.TimeoutDuration (stepWithTimeout "abc") = 2 * time.Minute
  /\ config.TimeoutDuration (stepWithTimeout "90s") = 90 * time.Second
  /\ config.TimeoutDuration (stepWithTimeout "") = 2 * time.Minute
  /\ config.TimeoutDuration (stepWithTimeout "120") = 2 * time.Minute
  /\ config.TimeoutDuration (stepWithTimeout "0") = 0.
Proof.
  pose proof (TimeoutDuration_default_iff_unparseable (stepWithTimeout "abc")) as (H1 & _).
  pose proof (TimeoutDuration_default_iff_unparseable (stepWithTimeout "90s")) as (_ & H2 & _).
  pose proof (TimeoutDuration_default_iff_unparseable (stepWithTimeout "")) as (_ & _ & H3 & _).
  pose proof (TimeoutDuration_default_iff_unparseable (stepWithTimeout "120"))
    as (_ & _ & _ & H4 & _).
  pose proof (TimeoutDuration_default_iff_unparseable (stepWithTimeout "0"))
    as (_ & _ & _ & _ & H5).
  split; [exact (H1 eq_refl)|].
  split; [exact (H2 _ eq_refl)|].
  split; [exact (H3 eq_refl)|].
  split; [apply H4; [reflexivity | discriminate]|].
  exact (H5 eq_refl).
Defined.

(** ** The curl timing report (C4) *)

Lemma parseSeconds_range s :
  minInt64 <= executor.parseSeconds s <= maxInt64.
Proof.
  unfold executor.parseSeconds. destruct (strconv.ParseFloat s).
  - apply toInt64Scaled_range.
  - unfold minInt64, maxInt64. lia.
Qed.

Lemma wrap64_sub_nonneg a b :
  0 <= a <= maxInt64 -> 0 <= b <= maxInt64 -> wrap64 (a - b) = a - b.
Proof. intros Ha Hb. apply wrap64_small. unfold minInt64, maxInt64 in *. lia. Qed.

(** On a plain-HTTP exchange curl reports 0 for [time_appconnect]; the
    TLS phase then comes out negative, it is not replaced by 0. *)
Lemma parseCurlOutput_plain_http_negative_tls :
  exists t,
    executor.parseCurlOutput "200|0.001200|0.015400|0.000000|0.120000|0.450000"
    = inl ("200", t)
    /\ metrics.TLSHandshake t = - 15400000
    /\ metrics.TLSHandshake t < 0.
Proof. eexists. vm_compute. repeat split; congruence. Qed.

(** The recorder emits no sample for a phase that is not positive: a
    negative phase is dropped there, not turned into 0. *)
Lemma RecordHTTPTimingPhase_not_positive testName action executor phase duration c :
  duration <= 0 ->
  metrics.RecordHTTPTimingPhase testName action executor phase duration c = c.
Proof.
  intros Hd. unfold metrics.RecordHTTPTimingPhase.
  destruct (Z.ltb_spec 0 duration); [lia|done].
Qed.

(** C4, as the code has it.  For a six-field report whose cumulative
    seconds are not negative, every phase of the resulting [HTTPTimings]
    is the plain difference of adjacent cumulative values (nothing is
    clamped); so when the cumulative values do not decrease, no phase is
    negative. *)
Theorem parseCurlOutput_phases (output p0 p1 p2 p3 p4 p5 : string) :
  GoStrings.Split (GoStrings.TrimSpace output) "|" = [p0; p1; p2; p3; p4; p5] ->
  0 <= executor.parseSeconds p1 -> 0 <= executor.parseSeconds p2 ->
  0 <= executor.parseSeconds p3 -> 0 <= executor.parseSeconds p4 ->
  0 <= executor.parseSeconds p5 ->
  exists t,
    executor.parseCurlOutput output = inl (p0, t)
    /\ metrics.DNSLookup t = executor.parseSeconds p1
    /\ metrics.TCPConnect t = executor.parseSeconds p2 - executor.parseSeconds p1
    /\ metrics.TLSHandshake t = executor.parseSeconds p3 - executor.parseSeconds p2
    /\ metrics.TTFB t = executor.parseSeconds p4 - executor.parseSeconds p3
    /\ metrics.Transfer t = executor.parseSeconds p5 - executor.parseSeconds p4
    /\ metrics.Total t = executor.parseSeconds p5
    /\ (executor.parseSeconds p1 <= executor.parseSeconds p2 <= executor.parseSeconds p3 ->
        executor.parseSeconds p3 <= executor.parseSeconds p4 <= executor.parseSeconds p5 ->
        0 <= metrics.DNSLookup t /\ 0 <= metrics.TCPConnect t
        /\ 0 <= metrics.TLSHandshake t /\ 0 <= metrics.TTFB t
        /\ 0 <= metrics.Transfer t /\ 0 <= metrics.Total t).
Proof.
  intros Hsplit H1 H2 H3 H4 H5.
  pose proof (parseSeconds_range p1). pose proof (parseSeconds_range p2).
  pose proof (parseSeconds_range p3). pose proof (parseSeconds_range p4).
  pose proof (parseSeconds_range p5).
  unfold executor.parseCurlOutput. rewrite Hsplit.
  eexists. split; [reflexivity|]. cbn [metrics.DNSLookup metrics.TCPConnect
    metrics.TLSHandshake metrics.TTFB metrics.Transfer metrics.Total].
  rewrite !wrap64_sub_nonneg by lia.
  repeat split; try reflexivity; lia.
Qed.

Lemma parseCurlOutput_phases_witness :
  exists t,
    executor.parseCurlOutput "404|0.001|0.002|0.003|0.010|0.020" = inl ("404", t)
    /\ metrics.TCPConnect t = 1000000
    /\ 0 <= metrics.TLSHandshake t.
Proof.
  destruct (parseCurlOutput_phases "404|0.001|0.002|0.003|0.010|0.020"
              "404" "0.001" "0.002" "0.003" "0.010" "0.020")
    as (t & Ht & _ & Htcp & _ & _ & _ & _ & Hmono);
    [reflexivity | vm_compute; discriminate | vm_compute; discriminate
    | vm_compute; discriminate | vm_compute; discriminate | vm_compute; discriminate |].
  exists t. split; [exact Ht|]. split; [exact Htcp|].
  apply Hmono; vm_compute; split; discriminate.
Defined.

(** ** The operation of a step (C2) *)

(** A step named [list] is not dispatched to any operation: with the
    SDK, the curl and the raw HTTP executor it is the unknown-operation
    error, and [runStep] records the step as failed. *)
Lemma list_step_is_unknown_operation :
  executor.Generic.dispatch (H := executor.S3Executor.backend) s3Fine "t" (stepNamed "list")
    "t-01.bin" "bucket" "" metrics.NewCollector
  = Some (metrics.NewCollector, Some (executor.ErrUnknownOperation "S3" "list"))
  /\ executor.Generic.dispatch (H := executor.CurlS3Executor.backend) curlFine "t" (stepNamed "list")
       "t-01.bin" "bucket" "" metrics.NewCollector
     = Some (metrics.NewCollector, Some (executor.ErrUnknownOperation "Curl S3" "list"))
  /\ executor.Generic.dispatch (H := executor.HttpS3Executor.backend) httpFine "t"
       (stepNamed "list") "t-01.bin" "bucket" "" metrics.NewCollector
     = Some (metrics.NewCollector, Some (executor.ErrUnknownOperation "HTTP S3" "list"))
  /\ executor.S3Executor.runStep (stepWorldOf s3Fine) "t" (stepNamed "list") "t-01.bin"
       "bucket" true metrics.NewCollector
     = Some (metrics.RecordTestRun "t" "list" "s3" false (300 * time.Millisecond)
               metrics.NewCollector,
             Some (executor.ErrStepExecution (executor.ErrUnknownOperation "S3" "list"))).
Proof. repeat split. Qed.

Section Dispatch.
Context {B W : Type} `{executor.Backend B W}.

(** C2, as the code has it.  A step named [upload], [download] or
    [delete] is handed to the backend's operation of that name; every
    other name, [list] included, is the unknown-operation error, with no
    operation invoked and the collector untouched, and [runStep] then
    records the step as failed. *)
Theorem dispatch_by_step_name (w : executor.StepWorld W) (testName : string)
  (step : config.TestStep.t) (filename bucket fileSizeLabel : string)
  (isSingleStep : bool) (c : metrics.Collector) :
  let name := config.TestStep.Name step in
  let unknown := executor.ErrUnknownOperation executor.operationKind name in
  (name = "upload" ->
   executor.Generic.dispatch (executor.opWorld w) testName step filename bucket fileSizeLabel c
   = executor.uploadObject (executor.opWorld w) testName bucket filename step c)
  /\ (name = "download" ->
      executor.Generic.dispatch (executor.opWorld w) testName step filename bucket fileSizeLabel c
      = executor.downloadObject (executor.opWorld w) testName bucket filename c)
  /\ (name = "delete" ->
      executor.Generic.dispatch (executor.opWorld w) testName step filename bucket fileSizeLabel c
      = executor.deleteObject (executor.opWorld w) testName bucket filename fileSizeLabel c)
  /\ (name <> "upload" -> name <> "download" -> name <> "delete" ->
      executor.Generic.dispatch (executor.opWorld w) testName step filename bucket fileSizeLabel c
      = Some (c, Some unknown)
      /\ (executor.stepJitter w testName step = None ->
          executor.Generic.runStep w testName step filename bucket isSingleStep c
          = Some (metrics.RecordTestRun testName name executor.executorName false
                    (executor.sinceStepStart w) c,
                  Some (executor.ErrStepExecution unknown)))).
Proof.
  intros name unknown. subst name unknown. unfold executor.Generic.runStep, executor.Generic.dispatch.
  split; [by intros ->|]. split; [by intros ->|]. split; [by intros ->|].
  intros Hu Hd Hx.
  destruct (String.eqb_spec (config.TestStep.Name step) "upload"); [done|].
  destruct (String.eqb_spec (config.TestStep.Name step) "download"); [done|].
  destruct (String.eqb_spec (config.TestStep.Name step) "delete"); [done|].
  split; [done|]. by intros ->.
Qed.
End Dispatch.

Lemma dispatch_by_step_name_witness :
  executor.Generic.dispatch (H := executor.S3Executor.backend) s3Fine "t" (stepNamed "delete")
    "t-01.bin" "bucket" "" metrics.NewCollector
  = executor.S3Executor.deleteObject s3Fine "t" "bucket" "t-01.bin" "" metrics.NewCollector
  /\ executor.Generic.dispatch (H := executor.S3Executor.backend) s3Fine "t" (stepNamed "list")
       "t-01.bin" "bucket" "" metrics.NewCollector
     = Some (metrics.NewCollector, Some (executor.ErrUnknownOperation "S3" "list")).
Proof.
  pose proof (dispatch_by_step_name (H := executor.S3Executor.backend)
                (stepWorldOf s3Fine) "t" (stepNamed "delete") "t-01.bin" "bucket" "" true
                metrics.NewCollector) as (_ & _ & Hdelete & _).
  pose proof (dispatch_by_step_name (H := executor.S3Executor.backend)
                (stepWorldOf s3Fine) "t" (stepNamed "list") "t-01.bin" "bucket" "" true
                metrics.NewCollector) as (_ & _ & _ & Hlist).
  split.
  - exact (Hdelete eq_refl).
  - apply Hlist; discriminate.
Defined.

(** ** The bytes and operation counters (C3) *)

Section CounterLemmas.
Context {K : Type} `{Countable K}.

Lemma value_insert (m : gmap K Z) (k k' : K) (v : Z) :
  metrics.value (<[k := v]> m) k' = if decide (k = k') then v else metrics.value m k'.
Proof.
  unfold metrics.value. rewrite lookup_insert. by destruct (decide (k = k')).
Qed.

Lemma value_Inc (m : gmap K Z) (k k' : K) :
  metrics.value (metrics.Inc k m) k'
  = metrics.value m k' + (if decide (k = k') then 1 else 0).
Proof.
  unfold metrics.Inc. rewrite value_insert.
  destruct (decide (k = k')) as [->|]; lia.
Qed.

Lemma Add_Some (m m' : gmap K Z) (k : K) (v : Z) :
  metrics.Add k v m = Some m' ->
  0 <= v /\ forall k', metrics.value m' k'
                       = metrics.value m k' + (if decide (k = k') then v else 0).
Proof.
  unfold metrics.Add. destruct (Z.ltb_spec v 0) as [|Hv]; [done|].
  intros [= <-]. split; [done|]. intros k'. rewrite value_insert.
  destruct (decide (k = k')) as [->|]; lia.
Qed.

Lemma Add_nonneg (m : gmap K Z) (k : K) (v : Z) :
  0 <= v -> metrics.Add k v m = Some (<[k := metrics.value m k + v]> m).
Proof. unfold metrics.Add. destruct (Z.ltb_spec v 0); [lia|done]. Qed.
End CounterLemmas.

(** The histogram and gauge updates at the head of the two recorders
    leave the three counters alone. *)
Lemma recordOutcome_failure testName action executor bucket bytes c :
  exists c',
    metrics.recordOutcome testName action executor bucket bytes false c = Some c'
    /\ metrics.storjBytes c' = metrics.storjBytes c
    /\ metrics.storjOperationCount c' = metrics.storjOperationCount c
    /\ metrics.storjOperationSuccess c'
       = metrics.Inc (testName, action, executor, "failure") (metrics.storjOperationSuccess c)
    /\ metrics.testRunsTotal c' = metrics.testRunsTotal c.
Proof. eexists. split; [reflexivity|]. repeat split. Qed.

Lemma recordOutcome_success testName action executor bucket bytes c :
  0 <= bytes ->
  exists c',
    metrics.recordOutcome testName action executor bucket bytes true c = Some c'
    /\ metrics.storjBytes c'
       = <[(testName, action, executor, bucket) :=
             metrics.value (metrics.storjBytes c) (testName, action, executor, bucket) + bytes]>
           (metrics.storjBytes c)
    /\ metrics.storjOperationCount c'
       = metrics.Inc (testName, action, executor, bucket) (metrics.storjOperationCount c)
    /\ metrics.storjOperationSuccess c'
       = metrics.Inc (testName, action, executor, "success") (metrics.storjOperationSuccess c)
    /\ metrics.testRunsTotal c' = metrics.testRunsTotal c.
Proof.
  intros Hb. unfold metrics.recordOutcome. rewrite Add_nonneg by done.
  eexists. split; [reflexivity|]. repeat split.
Qed.

Lemma recordOutcome_bytes_mono testName action executor bucket bytes success c c' k :
  metrics.recordOutcome testName action executor bucket bytes success c = Some c' ->
  metrics.value (metrics.storjBytes c) k <= metrics.value (metrics.storjBytes c') k.
Proof.
  unfold metrics.recordOutcome. destruct success.
  - destruct (metrics.Add _ _ _) as [b|] eqn:E; [|done].
    intros [= <-]. cbn. apply Add_Some in E as [Hb Hv]. rewrite Hv.
    destruct (decide _); lia.
  - intros [= <-]. cbn. lia.
Qed.

(** What [RecordStorjUpload] and [RecordStorjDownload] do before the
    shared tail: a collector with the same counters. *)
Lemma RecordStorjUpload_tail testName executor bucket fileSize duration bytes success c :
  exists c0,
    metrics.RecordStorjUpload testName executor bucket fileSize duration bytes success c
    = metrics.recordOutcome testName "upload" executor bucket bytes success c0
    /\ metrics.storjBytes c0 = metrics.storjBytes c
    /\ metrics.storjOperationCount c0 = metrics.storjOperationCount c
    /\ metrics.storjOperationSuccess c0 = metrics.storjOperationSuccess c
    /\ metrics.testRunsTotal c0 = metrics.testRunsTotal c.
Proof.
  unfold metrics.RecordStorjUpload. eexists. split; [reflexivity|].
  destruct (negb _ && _), (0 <? duration); repeat split.
Qed.

Lemma RecordStorjDownload_tail testName executor bucket fileSize duration bytes success c :
  exists c0,
    metrics.RecordStorjDownload testName executor bucket fileSize duration bytes success c
    = metrics.recordOutcome testName "download" executor bucket bytes success c0
    /\ metrics.storjBytes c0 = metrics.storjBytes c
    /\ metrics.storjOperationCount c0 = metrics.storjOperationCount c
    /\ metrics.storjOperationSuccess c0 = metrics.storjOperationSuccess c
    /\ metrics.testRunsTotal c0 = metrics.testRunsTotal c.
Proof.
  unfold metrics.RecordStorjDownload. eexists. split; [reflexivity|].
  destruct (0 <? duration); repeat split.
Qed.

(** A negative byte count on a successful record makes [Counter.Add]
    panic. *)
Lemma RecordStorjUpload_negative_panics testName executor bucket fileSize duration bytes c :
  bytes < 0 ->
  metrics.RecordStorjUpload testName executor bucket fileSize duration bytes true c = None.
Proof.
  intros Hb. destruct (RecordStorjUpload_tail testName executor bucket fileSize duration
                         bytes true c) as (c0 & -> & _).
  unfold metrics.recordOutcome, metrics.Add. destruct (Z.ltb_spec bytes 0); [done|lia].
Qed.

(** C3.  A failed upload or download leaves [synth_bytes_total] and
    [synth_operation_count_total] as they are and adds one to
    [synth_operation_success_total{status=failure}]; a successful one adds
    the byte count to [synth_bytes_total] and one to
    [synth_operation_count_total].  So no call ever lowers a value of
    [synth_bytes_total]. *)
Theorem storj_counters_follow_outcome (testName executor bucket fileSize : string)
  (duration bytes : Z) (c : metrics.Collector) :
  let upload := metrics.RecordStorjUpload testName executor bucket fileSize duration bytes in
  let download := metrics.RecordStorjDownload testName executor bucket fileSize duration bytes in
  let failed action c' :=
    metrics.storjBytes c' = metrics.storjBytes c
    /\ metrics.storjOperationCount c' = metrics.storjOperationCount c
    /\ metrics.value (metrics.storjOperationSuccess c') (testName, action, executor, "failure")
       = metrics.value (metrics.storjOperationSuccess c) (testName, action, executor, "failure")
         + 1 in
  let succeeded action c' :=
    forall k,
      metrics.value (metrics.storjBytes c') k
      = metrics.value (metrics.storjBytes c) k
        + (if decide ((testName, action, executor, bucket) = k) then bytes else 0)
      /\ metrics.value (metrics.storjOperationCount c') k
         = metrics.value (metrics.storjOperationCount c) k
           + (if decide ((testName, action, executor, bucket) = k) then 1 else 0) in
  (exists c', upload false c = Some c' /\ failed "upload" c')
  /\ (exists c', download false c = Some c' /\ failed "download" c')
  /\ (0 <= bytes ->
      (exists c', upload true c = Some c' /\ succeeded "upload" c')
      /\ (exists c', download true c = Some c' /\ succeeded "download" c'))
  /\ (forall success c' k,
        upload success c = Some c' \/ download success c = Some c' ->
        metrics.value (metrics.storjBytes c) k <= metrics.value (metrics.storjBytes c') k).
Proof.
  intros upload download failed succeeded.
  subst upload download failed succeeded. cbv beta.
  split; [|split; [|split]].
  - destruct (RecordStorjUpload_tail testName executor bucket fileSize duration bytes false c)
      as (c0 & -> & Hb & Hc & Hs & _).
    destruct (recordOutcome_failure testName "upload" executor bucket bytes c0)
      as (c' & -> & Hb' & Hc' & Hs' & _).
    exists c'. split; [done|]. rewrite Hb', Hc', Hs', Hb, Hc, Hs, value_Inc.
    by rewrite decide_True.
  - destruct (RecordStorjDownload_tail testName executor bucket fileSize duration bytes false c)
      as (c0 & -> & Hb & Hc & Hs & _).
    destruct (recordOutcome_failure testName "download" executor bucket bytes c0)
      as (c' & -> & Hb' & Hc' & Hs' & _).
    exists c'. split; [done|]. rewrite Hb', Hc', Hs', Hb, Hc, Hs, value_Inc.
    by rewrite decide_True.
  - intros Hbytes. split.
    + destruct (RecordStorjUpload_tail testName executor bucket fileSize duration bytes true c)
        as (c0 & -> & Hb & Hc & Hs & _).
      destruct (recordOutcome_success testName "upload" executor bucket bytes c0 Hbytes)
        as (c' & -> & Hb' & Hc' & Hs' & _).
      exists c'. split; [done|]. intros k. rewrite Hb', Hc', Hb, Hc, value_Inc, value_insert.
      destruct (decide _) as [<-|]; split; lia.
    + destruct (RecordStorjDownload_tail testName executor bucket fileSize duration bytes true c)
        as (c0 & -> & Hb & Hc & Hs & _).
      destruct (recordOutcome_success testName "download" executor bucket bytes c0 Hbytes)
        as (c' & -> & Hb' & Hc' & Hs' & _).
      exists c'. split; [done|]. intros k. rewrite Hb', Hc', Hb, Hc, value_Inc, value_insert.
      destruct (decide _) as [<-|]; split; lia.
  - intros success c' k [Hup|Hdown].
    + destruct (RecordStorjUpload_tail testName executor bucket fileSize duration bytes
                  success c) as (c0 & Heq & Hb & _).
      rewrite Heq in Hup. rewrite <- Hb. by eapply recordOutcome_bytes_mono.
    + destruct (RecordStorjDownload_tail testName executor bucket fileSize duration bytes
                  success c) as (c0 & Heq & Hb & _).
      rewrite Heq in Hdown. rewrite <- Hb. by eapply recordOutcome_bytes_mono.
Qed.

Lemma storj_counters_follow_outcome_witness :
  exists c',
    metrics.RecordStorjUpload "t1" "s3" "bucket" "5MB" (700 * time.Millisecond) 5242880 true
      metrics.NewCollector = Some c'
    /\ metrics.value (metrics.storjBytes c') ("t1", "upload", "s3", "bucket") = 5242880
    /\ metrics.value (metrics.storjOperationCount c') ("t1", "upload", "s3", "bucket") = 1.
Proof.
  pose proof (storj_counters_follow_outcome "t1" "s3" "bucket" "5MB"
                (700 * time.Millisecond) 5242880 metrics.NewCollector)
    as (_ & _ & Hok & _).
  destruct Hok as ((c' & Hc' & Hvals) & _); [lia|].
  exists c'. split; [exact Hc'|].
  destruct (Hvals ("t1", "upload", "s3", "bucket")) as (Hb & Hn).
  rewrite Hb, Hn. split; reflexivity.
Defined.

(** ** Jitter (C8) *)

Section JitterApply.
Variable Int63n : Z -> Z.
Variable timerWinsTie : bool.

(** The contract of [rand.Int63n]: a value in [[0, n)] for positive [n]. *)
Hypothesis Int63n_range : forall n, 0 < n -> 0 <= Int63n n < n.

(** C8.  [Apply] returns nil at once when [maxJitter <= 0].  Otherwise
    it draws a duration in [[0, maxJitter)]; it returns nil after waiting
    that long when the context is not cancelled before, and the context's
    error when the context is cancelled before the wait is over.  (A
    context cancelled before the call counts as cancelled at the call;
    when the timer and the cancellation become ready at the same instant
    the choice is [select]'s.) *)
Theorem Apply_waits_or_is_cancelled (ctx : jitter.Context) (maxJitter : time.Duration)
  (label : string) :
  let r := jitter.Apply Int63n timerWinsTie ctx maxJitter label in
  let d := Int63n maxJitter in
  (maxJitter <= 0 -> r = {| jitter.err := None; jitter.waited := 0 |})
  /\ (0 < maxJitter ->
      0 <= d < maxJitter
      /\ (jitter.err r = None -> jitter.waited r = d)
      /\ (jitter.cancelledAfter ctx = None ->
          r = {| jitter.err := None; jitter.waited := d |})
      /\ (forall t, jitter.cancelledAfter ctx = Some t -> d < t ->
                    r = {| jitter.err := None; jitter.waited := d |})
      /\ (forall t, jitter.cancelledAfter ctx = Some t -> Z.max 0 t < d ->
                    r = {| jitter.err := Some jitter.Canceled;
                           jitter.waited := Z.max 0 t |})).
Proof.
  intros r d. subst r d. unfold jitter.Apply. split.
  - intros Hmax. destruct (Z.leb_spec maxJitter 0); [done|lia].
  - intros Hmax. pose proof (Int63n_range maxJitter Hmax) as Hd.
    destruct (Z.leb_spec maxJitter 0); [lia|].
    split; [done|]. split; [|split; [|split]].
    + destruct (jitter.cancelledAfter ctx) as [t|]; [|done].
      destruct (Z.ltb_spec (Int63n maxJitter) (Z.max 0 t)); [done|].
      destruct (Z.ltb_spec (Z.max 0 t) (Int63n maxJitter)); [done|].
      by destruct timerWinsTie.
    + by intros ->.
    + intros t -> Ht. pose proof (Z.le_max_r 0 t).
      destruct (Z.ltb_spec (Int63n maxJitter) (Z.max 0 t)); [done|lia].
    + intros t -> Ht.
      destruct (Z.ltb_spec (Int63n maxJitter) (Z.max 0 t)); [lia|].
      destruct (Z.ltb_spec (Z.max 0 t) (Int63n maxJitter)); [done|lia].
Qed.
End JitterApply.

Lemma Apply_waits_or_is_cancelled_witness :
  jitter.Apply (fun n => n - 1) true {| jitter.cancelledAfter := Some (2 * time.Second) |}
    (5 * time.Second) "test t1"
  = {| jitter.err := Some jitter.Canceled; jitter.waited := 2 * time.Second |}
  /\ jitter.Apply (fun n => n - 1) true {| jitter.cancelledAfter := None |} 0 "test t1"
     = {| jitter.err := None; jitter.waited := 0 |}.
Proof.
  assert (Hrange : forall n, 0 < n -> 0 <= (fun n => n - 1) n < n) by (intros n Hn; lia).
  pose proof (Apply_waits_or_is_cancelled (fun n => n - 1) true Hrange
                {| jitter.cancelledAfter := Some (2 * time.Second) |} (5 * time.Second)
                "test t1") as (_ & Hpos).
  pose proof (Apply_waits_or_is_cancelled (fun n => n - 1) true Hrange
                {| jitter.cancelledAfter := None |} 0 "test t1") as (Hzero & _).
  split.
  - destruct Hpos as (_ & _ & _ & _ & Hcancel); [reflexivity|].
    apply (Hcancel (2 * time.Second)); reflexivity.
  - apply Hzero. lia.
Defined.

(** ** On-demand runs (C10) *)

Section RunNow.
Context {E W : Type} `{executor.TestExecutor E W}.
Variable cronAccepts : string -> bool.

Lemma schedule_only_enabled (s : scheduler.Scheduler E) (tests : list config.Test.t)
  (table table' : list (scheduler.Entry E)) (err : option scheduler.error) :
  Forall (fun e => config.Test.Enabled (scheduler.entryTest e) = true) table ->
  scheduler.schedule cronAccepts s tests table = (table', err) ->
  Forall (fun e => config.Test.Enabled (scheduler.entryTest e) = true) table'.
Proof.
  revert table. induction tests as [|test rest IH]; intros table Htable; simpl.
  - by intros [= <- _].
  - destruct (config.Test.Enabled test) eqn:Hen; simpl; [|by apply IH].
    destruct (scheduler.executors s !! config.GetExecutor test); [|by apply IH].
    destruct (cronAccepts _).
    + apply IH. apply Forall_app. split; [done|]. by constructor.
    + by intros [= <- _].
Qed.

Lemma runNow_first_match (s : scheduler.Scheduler E) (w : W)
  (before after : list config.Test.t) (test : config.Test.t) (exec : E)
  (c : metrics.Collector) :
  Forall (fun t => config.Test.Name t <> config.Test.Name test) before ->
  scheduler.executors s !! config.GetExecutor test = Some exec ->
  scheduler.runNow s (before ++ test :: after)%list w (config.Test.Name test) c
  = scheduler.ofOutcome (executor.RunTest exec w test c).
Proof.
  intros Hbefore Hexec. induction Hbefore as [|t before Hne _ IH]; simpl.
  - by rewrite String.eqb_refl, Hexec.
  - by destruct (String.eqb_spec (config.Test.Name t) (config.Test.Name test)).
Qed.

(** C10.  [RunNow] runs the first configured test of the given name
    through the executor registered for it, also when the test is
    disabled; it is [Start] that leaves disabled tests out, so no entry of
    the cron table is for a disabled test. *)
Theorem RunNow_runs_disabled_test (s : scheduler.Scheduler E) (w : W)
  (before after : list config.Test.t) (test : config.Test.t) (exec : E)
  (c : metrics.Collector) :
  config.Config.Tests (scheduler.config s) = (before ++ test :: after)%list ->
  Forall (fun t => config.Test.Name t <> config.Test.Name test) before ->
  scheduler.executors s !! config.GetExecutor test = Some exec ->
  config.Test.Enabled test = false ->
  scheduler.RunNow s w (config.Test.Name test) c
  = scheduler.ofOutcome (executor.RunTest exec w test c)
  /\ forall table err,
       scheduler.Start cronAccepts s = (table, err) ->
       Forall (fun e => config.Test.Enabled (scheduler.entryTest e) = true) table
       /\ test ∉ scheduler.entryTest <$> table.
Proof.
  intros Htests Hbefore Hexec Hdisabled. split.
  - unfold scheduler.RunNow. rewrite Htests. by apply runNow_first_match.
  - intros table err Hstart.
    assert (Hall : Forall (fun e => config.Test.Enabled (scheduler.entryTest e) = true) table).
    { eapply schedule_only_enabled; [|exact Hstart]. constructor. }
    split; [done|].
    intros (e & -> & He)%list_elem_of_fmap.
    rewrite Forall_forall in Hall. specialize (Hall e He). congruence.
Qed.
End RunNow.

(** *** A disabled test, run on demand *)

Lemma RunNow_runs_disabled_test_witness :
  scheduler.RunNow sampleScheduler (s3Run s3Fine) "nightly" metrics.NewCollector
  = scheduler.ofOutcome
      (executor.RunTest {| executor.S3Executor.cfg := sampleConfig [roundTrip; nightly] |}
         (s3Run s3Fine) nightly metrics.NewCollector)
  /\ nightly ∉ scheduler.entryTest <$> (scheduler.Start (fun _ => true) sampleScheduler).1.
Proof.
  destruct (RunNow_runs_disabled_test (fun _ => true) sampleScheduler (s3Run s3Fine)
              [roundTrip] [] nightly
              {| executor.S3Executor.cfg := sampleConfig [roundTrip; nightly] |}
              metrics.NewCollector) as (Hrun & Hstart).
  - reflexivity.
  - repeat constructor. discriminate.
  - reflexivity.
  - reflexivity.
  - split; [exact Hrun|].
    destruct (scheduler.Start (fun _ => true) sampleScheduler) as [table err] eqn:E.
    exact (proj2 (Hstart table err eq_refl)).
Defined.

(** ** Test runs (C1) *)

Lemma RecordTestRun_runs testName stepName executor success duration c :
  metrics.testRunsTotal (metrics.RecordTestRun testName stepName executor success duration c)
  = metrics.Inc (runKey testName stepName executor success) (metrics.testRunsTotal c).
Proof. reflexivity. Qed.

Lemma incAll_app {K : Type} `{Countable K} (l1 l2 : list K) (m : gmap K Z) :
  incAll (l1 ++ l2) m = incAll l2 (incAll l1 m).
Proof. apply foldl_app. Qed.

Lemma value_incAll {K : Type} `{Countable K} (keys : list K) (m : gmap K Z) (k : K) :
  metrics.value (incAll keys m) k
  = metrics.value m k + Z.of_nat (length (filter (fun k' => k' = k) keys)).
Proof.
  revert m. induction keys as [|k0 keys IH]; intros m; simpl.
  - lia.
  - rewrite IH, value_Inc, filter_cons.
    destruct (decide (k0 = k)); simpl; lia.
Qed.

(** How often a label tuple occurs among those of the steps that
    succeeded, and among the repeated failure tuples. *)
Lemma count_successKeys (executorName testName name : string) (success : bool)
  (steps : list config.TestStep.t) :
  length (filter (fun k' => k' = runKey testName name executorName success)
            (successKeys executorName testName steps))
  = if success
    then length (filter (fun s => config.TestStep.Name s = name) steps)
    else 0%nat.
Proof.
  unfold successKeys. induction steps as [|s l IH]; [by destruct success|].
  rewrite fmap_cons, filter_cons.
  destruct (decide (runKey _ _ _ _ = runKey _ _ _ _)) as [Heq|Hne]; simpl; rewrite IH.
  - injection Heq as Hname Hstatus. destruct success; [|done].
    by rewrite filter_cons, decide_True.
  - destruct success; [|done].
    rewrite filter_cons, decide_False; [done|].
    intros Hname. apply Hne. by rewrite Hname.
Qed.

Lemma count_replicate {A : Type} `{EqDecision A} (x y : A) (n : nat) :
  length (filter (fun k => k = y) (replicate n x)) = if decide (x = y) then n else 0%nat.
Proof.
  induction n as [|n IH]; simpl; [by destruct (decide _)|].
  rewrite filter_cons. destruct (decide (x = y)); simpl; by rewrite IH.
Qed.

(** The loop, from any iteration on, for any [runStep] that ends in one
    of the three ways: a nil return means one success increment for each
    remaining step and then the one for the run; a failure at a step
    means one success increment for each step before it, and then one or
    two failure increments under that step's name. *)
Lemma runLoop_increments (executorName testName : string)
  (runStep : nat -> config.TestStep.t -> metrics.Collector -> executor.outcome)
  (sinceStart : nat -> time.Duration) (runDuration : time.Duration)
  (steps : list config.TestStep.t) :
  (forall i step c c' e,
     runStep i step c = Some (c', e) -> stepRecorded executorName testName step c c' e) ->
  forall i c c' e,
    executor.runLoop executorName testName runStep sinceStart runDuration i steps c
    = Some (c', e) ->
    match e with
    | None =>
        metrics.testRunsTotal c'
        = incAll (successKeys executorName testName steps
                  ++ [runKey testName "" executorName true])
            (metrics.testRunsTotal c)
    | Some (executor.ErrTestFailed failedTest stepName cause) =>
        failedTest = testName
        /\ (cause = executor.ErrStepJitter
            \/ exists err, cause = executor.ErrStepExecution err)
        /\ exists j step,
             steps !! j = Some step /\ config.TestStep.Name step = stepName
             /\ metrics.testRunsTotal c'
                = incAll (successKeys executorName testName (take j steps)
                          ++ replicate (failureIncrements cause)
                               (runKey testName stepName executorName false))
                    (metrics.testRunsTotal c)
    | Some _ => False
    end.
Proof.
  intros Hstep. induction steps as [|step rest IH]; intros i c c' e; simpl.
  - intros [= <- <-]. by rewrite RecordTestRun_runs.
  - destruct (runStep i step c) as [[c1 [err|]]|] eqn:Hrun; [| |done].
    + intros [= <- <-]. split; [done|]. rewrite RecordTestRun_runs.
      apply Hstep in Hrun as [[? _]|[[[= ->] ->]|(cause & [= ->] & Hc1)]]; [done| |].
      * split; [by left|]. by exists 0%nat, step.
      * split; [right; by exists cause|]. exists 0%nat, step.
        split; [done|]. split; [done|]. simpl. by rewrite Hc1.
    + intros Hrest. apply IH in Hrest.
      apply Hstep in Hrun as [[_ Hc1]|[[? _]|(? & ? & _)]]; [|done..].
      destruct e as [[]|]; try done.
      * destruct Hrest as (Htest & Hcause & j & st & Hj & Hname & Hruns).
        split; [done|]. split; [done|].
        exists (S j), st. split; [done|]. split; [done|].
        simpl in *. by rewrite Hruns, Hc1.
      * simpl in *. by rewrite Hrest, Hc1.
Qed.

(** From the increments of the loop to the property of the run. *)
Lemma runLoop_runIncrements (executorName : string) (test : config.Test.t)
  (runStep : nat -> config.TestStep.t -> metrics.Collector -> executor.outcome)
  (sinceStart : nat -> time.Duration) (runDuration : time.Duration)
  (c c' : metrics.Collector) (e : option executor.error) :
  (forall i step c c' e,
     runStep i step c = Some (c', e) ->
     stepRecorded executorName (config.Test.Name test) step c c' e) ->
  executor.runLoop executorName (config.Test.Name test) runStep sinceStart runDuration 0
    (config.Test.Steps test) c = Some (c', e) ->
  runIncrements executorName test c c' e.
Proof.
  intros Hstep Hrun. apply runLoop_increments in Hrun; [|exact Hstep].
  unfold runIncrements. cbv zeta in *.
  destruct e as [[]|]; try done.
  - destruct Hrun as (Htest & Hcause & j & st & Hj & Hname & Hruns).
    split; [done|]. split; [done|].
    exists j, st. split; [done|]. split; [done|]. split; [done|].
    intros name.
    rewrite Hruns, !value_incAll, !filter_app, !length_app, !count_successKeys,
      !count_replicate.
    split.
    + rewrite decide_False by (unfold runKey; simpl; congruence). lia.
    + destruct (decide (runKey _ _ _ _ = runKey _ _ _ _)) as [Heq|Hne];
        destruct (decide (name = step)) as [Hn|Hn]; try lia.
      * injection Heq as Heq. congruence.
      * exfalso. apply Hne. by rewrite Hn.
  - split; [done|]. intros Hnames. rewrite Hrun, !value_incAll.
    rewrite !filter_app, !length_app, !count_successKeys.
    replace (length (filter (fun s => config.TestStep.Name s = "") (config.Test.Steps test)))
      with 0%nat.
    2:{ clear Hrun. induction Hnames as [|s l Hs _ IH]; [done|].
        by rewrite filter_cons, decide_False. }
    split; simpl.
    + rewrite filter_cons, decide_True by done. simpl. lia.
    + rewrite filter_cons, decide_False by (unfold runKey; simpl; congruence). simpl. lia.
Qed.

Section Backends.
Context {B W : Type} {H : executor.Backend B W} {HF : BackendFrame H}.

Lemma dispatch_frame (w : W) testName step filename bucket fileSizeLabel c c' e :
  executor.Generic.dispatch w testName step filename bucket fileSizeLabel c = Some (c', e) ->
  metrics.testRunsTotal c' = metrics.testRunsTotal c.
Proof.
  unfold executor.Generic.dispatch.
  destruct (String.eqb _ "upload"); [apply uploadObject_frame|].
  destruct (String.eqb _ "download"); [apply downloadObject_frame|].
  destruct (String.eqb _ "delete"); [apply deleteObject_frame|].
  by intros [= <- _].
Qed.

Lemma runStep_recorded (w : executor.StepWorld W) testName step filename bucket single c c' e :
  executor.Generic.runStep w testName step filename bucket single c = Some (c', e) ->
  stepRecorded executor.executorName testName step c c' e.
Proof.
  unfold executor.Generic.runStep, stepRecorded.
  destruct (executor.stepJitter w testName step).
  { intros [= <- <-]. right. by left. }
  destruct (executor.Generic.dispatch _ _ _ _ _ _ _) as [[c1 [err|]]|] eqn:Hd; [| |done].
  - intros [= <- <-]. right. right. exists err. split; [done|].
    rewrite RecordTestRun_runs. by rewrite (dispatch_frame _ _ _ _ _ _ _ _ _ Hd).
  - intros [= <- <-]. left. split; [done|].
    rewrite RecordTestRun_runs. by rewrite (dispatch_frame _ _ _ _ _ _ _ _ _ Hd).
Qed.

Lemma Generic_RunTest_increments (cfg : config.Config.t) (world : executor.RunWorld B W)
  (test : config.Test.t) (c c' : metrics.Collector) (e : option executor.error) :
  executor.Generic.RunTest cfg world test c = Some (c', e) ->
  runIncrements executor.executorName test c c' e.
Proof.
  unfold executor.Generic.RunTest.
  destruct (executor.ensureBucket _ _); [by intros [= <- <-]|].
  apply runLoop_runIncrements. intros i step c0 c1 e0. apply runStep_recorded.
Qed.
End Backends.

(** *** The recorders of operations leave the test-run counter alone *)

Lemma recordOutcome_frame testName action executor bucket bytes success c c' :
  metrics.recordOutcome testName action executor bucket bytes success c = Some c' ->
  metrics.testRunsTotal c' = metrics.testRunsTotal c.
Proof.
  unfold metrics.recordOutcome. destruct success.
  - destruct (metrics.Add _ _ _); [|done]. by intros [= <-].
  - by intros [= <-].
Qed.

Lemma RecordStorjUpload_frame testName executor bucket fileSize duration bytes success c c' :
  metrics.RecordStorjUpload testName executor bucket fileSize duration bytes success c
  = Some c' ->
  metrics.testRunsTotal c' = metrics.testRunsTotal c.
Proof.
  destruct (RecordStorjUpload_tail testName executor bucket fileSize duration bytes success c)
    as (c0 & -> & _ & _ & _ & <-).
  apply recordOutcome_frame.
Qed.

Lemma RecordStorjDownload_frame testName executor bucket fileSize duration bytes success c c' :
  metrics.RecordStorjDownload testName executor bucket fileSize duration bytes success c
  = Some c' ->
  metrics.testRunsTotal c' = metrics.testRunsTotal c.
Proof.
  destruct (RecordStorjDownload_tail testName executor bucket fileSize duration bytes success c)
    as (c0 & -> & _ & _ & _ & <-).
  apply recordOutcome_frame.
Qed.

Lemma RecordStorjDelete_frame testName executor bucket fileSize duration count success c :
  metrics.testRunsTotal
    (metrics.RecordStorjDelete testName executor bucket fileSize duration count success c)
  = metrics.testRunsTotal c.
Proof.
  unfold metrics.RecordStorjDelete.
  by destruct (negb _ && _), (0 <? duration), (success && _).
Qed.

Lemma RecordHTTPTimingPhase_frame testName action executor phase duration c :
  metrics.testRunsTotal (metrics.RecordHTTPTimingPhase testName action executor phase duration c)
  = metrics.testRunsTotal c.
Proof. unfold metrics.RecordHTTPTimingPhase. by destruct (0 <? duration). Qed.

Lemma RecordHTTPTiming_frame testName action executor t c :
  metrics.testRunsTotal (metrics.RecordHTTPTiming testName action executor t c)
  = metrics.testRunsTotal c.
Proof. unfold metrics.RecordHTTPTiming. by rewrite !RecordHTTPTimingPhase_frame. Qed.

(** A recorder that may panic, followed by a return. *)
Lemma bind_frame (r : option metrics.Collector) (e : option executor.error) c c' e' :
  (forall c1, r = Some c1 -> metrics.testRunsTotal c1 = metrics.testRunsTotal c) ->
  (c1 ← r; Some (c1, e)) = Some (c', e') ->
  metrics.testRunsTotal c' = metrics.testRunsTotal c.
Proof. destruct r as [c1|]; [|done]. intros Hr [= <- _]. by apply Hr. Qed.

#[global] Instance S3Executor_frame : BackendFrame executor.S3Executor.backend.
Proof.
  split; simpl.
  - intros w testName bucket filename step c c' e.
    unfold executor.S3Executor.uploadObject. destruct (executor.uploadSize step) as [size label].
    destruct (size <? 0); [done|].
    destruct (negb _); [by intros [= <- _]|].
    destruct (negb _); apply bind_frame; intros c1; apply RecordStorjUpload_frame.
  - intros w testName bucket filename c c' e.
    unfold executor.S3Executor.downloadObject.
    destruct (negb _); [apply bind_frame; intros c1; apply RecordStorjDownload_frame|].
    destruct (negb _); apply bind_frame; intros c1; apply RecordStorjDownload_frame.
  - intros w testName bucket filename label c c' e.
    unfold executor.S3Executor.deleteObject.
    destruct (negb _); intros [= <- _]; apply RecordStorjDelete_frame.
Qed.

#[global] Instance CurlS3Executor_frame : BackendFrame executor.CurlS3Executor.backend.
Proof.
  split; simpl.
  - intros w testName bucket filename step c c' e.
    unfold executor.CurlS3Executor.uploadObject.
    destruct (executor.uploadSize step) as [size label].
    destruct (size <? 0); [done|].
    repeat (destruct (negb _); [by intros [= <- _]|]).
    destruct (executor.CurlS3Executor.signed w) as [[headers signDuration]|];
      [|by intros [= <- _]].
    destruct (executor.CurlS3Executor.cmdOutput w) as [out|];
      [|apply bind_frame; intros c1; apply RecordStorjUpload_frame].
    destruct (executor.parseCurlOutput out) as [[status timings]|];
      [|apply bind_frame; intros c1; apply RecordStorjUpload_frame].
    destruct (negb _ && negb _); intros Hb;
      (eapply bind_frame in Hb;
       [by rewrite Hb, RecordHTTPTimingPhase_frame, RecordHTTPTiming_frame
       |intros c1; apply RecordStorjUpload_frame]).
  - intros w testName bucket filename c c' e.
    unfold executor.CurlS3Executor.downloadObject.
    destruct (executor.CurlS3Executor.signed w) as [[headers signDuration]|];
      [|by intros [= <- _]].
    destruct (negb _); [by intros [= <- _]|].
    destruct (executor.CurlS3Executor.cmdOutput w) as [out|];
      [|apply bind_frame; intros c1; apply RecordStorjDownload_frame].
    destruct (executor.parseCurlOutput out) as [[status timings]|];
      [|apply bind_frame; intros c1; apply RecordStorjDownload_frame].
    destruct (negb _); [|destruct (executor.CurlS3Executor.statSize w)]; intros Hb;
      (eapply bind_frame in Hb;
       [by rewrite Hb, RecordHTTPTimingPhase_frame, RecordHTTPTiming_frame
       |intros c1; apply RecordStorjDownload_frame]).
  - intros w testName bucket filename label c c' e.
    unfold executor.CurlS3Executor.deleteObject.
    destruct (executor.CurlS3Executor.signed w) as [[headers signDuration]|];
      [|by intros [= <- _]].
    destruct (executor.CurlS3Executor.cmdOutput w) as [out|];
      [|intros [= <- _]; apply RecordStorjDelete_frame].
    destruct (executor.parseCurlOutput out) as [[status timings]|];
      [|intros [= <- _]; apply RecordStorjDelete_frame].
    destruct (negb _ && negb _); intros [= <- _];
      by rewrite RecordStorjDelete_frame, RecordHTTPTimingPhase_frame, RecordHTTPTiming_frame.
Qed.

#[global] Instance HttpS3Executor_frame : BackendFrame executor.HttpS3Executor.backend.
Proof.
  split; simpl.
  - intros w testName bucket filename step c c' e.
    unfold executor.HttpS3Executor.uploadObject, executor.HttpS3Executor.recordTimings.
    destruct (executor.uploadSize step) as [size label].
    destruct (size <? 0); [done|].
    repeat (destruct (negb _); [by intros [= <- _]|]).
    destruct (executor.HttpS3Executor.signed w) as [signDuration|]; [|by intros [= <- _]].
    destruct (executor.HttpS3Executor.response w) as [code|];
      [|apply bind_frame; intros c1; apply RecordStorjUpload_frame].
    destruct (negb _ && negb _); intros Hb;
      (eapply bind_frame in Hb;
       [by rewrite Hb, RecordHTTPTimingPhase_frame, RecordHTTPTiming_frame
       |intros c1; apply RecordStorjUpload_frame]).
  - intros w testName bucket filename c c' e.
    unfold executor.HttpS3Executor.downloadObject, executor.HttpS3Executor.recordTimings.
    destruct (negb _); [by intros [= <- _]|].
    destruct (executor.HttpS3Executor.signed w) as [signDuration|]; [|by intros [= <- _]].
    destruct (executor.HttpS3Executor.response w) as [code|];
      [|apply bind_frame; intros c1; apply RecordStorjDownload_frame].
    destruct (negb (code =? 200));
      [apply bind_frame; intros c1; apply RecordStorjDownload_frame|].
    destruct (negb _); intros Hb;
      (eapply bind_frame in Hb;
       [by rewrite Hb, RecordHTTPTimingPhase_frame, RecordHTTPTiming_frame
       |intros c1; apply RecordStorjDownload_frame]).
  - intros w testName bucket filename label c c' e.
    unfold executor.HttpS3Executor.deleteObject, executor.HttpS3Executor.recordTimings.
    destruct (negb _); [by intros [= <- _]|].
    destruct (executor.HttpS3Executor.signed w) as [signDuration|]; [|by intros [= <- _]].
    destruct (executor.HttpS3Executor.response w) as [code|];
      [|intros [= <- _]; apply RecordStorjDelete_frame].
    destruct (negb _ && negb _); intros [= <- _];
      by rewrite RecordStorjDelete_frame, RecordHTTPTimingPhase_frame, RecordHTTPTiming_frame.
Qed.

(** *** The native executor *)

Lemma recordDeleteDurations_frame testName bucket fileSizeLabel points c :
  metrics.testRunsTotal
    (executor.UplinkExecutor.recordDeleteDurations testName bucket fileSizeLabel points c)
  = metrics.testRunsTotal c.
Proof.
  unfold executor.UplinkExecutor.recordDeleteDurations.
  revert c. induction points as [|p points IH]; intros c; simpl; [done|].
  by rewrite IH, RecordStorjDelete_frame.
Qed.

Lemma recordDeleteFailures_frame testName bucket fileSizeLabel points c :
  metrics.testRunsTotal
    (executor.UplinkExecutor.recordDeleteFailures testName bucket fileSizeLabel points c)
  = metrics.testRunsTotal c.
Proof.
  unfold executor.UplinkExecutor.recordDeleteFailures.
  revert c. induction points as [|p points IH]; intros c; simpl; [done|].
  rewrite IH. destruct (executor.UplinkExecutor.valuePositive p); [done|].
  apply RecordStorjDelete_frame.
Qed.

Lemma recordMetrics_frame points testName bucket fileSizeLabel c c' :
  executor.UplinkExecutor.recordMetrics points testName bucket fileSizeLabel c = Some c' ->
  metrics.testRunsTotal c' = metrics.testRunsTotal c.
Proof.
  unfold executor.UplinkExecutor.recordMetrics.
  set (up := if _ || _ then _ else Some c).
  destruct up as [c1|] eqn:Hup; [|done]. simpl.
  assert (H1 : metrics.testRunsTotal c1 = metrics.testRunsTotal c).
  { subst up. destruct (_ || _); [by eapply RecordStorjUpload_frame|congruence]. }
  clear Hup up.
  set (down := if _ || _ then _ else Some c1).
  destruct down as [c2|] eqn:Hdown; [|done]. simpl.
  assert (H2 : metrics.testRunsTotal c2 = metrics.testRunsTotal c1).
  { subst down. destruct (_ || _); [by eapply RecordStorjDownload_frame|congruence]. }
  clear Hdown down.
  intros [= <-]. rewrite <- H1, <- H2.
  destruct (0 <? _);
    by rewrite ?RecordStorjDelete_frame, recordDeleteFailures_frame,
         recordDeleteDurations_frame.
Qed.

Lemma UplinkExecutor_runStep_recorded (w : executor.StepWorld executor.UplinkExecutor.OpWorld)
  testName step filename ulid bucket single c c' e :
  executor.UplinkExecutor.runStep w testName step filename ulid bucket single c
  = Some (c', e) ->
  stepRecorded executor.UplinkExecutor.name testName step c c' e.
Proof.
  unfold executor.UplinkExecutor.runStep, stepRecorded.
  destruct (executor.stepJitter w testName step).
  { intros [= <- <-]. right. by left. }
  destruct (negb _).
  { intros [= <- <-]. right. right. eexists. split; [done|]. apply RecordTestRun_runs. }
  destruct (executor.UplinkExecutor.parsed _) as [points|].
  - destruct (executor.UplinkExecutor.recordMetrics _ _ _ _ _) as [c1|] eqn:Hrec; [|done].
    simpl. intros [= <- <-]. left. split; [done|].
    rewrite RecordTestRun_runs. by rewrite (recordMetrics_frame _ _ _ _ _ _ Hrec).
  - simpl. intros [= <- <-]. left. split; [done|]. apply RecordTestRun_runs.
Qed.

(** C1, as the code has it, for each of the four executors.  A run that
    returns nil increments [synthetics_test_runs_total] exactly once for
    each step, under the step's name with status [success], and then
    exactly once under the empty step label with status [success].  A run
    whose bucket cannot be ensured increments nothing.  A run that fails
    at a step has incremented the [success] counter exactly once for each
    step before the failing one, and then the [failure] counter under the
    failing step's name: twice when the step's operation failed (once in
    [runStep], once more in [RunTest], for the run as a whole), once when
    its jitter was interrupted.  It has incremented nothing else: the
    failure path of [RunTest] records the run under [step.Name], where
    the success path, after the comment "For overall test run, use empty
    action", records it under the empty step label. *)
Theorem RunTest_increments (test : config.Test.t) (c c' : metrics.Collector)
  (e : option executor.error) :
  (forall x world,
     executor.S3Executor.RunTest x world test c = Some (c', e) ->
     runIncrements "s3" test c c' e)
  /\ (forall x world,
        executor.CurlS3Executor.RunTest x world test c = Some (c', e) ->
        runIncrements "curl-s3" test c c' e)
  /\ (forall x world,
        executor.HttpS3Executor.RunTest x world test c = Some (c', e) ->
        runIncrements "http-s3" test c c' e)
  /\ (forall x world,
        executor.UplinkExecutor.RunTest x world test c = Some (c', e) ->
        runIncrements "uplink" test c c' e).
Proof.
  split; [|split; [|split]]; intros x world Hrun.
  - exact (Generic_RunTest_increments (H := executor.S3Executor.backend) _ _ _ _ _ _ Hrun).
  - exact (Generic_RunTest_increments (H := executor.CurlS3Executor.backend) _ _ _ _ _ _ Hrun).
  - exact (Generic_RunTest_increments (H := executor.HttpS3Executor.backend) _ _ _ _ _ _ Hrun).
  - unfold executor.UplinkExecutor.RunTest in Hrun.
    apply runLoop_runIncrements in Hrun; [exact Hrun|].
    intros i step c0 c1 e0. apply UplinkExecutor_runStep_recorded.
Qed.

(** *** A run that succeeds, and a run whose upload fails *)

Lemma RunTest_increments_witness :
  (exists c',
     executor.S3Executor.RunTest s3Executor (s3Run s3Fine) roundTrip metrics.NewCollector
     = Some (c', None)
     /\ metrics.value (metrics.testRunsTotal c') ("t1", "", "s3", "success") = 1
     /\ metrics.value (metrics.testRunsTotal c') ("t1", "", "s3", "failure") = 0)
  /\ (exists c' cause,
        executor.S3Executor.RunTest s3Executor (s3Run s3Down) roundTrip metrics.NewCollector
        = Some (c', Some (executor.ErrTestFailed "t1" "upload"
                            (executor.ErrStepExecution cause)))
        /\ metrics.value (metrics.testRunsTotal c') ("t1", "upload", "s3", "failure") = 2
        /\ metrics.value (metrics.testRunsTotal c') ("t1", "", "s3", "success") = 0
        /\ metrics.value (metrics.testRunsTotal c') ("t1", "", "s3", "failure") = 0).
Proof.
  split.
  - assert (Hrun : exists c',
               executor.S3Executor.RunTest s3Executor (s3Run s3Fine) roundTrip
                 metrics.NewCollector = Some (c', None)) by (eexists; vm_compute; reflexivity).
    destruct Hrun as [c' Hrun].
    pose proof (proj1 (RunTest_increments roundTrip metrics.NewCollector c' None) _ _ Hrun)
      as (_ & Hempty).
    exists c'. split; [exact Hrun|].
    destruct Hempty as (Hsuccess & Hfailure).
    + repeat constructor; discriminate.
    + split; [exact Hsuccess | exact Hfailure].
  - assert (Hrun : exists c' cause,
               executor.S3Executor.RunTest s3Executor (s3Run s3Down) roundTrip
                 metrics.NewCollector
               = Some (c', Some (executor.ErrTestFailed "t1" "upload"
                                   (executor.ErrStepExecution cause))))
      by (do 2 eexists; vm_compute; reflexivity).
    destruct Hrun as (c' & cause & Hrun).
    pose proof (proj1 (RunTest_increments roundTrip metrics.NewCollector c' _) _ _ Hrun)
      as (_ & _ & j & step & Hj & Hname & _ & Hruns).
    exists c', cause. split; [exact Hrun|].
    assert (Hfirst : j = 0%nat).
    { destruct j as [|[|[|j]]]; [done|..]; simpl in Hj; [injection Hj as <-..|];
        discriminate. }
    subst j.
    destruct (Hruns "upload") as [_ Hupload]. destruct (Hruns "") as [Hsuccess Hfailure].
    split; [exact Hupload|]. split; [exact Hsuccess | exact Hfailure].
Defined.

(** ** Loading a configuration (C5) *)

Section LoadProperties.
Variable ReadFile : string -> option string.
Variable ExpandEnv : string -> string.
Variable Unmarshal : string -> option config.Config.t.

(** C5, on the code.  [Load] checks nothing about the tests it has
    decoded: a document that decodes to a test without steps is returned,
    with a nil error, as a configuration that holds that test. *)
Theorem Load_returns_test_without_steps (path data : string) (cfg : config.Config.t)
  (test : config.Test.t) :
  ReadFile path = Some data ->
  Unmarshal (ExpandEnv data) = Some cfg ->
  test ∈ config.Config.Tests cfg ->
  config.Test.Steps test = [] ->
  exists cfg',
    config.Load ReadFile ExpandEnv Unmarshal path = inl cfg'
    /\ test ∈ config.Config.Tests cfg'
    /\ config.Test.Steps test = [].
Proof.
  intros Hread Hyaml Hin Hsteps. unfold config.Load. rewrite Hread, Hyaml.
  eexists. split; [reflexivity|]. by split.
Qed.
End LoadProperties.

Lemma Load_returns_test_without_steps_witness :
  exists cfg',
    config.Load (fun path => if String.eqb path "config.yaml" then Some emptyStepsDocument
                             else None)
      (fun text => text)
      (fun text => if String.eqb text emptyStepsDocument then Some (sampleConfig [idle])
                   else None)
      "config.yaml" = inl cfg'
    /\ idle ∈ config.Config.Tests cfg'
    /\ config.Test.Steps idle = [].
Proof.
  apply (Load_returns_test_without_steps _ _ _ "config.yaml" emptyStepsDocument
           (sampleConfig [idle]) idle).
  - reflexivity.
  - reflexivity.
  - simpl. apply list_elem_of_here.
  - reflexivity.
Defined.

(** ** Signing (C7) *)












(** The names of the headers once signing has written its three. *)
Lemma signing_headers_names (h : awsv4.Header) (amzDate host payloadHash : string) :
  dom (awsv4.HeaderSet "X-Amz-Content-Sha256" payloadHash
         (awsv4.HeaderSet "Host" host (awsv4.HeaderSet "X-Amz-Date" amzDate h)))
  = dom h ∪ signingNames.
Proof.
  unfold awsv4.HeaderSet, signingNames.
  change (awsv4.CanonicalHeaderKey "X-Amz-Content-Sha256") with "X-Amz-Content-Sha256".
  change (awsv4.CanonicalHeaderKey "Host") with "Host".
  change (awsv4.CanonicalHeaderKey "X-Amz-Date") with "X-Amz-Date".
  rewrite !dom_insert_L. apply set_eq. intros x.
  rewrite !elem_of_union, !elem_of_singleton. tauto.
Qed.

Section SigningProperties.
Variable SHA256 : list byte -> list byte.
Variable HMAC : list byte -> list byte -> list byte.

End SigningProperties.

(** *** A signed upload, visited in two orders *)


(** *** Two header names that differ only in case *)


(** * Further properties *)

(** ** Strings and decimal numerals *)

Lemma append_cons (c : ascii) (s t : string) : String c s +:+ t = String c (s +:+ t).
Proof. reflexivity. Qed.

Lemma list_ascii_of_string_app (s1 s2 : string) :
  list_ascii_of_string (s1 +:+ s2)
  = (list_ascii_of_string s1 ++ list_ascii_of_string s2)%list.
Proof. induction s1 as [|c s1 IH]; [done|]. rewrite !append_cons. simpl. by f_equal. Qed.

Lemma string_of_list_ascii_app (l1 l2 : list ascii) :
  string_of_list_ascii (l1 ++ l2)%list
  = string_of_list_ascii l1 +:+ string_of_list_ascii l2.
Proof. induction l1 as [|c l1 IH]; [done|]. simpl. rewrite append_cons. by f_equal. Qed.

Lemma append_assoc (s1 s2 s3 : string) : (s1 +:+ s2) +:+ s3 = s1 +:+ (s2 +:+ s3).
Proof. induction s1 as [|c s1 IH]; [done|]. rewrite !append_cons. simpl. by f_equal. Qed.

Lemma append_empty_r (s : string) : s +:+ "" = s.
Proof. induction s as [|c s IH]; [done|]. rewrite append_cons. by f_equal. Qed.

Lemma reverse_involutive (s : string) : GoStrings.reverse (GoStrings.reverse s) = s.
Proof.
  unfold GoStrings.reverse.
  by rewrite list_ascii_of_string_of_list_ascii, rev_involutive,
    string_of_list_ascii_of_string.
Qed.

Lemma reverse_app (s1 s2 : string) :
  GoStrings.reverse (s1 +:+ s2) = GoStrings.reverse s2 +:+ GoStrings.reverse s1.
Proof.
  unfold GoStrings.reverse.
  by rewrite list_ascii_of_string_app, rev_app_distr, string_of_list_ascii_app.
Qed.

Lemma allChars_app (f : ascii -> bool) (s1 s2 : string) :
  awsv4.allChars f (s1 +:+ s2) = awsv4.allChars f s1 && awsv4.allChars f s2.
Proof.
  induction s1 as [|c s1 IH]; [done|]. rewrite append_cons. simpl.
  by rewrite IH, andb_assoc.
Qed.

Lemma allChars_reverse (f : ascii -> bool) (s : string) :
  awsv4.allChars f (GoStrings.reverse s) = awsv4.allChars f s.
Proof.
  induction s as [|c s IH]; [done|].
  change (String c s) with (String c "" +:+ s).
  rewrite reverse_app, !allChars_app, IH. simpl. by rewrite andb_comm.
Qed.

Lemma allChars_impl (f g : ascii -> bool) (s : string) :
  (forall c, f c = true -> g c = true) ->
  awsv4.allChars f s = true -> awsv4.allChars g s = true.
Proof.
  intros Hfg. induction s as [|c s IH]; simpl; [done|].
  rewrite !andb_true_iff. intros [Hc Hs]. auto.
Qed.

Lemma trimLeft_no_space (s : string) :
  awsv4.allChars (fun c => negb (GoStrings.isSpace c)) s = true -> GoStrings.trimLeft s = s.
Proof.
  destruct s as [|c s]; simpl; [done|].
  rewrite andb_true_iff, negb_true_iff. by intros [-> _].
Qed.

(** A string without white space is left as it is by [TrimSpace]. *)
Lemma TrimSpace_no_space (s : string) :
  awsv4.allChars (fun c => negb (GoStrings.isSpace c)) s = true -> GoStrings.TrimSpace s = s.
Proof.
  intros Hs. unfold GoStrings.TrimSpace.
  rewrite (trimLeft_no_space s Hs), trimLeft_no_space by by rewrite allChars_reverse.
  apply reverse_involutive.
Qed.

Lemma isDigit_not_space (c : ascii) :
  GoStrings.isDigit c = true -> negb (GoStrings.isSpace c) = true.
Proof.
  unfold GoStrings.isDigit, GoStrings.isSpace.
  rewrite andb_true_iff, negb_true_iff, orb_false_iff, andb_false_iff,
    !N.leb_le, N.leb_gt, N.leb_gt, N.eqb_neq. lia.
Qed.

Lemma string_of_uint_digits (d : Decimal.uint) :
  awsv4.allChars GoStrings.isDigit (NilEmpty.string_of_uint d) = true.
Proof. induction d; simpl; auto. Qed.

Lemma readDigits_acc (d : Decimal.uint) (k : nat) (a : positive) :
  strconv.readDigits (NilEmpty.string_of_uint d) (S k) (Z.pos a)
  = Some (Z.pos (Pos.of_uint_acc d a)).
Proof.
  revert k a. induction d; intros k a; simpl; [done|..].
  all: cbv [strconv.digitVal]; simpl N_of_ascii;
    match goal with
    | |- strconv.readDigits _ _ ?z = Some (Z.pos (Pos.of_uint_acc _ ?p)) =>
        replace z with (Z.pos p) by lia
    end; apply IHd.
Qed.

Lemma readDigits_zero (d : Decimal.uint) (k : nat) :
  strconv.readDigits (NilEmpty.string_of_uint d) (S k) 0 = Some (Z.of_N (Pos.of_uint d)).
Proof.
  revert k. induction d; intros k; simpl; [done| apply IHd |..].
  all: cbv [strconv.digitVal]; simpl N_of_ascii;
    match goal with
    | |- strconv.readDigits _ _ ?z = Some (Z.pos (Pos.of_uint_acc _ ?p)) =>
        replace z with (Z.pos p) by lia
    end; apply readDigits_acc.
Qed.

Lemma readDigits_string_of_uint (d : Decimal.uint) :
  d <> Decimal.Nil ->
  strconv.readDigits (NilEmpty.string_of_uint d) 0 0 = Some (Z.of_N (Pos.of_uint d)).
Proof.
  destruct d; intros Hd; [done|..]; simpl.
  - apply readDigits_zero.
  - apply (readDigits_acc d 0 1).
  - apply (readDigits_acc d 0 2).
  - apply (readDigits_acc d 0 3).
  - apply (readDigits_acc d 0 4).
  - apply (readDigits_acc d 0 5).
  - apply (readDigits_acc d 0 6).
  - apply (readDigits_acc d 0 7).
  - apply (readDigits_acc d 0 8).
  - apply (readDigits_acc d 0 9).
Qed.

(** The decimal numeral of a natural number: digits only, not empty,
    and read back to the number. *)
Lemma Itoa_digits (n : Z) :
  0 <= n ->
  awsv4.allChars GoStrings.isDigit (strconv.Itoa n) = true
  /\ strconv.Itoa n <> ""
  /\ strconv.readDigits (strconv.Itoa n) 0 0 = Some n.
Proof.
  intros Hn. destruct n as [|p|p]; [by repeat split | | lia].
  unfold strconv.Itoa. simpl Z.to_int. cbv [NilZero.string_of_int NilZero.string_of_uint].
  pose proof (DecimalPos.Unsigned.to_uint_nonnil p) as Hnil.
  pose proof (readDigits_string_of_uint (Pos.to_uint p) Hnil) as Hread.
  rewrite DecimalPos.Unsigned.of_to in Hread.
  pose proof (string_of_uint_digits (Pos.to_uint p)) as Hdig.
  destruct (Pos.to_uint p) eqn:E; [done|..]; repeat split; try done.
Qed.

Lemma readDecimal_digits (s : string) (k : nat) (m : Z) (sc : nat) :
  awsv4.allChars GoStrings.isDigit s = true ->
  strconv.readDecimal s false k {| strconv.mant := m; strconv.scale := sc |}
  = (fun z => {| strconv.mant := z; strconv.scale := sc |}) <$> strconv.readDigits s k m.
Proof.
  revert k m. induction s as [|c s IH]; intros k m Hs; simpl in *.
  - by destruct k.
  - apply andb_true_iff in Hs as [-> Hs]. by apply IH.
Qed.

Lemma ParseFloat_digits (s : string) :
  awsv4.allChars GoStrings.isDigit s = true ->
  strconv.ParseFloat s
  = strconv.readDecimal s false 0 {| strconv.mant := 0; strconv.scale := 0 |}.
Proof.
  destruct s as [|c s]; [done|]. simpl. intros Hs.
  apply andb_true_iff in Hs as [Hc _].
  destruct c as [[] [] [] [] [] [] [] []]; try discriminate Hc; reflexivity.
Qed.

Lemma Atoi_digits (s : string) :
  awsv4.allChars GoStrings.isDigit s = true ->
  strconv.Atoi s
  = match strconv.readDigits s 0 0 with
    | Some z => if inInt64 z then Some z else None
    | None => None
    end.
Proof.
  destruct s as [|c s]; [done|]. simpl. intros Hs.
  apply andb_true_iff in Hs as [Hc _].
  destruct c as [[] [] [] [] [] [] [] []]; try discriminate Hc; reflexivity.
Qed.

(** [ParseFloat] and [Atoi] read the numeral of [Itoa] back. *)
Lemma ParseFloat_Itoa (n : Z) :
  0 <= n ->
  strconv.ParseFloat (strconv.Itoa n) = Some {| strconv.mant := n; strconv.scale := 0 |}.
Proof.
  intros Hn. destruct (Itoa_digits n Hn) as (Hdig & _ & Hread).
  by rewrite ParseFloat_digits, readDecimal_digits, Hread.
Qed.

Lemma Atoi_Itoa (n : Z) : 0 <= n <= maxInt64 -> strconv.Atoi (strconv.Itoa n) = Some n.
Proof.
  intros Hn. destruct (Itoa_digits n) as (Hdig & _ & Hread); [lia|].
  rewrite Atoi_digits, Hread by done.
  replace (inInt64 n) with true; [done|].
  symmetry. apply inInt64_spec. unfold minInt64, maxInt64 in *. lia.
Qed.

(** ** Sizes *)

Lemma splitNumber_digits (d unit : string) (c : ascii) (seen : list ascii) :
  awsv4.allChars GoStrings.isDigit d = true ->
  GoStrings.isDigit c || Ascii.eqb c "." = false ->
  config.splitNumber (d +:+ String c unit) seen
  = (string_of_list_ascii (rev seen) +:+ d, String c unit).
Proof.
  intros Hd Hc. revert seen. induction d as [|c0 d IH]; intros seen.
  - change ("" +:+ String c unit) with (String c unit). simpl.
    by rewrite Hc, append_empty_r.
  - simpl in Hd. apply andb_true_iff in Hd as [Hc0 Hd].
    rewrite append_cons. simpl. rewrite Hc0. simpl. rewrite (IH Hd). simpl.
    by rewrite string_of_list_ascii_app, append_assoc.
Qed.

(** A numeral followed by a unit parses to the number times the unit's
    multiplier. *)
Lemma parseByteSize_numeral (q mult : Z) (c : ascii) (unit : string) :
  0 <= q ->
  q * mult <= maxInt64 -> 0 <= mult ->
  awsv4.allChars (fun c => negb (GoStrings.isSpace c)) (String c unit) = true ->
  GoStrings.isDigit c || Ascii.eqb c "." = false ->
  config.unitMultiplier (GoStrings.TrimSpace (GoStrings.ToUpper (String c unit))) = Some mult ->
  config.parseByteSize (strconv.Itoa q +:+ String c unit) = inl (q * mult).
Proof.
  intros Hq Hmax Hmult Hunit Hc Hmul.
  destruct (Itoa_digits q Hq) as (Hdig & Hne & _).
  assert (Hnospace : awsv4.allChars (fun c => negb (GoStrings.isSpace c)) (strconv.Itoa q)
                     = true)
    by (eapply allChars_impl; [apply isDigit_not_space | done]).
  unfold config.parseByteSize.
  rewrite TrimSpace_no_space by by rewrite allChars_app, Hnospace, Hunit.
  replace (String.eqb (strconv.Itoa q +:+ String c unit) "") with false
    by by destruct (strconv.Itoa q).
  rewrite splitNumber_digits by done. simpl rev. 
  change (string_of_list_ascii [] +:+ strconv.Itoa q) with (strconv.Itoa q).
  change (String.eqb (String c unit) "") with false. cbv beta iota.
  rewrite (TrimSpace_no_space (strconv.Itoa q)), ParseFloat_Itoa, Hmul by done.
  f_equal. unfold strconv.toInt64Scaled. simpl.
  rewrite Z.quot_1_r.
  replace (inInt64 (q * mult)) with true; [done|].
  symmetry. apply inInt64_spec. unfold minInt64, maxInt64 in *. nia.
Qed.

Lemma String_negative (b : Z) : b < 0 -> exists s, config.String_ b = String "-" s +:+ "B".
Proof.
  intros Hb. unfold config.String_.
  destruct (Z.leb_spec config.GB b); [unfold config.GB, config.MB, config.KB in *; lia|].
  destruct (Z.leb_spec config.MB b); [unfold config.MB, config.KB in *; lia|].
  destruct (Z.leb_spec config.KB b); [unfold config.KB in *; lia|].
  simpl. destruct b as [|p|p]; [lia..|].
  eexists. reflexivity.
Qed.

(** X1.  A size from 0 up to 2^53 that [ByteSize.String] prints is read
    back by [parseByteSize] as the same number of bytes, whichever unit
    the label uses; the label of a negative size is refused as an
    invalid number. *)
Theorem parseByteSize_String_round_trip (b : Z) :
  (0 <= b < 2 ^ 53 -> config.parseByteSize (config.String_ b) = inl b)
  /\ (b < 0 ->
      config.parseByteSize (config.String_ b)
      = inr (config.ErrInvalidNumber (config.String_ b))).
Proof.
  split.
  - intros Hb. unfold config.String_.
    assert (Hbmax : b <= maxInt64) by (unfold maxInt64; lia).
    destruct ((config.GB <=? b) && (Z.rem b config.GB =? 0)) eqn:EG.
    { apply andb_true_iff in EG as [HG%Z.leb_le HR%Z.eqb_eq].
      pose proof (Z.quot_rem' b config.GB) as Hqr. rewrite HR in Hqr.
      assert (0 <= b ÷ config.GB) by (apply Z.quot_pos; [lia | done]).
      rewrite (parseByteSize_numeral _ (1024 * 1024 * 1024)); try done; [f_equal|];
        unfold config.GB, config.MB, config.KB in *; lia. }
    destruct ((config.MB <=? b) && (Z.rem b config.MB =? 0)) eqn:EM.
    { apply andb_true_iff in EM as [HM%Z.leb_le HR%Z.eqb_eq].
      pose proof (Z.quot_rem' b config.MB) as Hqr. rewrite HR in Hqr.
      assert (0 <= b ÷ config.MB) by (apply Z.quot_pos; [lia | done]).
      rewrite (parseByteSize_numeral _ (1024 * 1024)); try done; [f_equal|];
        unfold config.MB, config.KB in *; lia. }
    destruct ((config.KB <=? b) && (Z.rem b config.KB =? 0)) eqn:EK.
    { apply andb_true_iff in EK as [HK%Z.leb_le HR%Z.eqb_eq].
      pose proof (Z.quot_rem' b config.KB) as Hqr. rewrite HR in Hqr.
      assert (0 <= b ÷ config.KB) by (apply Z.quot_pos; [lia | done]).
      rewrite (parseByteSize_numeral _ 1024); try done; [f_equal|];
        unfold config.KB in *; lia. }
    rewrite (parseByteSize_numeral _ 1); try done; try lia. f_equal. lia.
  - intros Hb. destruct (String_negative b Hb) as [s Hs]. rewrite Hs.
    assert (Hsp : awsv4.allChars (fun c => negb (GoStrings.isSpace c))
                    (String "-" s +:+ "B") = true).
    { rewrite <- Hs. unfold config.String_.
      destruct (Z.leb_spec config.GB b); [unfold config.GB, config.MB, config.KB in *; lia|].
      destruct (Z.leb_spec config.MB b); [unfold config.MB, config.KB in *; lia|].
      destruct (Z.leb_spec config.KB b); [unfold config.KB in *; lia|].
      simpl. destruct b as [|p|p]; [lia..|].
      unfold strconv.Itoa. simpl Z.to_int. cbv [NilZero.string_of_int].
      rewrite append_cons. simpl. rewrite allChars_app. simpl. rewrite andb_true_r.
      eapply allChars_impl; [apply isDigit_not_space|].
      cbv [NilZero.string_of_uint].
      pose proof (string_of_uint_digits (Pos.to_uint p)).
      by destruct (Pos.to_uint p). }
    unfold config.parseByteSize. rewrite TrimSpace_no_space by done.
    rewrite append_cons. reflexivity.
Qed.

Lemma parseByteSize_String_round_trip_witness :
  config.parseByteSize (config.String_ 1536) = inl 1536
  /\ config.parseByteSize (config.String_ (-2048))
     = inr (config.ErrInvalidNumber (config.String_ (-2048))).
Proof.
  split.
  - apply (parseByteSize_String_round_trip 1536). lia.
  - apply (parseByteSize_String_round_trip (-2048)). lia.
Defined.

(** ** Jitter settings *)

Lemma toInt64Quot_share (x m one : Z) :
  0 < x <= maxInt64 -> 0 < one -> 0 <= m <= 100 * one ->
  0 <= strconv.toInt64Quot (x * m) (one * 100) <= x.
Proof.
  intros Hx Hone Hm. unfold strconv.toInt64Quot.
  assert (Hq : 0 <= (x * m) ÷ (one * 100) <= x).
  { rewrite Z.quot_div_nonneg by nia. split.
    - apply Z.div_pos; nia.
    - apply Z.div_le_upper_bound; nia. }
  replace (inInt64 _) with true; [done|].
  symmetry. apply inInt64_spec. unfold minInt64, maxInt64 in *. lia.
Qed.

(** X2.  A jitter maximum written as a percentage in plain decimals with
    at most twelve digits after the point (so that the percentage is
    outside 0..100 exactly when its [float64] is), for a schedule
    interval within the range where the [float64] product is exact:
    [ParseMaxJitter] fails when the percentage is outside 0..100 or the
    interval is not positive, and otherwise returns a share of the
    interval, between zero and the interval itself. *)
Theorem ParseMaxJitter_percent_bounded (j : config.JitterConfig.t)
  (interval : time.Duration) (percent : strconv.Decimal) :
  GoStrings.HasSuffix (GoStrings.TrimSpace (config.JitterConfig.Max j)) "%" = true ->
  strconv.ParseFloat
    (GoStrings.TrimSuffix (GoStrings.TrimSpace (config.JitterConfig.Max j)) "%")
  = Some percent ->
  (strconv.scale percent <= 12)%nat ->
  interval * 100 <= 2 ^ 53 ->
  let one := 10 ^ Z.of_nat (strconv.scale percent) in
  if (strconv.mant percent <? 0) || (100 * one <? strconv.mant percent)
     || (interval <=? 0)
  then config.ParseMaxJitter (Some j) interval = None
  else exists d, config.ParseMaxJitter (Some j) interval = Some d /\ 0 <= d <= interval.
Proof.
  intros Hsuffix Hparse _ Hexact one.
  assert (Hnonempty : String.eqb (config.JitterConfig.Max j) "" = false).
  { destruct (String.eqb_spec (config.JitterConfig.Max j) "") as [Heq|]; [|done].
    by rewrite Heq in Hsuffix. }
  unfold config.ParseMaxJitter. rewrite Hnonempty, Hsuffix, Hparse. fold one.
  destruct (Z.ltb_spec (strconv.mant percent) 0) as [|Hneg]; [done|].
  destruct (Z.ltb_spec (100 * one) (strconv.mant percent)) as [|Hbig]; [done|].
  destruct (Z.leb_spec interval 0) as [|Hpos]; [done|]. simpl.
  eexists. split; [reflexivity|].
  apply toInt64Quot_share; [unfold maxInt64; lia | | lia].
  unfold one. apply Z.pow_pos_nonneg; lia.
Qed.

Lemma ParseMaxJitter_percent_bounded_witness :
  exists d,
    config.ParseMaxJitter
      (Some {| config.JitterConfig.Enabled := Some true; config.JitterConfig.Max := " 12.5% " |})
      (5 * time.Minute) = Some d
    /\ 0 <= d <= 5 * time.Minute.
Proof.
  exact (ParseMaxJitter_percent_bounded
           {| config.JitterConfig.Enabled := Some true; config.JitterConfig.Max := " 12.5% " |}
           (5 * time.Minute) {| strconv.mant := 125; strconv.scale := 1 |}
           eq_refl eq_refl ltac:(simpl; lia) ltac:(vm_compute; discriminate)).
Defined.

(** X3.  Inheritance of jitter settings composes: merging a step's
    block over the result of merging the test's block over the global one
    is the same as merging (step over test) over the global one.  In a
    merge, a field the child sets wins and a field it leaves unset (a nil
    [enabled], an empty [max]) is the parent's. *)
Theorem GetEffectiveJitter_composes (child mid top : option config.JitterConfig.t) :
  config.GetEffectiveJitter child (Some (config.GetEffectiveJitter mid top))
  = config.GetEffectiveJitter (Some (config.GetEffectiveJitter child mid)) top
  /\ (forall j, child = Some j ->
        config.JitterConfig.Enabled (config.GetEffectiveJitter child top)
        = match config.JitterConfig.Enabled j with
          | Some b => Some b
          | None => top ≫= config.JitterConfig.Enabled
          end
        /\ config.JitterConfig.Max (config.GetEffectiveJitter child top)
           = if String.eqb (config.JitterConfig.Max j) ""
             then default "" (config.JitterConfig.Max <$> top)
             else config.JitterConfig.Max j)
  /\ (child = None ->
      config.GetEffectiveJitter child top
      = default {| config.JitterConfig.Enabled := None; config.JitterConfig.Max := "" |} top).
Proof.
  split; [|split].
  - unfold config.GetEffectiveJitter.
    destruct child as [[ce cm]|], mid as [[me mm]|], top as [[te tm]|]; simpl;
      repeat match goal with
        | |- context [String.eqb ?s ""] => destruct (String.eqb_spec s ""); subst; simpl
        | |- context [match ?o with Some _ => _ | None => _ end] => destruct o; simpl
        end; try done.
  - intros j ->. unfold config.GetEffectiveJitter. by destruct top.
  - intros ->. unfold config.GetEffectiveJitter. by destruct top.
Qed.

Lemma GetEffectiveJitter_composes_witness :
  config.GetEffectiveJitter (Some {| config.JitterConfig.Enabled := None;
                                     config.JitterConfig.Max := "30s" |})
    (Some {| config.JitterConfig.Enabled := Some true; config.JitterConfig.Max := "10%" |})
  = {| config.JitterConfig.Enabled := Some true; config.JitterConfig.Max := "30s" |}
  /\ config.GetEffectiveJitter None None
     = {| config.JitterConfig.Enabled := None; config.JitterConfig.Max := "" |}.
Proof.
  pose proof (GetEffectiveJitter_composes
                (Some {| config.JitterConfig.Enabled := None;
                         config.JitterConfig.Max := "30s" |})
                None
                (Some {| config.JitterConfig.Enabled := Some true;
                         config.JitterConfig.Max := "10%" |})) as (_ & Hset & _).
  pose proof (GetEffectiveJitter_composes None None None) as (_ & _ & Hnone).
  split; [|exact (Hnone eq_refl)].
  destruct (Hset _ eq_refl) as [He Hm].
  destruct (config.GetEffectiveJitter _ _) as [e m]. simpl in He, Hm. by subst.
Defined.

(** ** Object names *)

Lemma append_inj_r (s1 s2 t : string) : s1 +:+ t = s2 +:+ t -> s1 = s2.
Proof.
  intros Heq. apply (f_equal GoStrings.reverse) in Heq.
  rewrite !reverse_app in Heq. apply String.app_inj in Heq.
  apply (f_equal GoStrings.reverse) in Heq. by rewrite !reverse_involutive in Heq.
Qed.

(** X4.  Without a [filename] override, the object name of a run is
    [<test>-<ulid>.bin]: two runs of a test share it only when they drew
    the same ULID.  With a non-empty override every run uses that name. *)
Theorem GetFilename_per_run (t : config.Test.t) (ulid1 ulid2 : string) :
  (config.Test.Filename t = None \/ config.Test.Filename t = Some "" ->
   config.GetFilename t ulid1 = config.Test.Name t +:+ "-" +:+ ulid1 +:+ ".bin"
   /\ (config.GetFilename t ulid1 = config.GetFilename t ulid2 -> ulid1 = ulid2))
  /\ (forall f, config.Test.Filename t = Some f -> f <> "" ->
        config.GetFilename t ulid1 = f).
Proof.
  split.
  - intros Hno.
    assert (Hname : forall u,
               config.GetFilename t u = config.Test.Name t +:+ "-" +:+ u +:+ ".bin")
      by (intros u; unfold config.GetFilename; by destruct Hno as [-> | ->]).
    split; [apply Hname|]. rewrite !Hname. intros Heq.
    apply String.app_inj in Heq. apply (String.app_inj "-") in Heq.
    by apply append_inj_r in Heq.
  - intros f Hf Hne. unfold config.GetFilename. rewrite Hf.
    by destruct (String.eqb_spec f "").
Qed.

Lemma GetFilename_per_run_witness :
  config.GetFilename roundTrip "01J9" = "t1-01J9.bin"
  /\ (forall ulid2,
        config.GetFilename roundTrip "01J9" = config.GetFilename roundTrip ulid2 ->
        "01J9" = ulid2).
Proof.
  split.
  - exact (proj1 (proj1 (GetFilename_per_run roundTrip "01J9" "") (or_introl eq_refl))).
  - intros ulid2.
    exact (proj2 (proj1 (GetFilename_per_run roundTrip "01J9" ulid2) (or_introl eq_refl))).
Defined.

(** ** Loading a configuration *)

Section LoadDefaults.
Variable ReadFile : string -> option string.
Variable ExpandEnv : string -> string.
Variable Unmarshal : string -> option config.Config.t.

Lemma orDefault_nonempty (s d : string) : d <> "" -> config.orDefault s d <> "".
Proof. intros Hd. unfold config.orDefault. by destruct (String.eqb_spec s ""). Qed.

Lemma orDefault_idem (s d : string) :
  config.orDefault (config.orDefault s d) d = config.orDefault s d.
Proof.
  unfold config.orDefault. destruct (String.eqb_spec s "") as [|Hs].
  - by destruct (String.eqb_spec d "").
  - by destruct (String.eqb_spec s "").
Qed.

(** X5.  [Load] returns an error exactly when the file cannot be read
    or decoded.  In the configuration it returns, the region, the k6
    binary and output format, the metrics port and path and the logging
    level and format are all set; the tests, the satellite block, the S3
    endpoint and keys and the jitter block are those of the document; and
    filling in the defaults once more changes nothing. *)
Theorem Load_fills_defaults (path : string) :
  match config.Load ReadFile ExpandEnv Unmarshal path with
  | inr e =>
      (e = config.ErrReadFile /\ ReadFile path = None)
      \/ (e = config.ErrYaml
          /\ exists data, ReadFile path = Some data /\ Unmarshal (ExpandEnv data) = None)
  | inl cfg =>
      (exists data raw,
          ReadFile path = Some data /\ Unmarshal (ExpandEnv data) = Some raw
          /\ config.Config.Tests cfg = config.Config.Tests raw
          /\ config.Config.Satellite cfg = config.Config.Satellite raw
          /\ config.Config.Jitter cfg = config.Config.Jitter raw
          /\ config.S3Config.Endpoint (config.Config.S3 cfg)
             = config.S3Config.Endpoint (config.Config.S3 raw)
          /\ config.S3Config.AccessKey (config.Config.S3 cfg)
             = config.S3Config.AccessKey (config.Config.S3 raw)
          /\ config.S3Config.SecretKey (config.Config.S3 cfg)
             = config.S3Config.SecretKey (config.Config.S3 raw))
      /\ config.S3Config.Region (config.Config.S3 cfg) <> ""
      /\ config.K6Config.BinaryPath (config.Config.K6 cfg) <> ""
      /\ config.K6Config.OutputFormat (config.Config.K6 cfg) <> ""
      /\ config.MetricsConfig.Port (config.Config.Metrics cfg) <> 0
      /\ config.MetricsConfig.Path (config.Config.Metrics cfg) <> ""
      /\ config.LoggingConfig.Level (config.Config.Logging cfg) <> ""
      /\ config.LoggingConfig.Format (config.Config.Logging cfg) <> ""
      /\ config.setDefaults cfg = cfg
  end.
Proof.
  unfold config.Load. destruct (ReadFile path) as [data|] eqn:Hread; [|by left].
  destruct (Unmarshal (ExpandEnv data)) as [raw|] eqn:Hyaml; [|right; eauto].
  split; [by exists data, raw|].
  unfold config.setDefaults. simpl.
  repeat (split; [by apply orDefault_nonempty|]).
  split; [by destruct (Z.eqb_spec (config.MetricsConfig.Port (config.Config.Metrics raw)) 0)|].
  repeat (split; [by apply orDefault_nonempty|]).
  rewrite !orDefault_idem. f_equal. f_equal.
  destruct (Z.eqb_spec (config.MetricsConfig.Port (config.Config.Metrics raw)) 0) as [|Hp];
    [done|]. by destruct (Z.eqb_spec (config.MetricsConfig.Port (config.Config.Metrics raw)) 0).
Qed.
End LoadDefaults.

(** ** Cron intervals *)

(** X6.  [ParseCronInterval] fails exactly on a schedule with fewer than
    five fields; whatever the five fields of a longer one contain, it
    returns an interval (one minute when it recognises no pattern). *)
Theorem ParseCronInterval_fails_iff_short (schedule : string) :
  config.ParseCronInterval schedule = None
  <-> (length (GoStrings.Fields schedule) < 5)%nat.
Proof.
  unfold config.ParseCronInterval.
  destruct (GoStrings.Fields schedule) as [|minute [|hour [|f3 [|f4 [|f5 rest]]]]];
    simpl; try (split; [lia | done]).
  split; [|lia].
  repeat match goal with
    | |- context [if ?b then _ else _] => destruct b
    | |- context [match ?o with Some _ => _ | None => _ end] => destruct o
    end; discriminate.
Qed.

Lemma substring_all (s : string) : substring 0 (String.length s) s = s.
Proof. induction s as [|c s IH]; simpl; [done | by f_equal]. Qed.

Lemma TrimPrefix_every (n : Z) :
  GoStrings.HasPrefix ("*/" +:+ strconv.Itoa n) "*/" = true
  /\ GoStrings.TrimPrefix ("*/" +:+ strconv.Itoa n) "*/" = strconv.Itoa n.
Proof.
  assert (Hprefix : GoStrings.HasPrefix ("*/" +:+ strconv.Itoa n) "*/" = true).
  { change ("*/" +:+ strconv.Itoa n) with (String "*" (String "/" (strconv.Itoa n))).
    unfold GoStrings.HasPrefix. simpl. by destruct (strconv.Itoa n). }
  split; [done|]. unfold GoStrings.TrimPrefix. rewrite Hprefix.
  unfold GoStrings.dropChars.
  change ("*/" +:+ strconv.Itoa n) with (String "*" (String "/" (strconv.Itoa n))).
  simpl. rewrite Nat.sub_0_r. apply substring_all.
Qed.

(** X7.  A schedule whose minute field is [*/N], for a positive [N],
    has an interval of [N] minutes; one whose minute field is [0] and
    whose hour field is [*/N] has an interval of [N] hours.  The other
    fields do not matter. *)
Theorem ParseCronInterval_every_n (schedule minute hour f3 f4 f5 : string)
  (rest : list string) (n : Z) :
  GoStrings.Fields schedule = minute :: hour :: f3 :: f4 :: f5 :: rest ->
  0 < n ->
  (minute = "*/" +:+ strconv.Itoa n -> n * time.Minute <= maxInt64 ->
   config.ParseCronInterval schedule = Some (n * time.Minute))
  /\ (minute = "0" -> hour = "*/" +:+ strconv.Itoa n -> n * time.Hour <= maxInt64 ->
      config.ParseCronInterval schedule = Some (n * time.Hour)).
Proof.
  intros Hfields Hn. unfold config.ParseCronInterval. rewrite Hfields. split.
  - intros -> Hmax. destruct (TrimPrefix_every n) as [-> ->].
    rewrite Atoi_Itoa by (unfold time.Minute, time.Second, time.Millisecond,
      time.Microsecond, time.Nanosecond in Hmax; lia).
    destruct (Z.ltb_spec 0 n); [|lia].
    rewrite wrap64_small; [done|].
    unfold minInt64, time.Minute, time.Second, time.Millisecond, time.Microsecond,
      time.Nanosecond in *. lia.
  - intros -> -> Hmax. change (GoStrings.HasPrefix "0" "*/") with false. cbv iota.
    change (String.eqb "0" "0") with true. cbv iota.
    destruct (TrimPrefix_every n) as [-> ->].
    rewrite Atoi_Itoa by (unfold time.Hour, time.Minute, time.Second, time.Millisecond,
      time.Microsecond, time.Nanosecond in Hmax; lia).
    destruct (Z.ltb_spec 0 n); [|lia].
    rewrite wrap64_small; [done|].
    unfold minInt64, time.Hour, time.Minute, time.Second, time.Millisecond,
      time.Microsecond, time.Nanosecond in *. lia.
Qed.

Lemma ParseCronInterval_every_n_witness :
  config.ParseCronInterval "*/15  * * * 1-5" = Some (15 * time.Minute)
  /\ config.ParseCronInterval "0 */6 * * *" = Some (6 * time.Hour).
Proof.
  split.
  - apply (ParseCronInterval_every_n "*/15  * * * 1-5" "*/15" "*" "*" "*" "1-5" [] 15);
      [reflexivity | lia | reflexivity | vm_compute; discriminate].
  - apply (ParseCronInterval_every_n "0 */6 * * *" "0" "*/6" "*" "*" "*" [] 6);
      [reflexivity | lia | reflexivity | reflexivity | vm_compute; discriminate].
Defined.

(** ** The collector *)

(** X8.  [RecordStorjDelete] never touches the bytes counter; it adds
    one to the success counter under the status of the call; and it adds
    the object count to the operation counter only for a successful call
    with a positive count, so that counter never goes down either. *)
Theorem RecordStorjDelete_counters (testName executor bucket fileSize : string)
  (duration : time.Duration) (count : Z) (success : bool) (c : metrics.Collector) :
  let c' := metrics.RecordStorjDelete testName executor bucket fileSize duration count
              success c in
  metrics.storjBytes c' = metrics.storjBytes c
  /\ metrics.testRunsTotal c' = metrics.testRunsTotal c
  /\ (forall k,
        metrics.value (metrics.storjOperationSuccess c') k
        = metrics.value (metrics.storjOperationSuccess c) k
          + (if decide ((testName, "delete", executor, metrics.statusLabel success) = k)
             then 1 else 0))
  /\ (forall k,
        metrics.value (metrics.storjOperationCount c') k
        = metrics.value (metrics.storjOperationCount c) k
          + (if decide ((testName, "delete", executor, bucket) = k)
             then (if success then Z.max 0 count else 0) else 0)).
Proof.
  unfold metrics.RecordStorjDelete.
  destruct (negb _ && _), (0 <? duration), success, (Z.ltb_spec 0 count); simpl;
    repeat split; intros k;
    rewrite ?value_Inc, ?value_insert; try done;
    destruct (decide _); simplify_eq; lia.
Qed.

Section Samples.
Context {K : Type} `{Countable K}.

Lemma Observe_positive (k : K) (v : Z) (m : gmap K (list Z)) :
  0 < v ->
  (forall k' samples, m !! k' = Some samples -> Forall (Z.lt 0) samples) ->
  forall k' samples, metrics.Observe k v m !! k' = Some samples -> Forall (Z.lt 0) samples.
Proof.
  intros Hv Hm k' samples. unfold metrics.Observe. rewrite lookup_insert.
  destruct (decide (k = k')) as [->|]; [|apply Hm].
  intros [= <-]. constructor; [done|].
  destruct (m !! k') as [old|] eqn:E; simpl; [by eapply Hm | constructor].
Qed.

Lemma GaugeSet_positive (k : K) (v : Z) (m : gmap K Z) :
  0 < v ->
  (forall k' v', m !! k' = Some v' -> 0 < v') ->
  forall k' v', metrics.GaugeSet k v m !! k' = Some v' -> 0 < v'.
Proof.
  intros Hv Hm k' v'. unfold metrics.GaugeSet. rewrite lookup_insert.
  destruct (decide (k = k')) as [->|]; [|apply Hm]. by intros [= <-].
Qed.
End Samples.

Lemma positiveSamples_new : positiveSamples metrics.NewCollector.
Proof. repeat split; intros k x; simpl; by rewrite lookup_empty. Qed.

Lemma RecordHTTPTimingPhase_positive testName action executor phase duration c :
  positiveSamples c ->
  positiveSamples (metrics.RecordHTTPTimingPhase testName action executor phase duration c).
Proof.
  intros (Hs & Hh & Hd & Hp). unfold metrics.RecordHTTPTimingPhase.
  destruct (Z.ltb_spec 0 duration); [|done].
  repeat split; simpl; try done.
  - by apply Observe_positive.
  - by apply GaugeSet_positive.
Qed.

Lemma recordOutcome_positive testName action executor bucket bytes success c c' :
  metrics.recordOutcome testName action executor bucket bytes success c = Some c' ->
  positiveSamples c -> positiveSamples c'.
Proof.
  unfold metrics.recordOutcome. destruct success.
  - destruct (metrics.Add _ _ _); [|done]. by intros [= <-].
  - by intros [= <-].
Qed.

(** X9.  The duration histograms of operations and of HTTP phases, and
    the two live gauges, only ever hold positive values: the collector
    starts that way and every recorder keeps it so, whatever durations it
    is given (a zero or negative duration is dropped, not recorded). *)
Theorem recorders_keep_samples_positive (c : metrics.Collector) :
  positiveSamples c ->
  (forall testName stepName executor success duration,
      positiveSamples (metrics.RecordTestRun testName stepName executor success duration c))
  /\ (forall testName executor bucket fileSize duration bytes success c',
        metrics.RecordStorjUpload testName executor bucket fileSize duration bytes success c
        = Some c' -> positiveSamples c')
  /\ (forall testName executor bucket fileSize duration bytes success c',
        metrics.RecordStorjDownload testName executor bucket fileSize duration bytes success c
        = Some c' -> positiveSamples c')
  /\ (forall testName executor bucket fileSize duration count success,
        positiveSamples
          (metrics.RecordStorjDelete testName executor bucket fileSize duration count
             success c))
  /\ (forall testName executor bucket success,
        positiveSamples (metrics.RecordStorjList testName executor bucket success c))
  /\ (forall testName action executor timings,
        positiveSamples (metrics.RecordHTTPTiming testName action executor timings c))
  /\ (forall testName action executor phase duration,
        positiveSamples
          (metrics.RecordHTTPTimingPhase testName action executor phase duration c)).
Proof.
  intros Hc. pose proof Hc as (Hs & Hh & Hd & Hp). split_and!.
  - done.
  - intros testName executor bucket fileSize duration bytes success c'.
    unfold metrics.RecordStorjUpload. intros Hrec.
    apply recordOutcome_positive in Hrec; [done|].
    destruct (Z.ltb_spec 0 duration); rewrite ?andb_true_r, ?andb_false_r; [|done].
    destruct (negb _); repeat split; simpl; try done;
      try (by apply Observe_positive); by apply GaugeSet_positive.
  - intros testName executor bucket fileSize duration bytes success c'.
    unfold metrics.RecordStorjDownload. intros Hrec.
    apply recordOutcome_positive in Hrec; [done|].
    destruct (Z.ltb_spec 0 duration); repeat split; simpl; try done;
      try (by apply Observe_positive); by apply GaugeSet_positive.
  - intros testName executor bucket fileSize duration count success.
    unfold metrics.RecordStorjDelete.
    destruct (Z.ltb_spec 0 duration); rewrite ?andb_true_r, ?andb_false_r;
      [destruct (negb _)|]; destruct (success && _);
      repeat split; simpl; try done;
      try (by apply Observe_positive); by apply GaugeSet_positive.
  - intros testName executor bucket success. unfold metrics.RecordStorjList.
    by destruct success.
  - intros testName action executor timings. unfold metrics.RecordHTTPTiming.
    by repeat apply RecordHTTPTimingPhase_positive.
  - intros. by apply RecordHTTPTimingPhase_positive.
Qed.

Lemma recorders_keep_samples_positive_witness :
  positiveSamples
    (metrics.RecordHTTPTiming "t1" "download" "curl-s3"
       {| metrics.DNSLookup := 1200000; metrics.TCPConnect := 14200000;
          metrics.TLSHandshake := - 15400000; metrics.TTFB := 120000000;
          metrics.Transfer := 0; metrics.Total := 450000000 |}
       metrics.NewCollector).
Proof.
  pose proof (recorders_keep_samples_positive metrics.NewCollector positiveSamples_new)
    as (_ & _ & _ & _ & _ & Htiming & _).
  apply Htiming.
Defined.

Lemma append_nonempty (s t : string) : t <> "" -> s +:+ t <> "".
Proof. intros Ht. destruct s; [done|]. by rewrite append_cons. Qed.

Lemma formatBytesLabel_nonempty (bytes : Z) : metrics.formatBytesLabel bytes <> "".
Proof.
  unfold metrics.formatBytesLabel.
  repeat match goal with |- context [if ?b then _ else _] => destruct b end;
    by apply append_nonempty.
Qed.

(** X10.  A download with a positive duration is always observed in the
    duration histogram, under a size label that is never empty: the label
    given, else the label of the byte count, else [unknown].  An upload or
    a delete without a size label is not observed at all. *)
Theorem storjDuration_size_label (testName executor bucket fileSize : string)
  (duration : time.Duration) (bytes : Z) (success : bool) (c c' : metrics.Collector) :
  (0 < duration ->
   metrics.RecordStorjDownload testName executor bucket fileSize duration bytes success c
   = Some c' ->
   exists label,
     label <> ""
     /\ label = (if negb (String.eqb fileSize "") then fileSize
                 else if 0 <? bytes then metrics.formatBytesLabel bytes else "unknown")
     /\ metrics.storjDuration c'
        = metrics.Observe (testName, "download", executor, bucket, label) duration
            (metrics.storjDuration c))
  /\ (metrics.RecordStorjUpload testName executor bucket "" duration bytes success c
      = Some c' ->
      metrics.storjDuration c' = metrics.storjDuration c)
  /\ metrics.storjDuration
       (metrics.RecordStorjDelete testName executor bucket "" duration bytes success c)
     = metrics.storjDuration c.
Proof.
  split; [|split].
  - intros Hd. unfold metrics.RecordStorjDownload.
    destruct (Z.ltb_spec 0 duration); [|lia].
    set (label := if String.eqb (if String.eqb fileSize "" && (0 <? bytes)
                                 then metrics.formatBytesLabel bytes else fileSize) ""
                  then "unknown"
                  else if String.eqb fileSize "" && (0 <? bytes)
                       then metrics.formatBytesLabel bytes else fileSize).
    intros Hrec. exists label. split; [|split].
    + unfold label. destruct (String.eqb_spec fileSize ""), (0 <? bytes); simpl;
        repeat match goal with
          | |- context [String.eqb ?s ""] => destruct (String.eqb_spec s "")
          end; done.
    + unfold label. pose proof (formatBytesLabel_nonempty bytes).
      destruct (String.eqb_spec fileSize ""), (0 <? bytes); simpl;
        repeat match goal with
          | |- context [String.eqb ?s ""] => destruct (String.eqb_spec s "")
          end; done.
    + unfold metrics.recordOutcome in Hrec. destruct success.
      * destruct (metrics.Add _ _ _); [|done]. by injection Hrec as <-.
      * by injection Hrec as <-.
  - unfold metrics.RecordStorjUpload. simpl. unfold metrics.recordOutcome.
    destruct (0 <? duration), success; try destruct (metrics.Add _ _ _); try done;
      by intros [= <-].
  - unfold metrics.RecordStorjDelete. simpl.
    by destruct (0 <? duration), (success && _).
Qed.

Lemma storjDuration_size_label_witness :
  exists c' label,
    metrics.RecordStorjDownload "t1" "s3" "synthetics" "" time.Second (5 * config.MB) false
      metrics.NewCollector = Some c'
    /\ label = "5MB"
    /\ metrics.storjDuration c'
       = metrics.Observe ("t1", "download", "s3", "synthetics", label) time.Second ∅.
Proof.
  destruct (metrics.RecordStorjDownload "t1" "s3" "synthetics" "" time.Second
              (5 * config.MB) false metrics.NewCollector) as [c'|] eqn:Hrec;
    [|discriminate Hrec].
  destruct (proj1 (storjDuration_size_label "t1" "s3" "synthetics" "" time.Second
                     (5 * config.MB) false metrics.NewCollector c')
              ltac:(reflexivity) Hrec) as (label & _ & Hlabel & Hobs).
  exists c', label. split; [reflexivity|]. split; [exact Hlabel | exact Hobs].
Defined.

(** ** Signing *)

Lemma padInt_nonempty (width : nat) (z : Z) : awsv4.padInt width z <> "".
Proof.
  unfold awsv4.padInt. do 2 apply append_nonempty.
  destruct (Itoa_digits (Z.abs z)) as (_ & Hne & _); [lia | done].
Qed.

Lemma formatDate_nonempty (t : awsv4.Time) : awsv4.formatDate t <> "".
Proof. unfold awsv4.formatDate. do 2 apply append_nonempty. apply padInt_nonempty. Qed.

Section SignerProperties.
Variable SHA256 : list byte -> list byte.
Variable HMAC : list byte -> list byte -> list byte.

(** X11.  A signer whose cache is coherent signs a request exactly as
    the uncached [signRequestAtTimeUnsigned] and [signRequestAtTime] (with
    a nil payload) do with its credentials at the same instant, and it
    leaves a coherent cache stamped with that day; a new signer is
    coherent.  So the cached key never changes a signature, also across a
    change of day. *)
Theorem Sign_agrees_with_uncached (rng : awsv4.Ranger) (s : awsv4.Signer)
  (req : awsv4.Request) (now : awsv4.Time) :
  keyCached HMAC s ->
  let '(s', signed) := awsv4.Sign SHA256 HMAC rng s req now in
  signed = awsv4.signRequestAtTimeUnsigned SHA256 HMAC rng req (awsv4.creds s) now
  /\ signed = awsv4.signRequestAtTime SHA256 HMAC rng req (awsv4.creds s) None now
  /\ keyCached HMAC s'
  /\ awsv4.creds s' = awsv4.creds s
  /\ awsv4.dateStamp s' = awsv4.formatDate now.
Proof.
  intros Hs. unfold awsv4.Sign, awsv4.signRequestAtTimeUnsigned, awsv4.signRequestAtTime.
  destruct (awsv4.buildCanonicalRequest _ _ _) as [canonicalReq signedHeaders].
  destruct (String.eqb_spec (awsv4.dateStamp s) (awsv4.formatDate now)) as [Hsame|Hnew];
    simpl.
  - assert (Hkey : awsv4.signingKey s
                   = awsv4.deriveSigningKey HMAC (awsv4.SecretKey (awsv4.creds s))
                       (awsv4.formatDate now) (awsv4.Region (awsv4.creds s))
                       awsv4.serviceName).
    { destruct Hs as [Hempty | Hkey]; [|by rewrite <- Hsame].
      rewrite Hempty in Hsame. by destruct (formatDate_nonempty now). }
    rewrite Hkey. by split_and!.
  - split_and!; try done. by right.
Qed.

(** A new signer has nothing cached. *)
Lemma NewSigner_keyCached (creds : awsv4.Credentials) :
  keyCached HMAC (awsv4.NewSigner creds).
Proof. by left. Qed.
End SignerProperties.

Lemma Sign_agrees_with_uncached_witness :
  let SHA256 := fun data : list byte => data in
  let HMAC := fun key data : list byte => (key ++ data)%list in
  let '(s', signed) :=
    awsv4.Sign SHA256 HMAC inOrder (awsv4.NewSigner sampleCredentials) uploadRequest
      sampleTime in
  signed = awsv4.signRequestAtTime SHA256 HMAC inOrder uploadRequest sampleCredentials None
             sampleTime
  /\ awsv4.dateStamp s' = "20240307".
Proof.
  intros SHA256 HMAC.
  pose proof (Sign_agrees_with_uncached SHA256 HMAC inOrder
                (awsv4.NewSigner sampleCredentials) uploadRequest sampleTime
                (NewSigner_keyCached HMAC sampleCredentials)) as Hsign.
  destruct (awsv4.Sign _ _ _ _ _ _) as [s' signed].
  destruct Hsign as (_ & Hsame & _ & _ & Hdate). split; [exact Hsame | exact Hdate].
Defined.

(** ** Signed headers *)

Lemma Permutation_elem_of_iff {A : Type} (l1 l2 : list A) (x : A) :
  l1 ≡ₚ l2 -> x ∈ l1 <-> x ∈ l2.
Proof. intros Hp. by rewrite Hp. Qed.

Lemma elem_of_collected (rng : awsv4.Ranger) (n : nat) (headers : awsv4.Header)
  (name : string) :
  validRanger rng ->
  name ∈ List.filter awsv4.isSignedName
           (List.map (fun e => GoStrings.ToLower (fst e)) (awsv4.rangeMap rng n headers))
  <-> awsv4.isSignedName name = true
      /\ exists key, key ∈ dom headers /\ GoStrings.ToLower key = name.
Proof.
  intros Hrng. rewrite list_elem_of_In, filter_In, in_map_iff.
  split.
  - intros [([key values] & Hname & Hin) Hsigned]. split; [done|].
    exists key. split; [|done].
    apply list_elem_of_In in Hin. unfold awsv4.rangeMap in Hin. rewrite (Hrng n _) in Hin.
    apply elem_of_map_to_list in Hin. apply elem_of_dom. by exists values.
  - intros [Hsigned (key & [values Hkey]%elem_of_dom & Hname)]. split; [|done].
    exists (key, values). split; [done|].
    apply list_elem_of_In. unfold awsv4.rangeMap. rewrite (Hrng n _).
    by apply elem_of_map_to_list.
Qed.

(** X12.  The [SignedHeaders] list is the sorted list of names joined
    by semicolons; it always contains [host], and besides [host] exactly
    the lower-cased names of the request's headers that start with
    [x-amz-] or are [content-type].  No other header (not [Authorization],
    not [User-Agent]) is ever signed.  Once signing has written its own
    headers, [x-amz-date] and [x-amz-content-sha256] are among them. *)
Theorem signed_headers_names (rng : awsv4.Ranger) (n : nat) (headers : awsv4.Header)
  (host : string) :
  validRanger rng ->
  exists names,
    snd (awsv4.canonicalizeHeaders rng n headers host) = GoStrings.Join names ";"
    /\ Sorted String.le names
    /\ (forall name,
          name ∈ names
          <-> name = "host"
              \/ (awsv4.isSignedName name = true
                  /\ exists key, key ∈ dom headers /\ GoStrings.ToLower key = name))
    /\ (forall amzDate payloadHash headers0,
          headers
          = awsv4.HeaderSet "X-Amz-Content-Sha256" payloadHash
              (awsv4.HeaderSet "Host" host (awsv4.HeaderSet "X-Amz-Date" amzDate headers0)) ->
          "x-amz-date" ∈ names /\ "x-amz-content-sha256" ∈ names).
Proof.
  intros Hrng. unfold awsv4.canonicalizeHeaders. simpl.
  set (collected := List.filter _ _).
  exists (awsv4.sortStrings ("host" :: collected)).
  assert (Hmem : forall name,
             name ∈ awsv4.sortStrings ("host" :: collected)
             <-> name = "host"
                 \/ (awsv4.isSignedName name = true
                     /\ exists key, key ∈ dom headers /\ GoStrings.ToLower key = name)).
  { intros name. unfold awsv4.sortStrings.
    rewrite (Permutation_elem_of_iff _ _ name (merge_sort_Permutation _ _)).
    rewrite elem_of_cons. unfold collected. by rewrite elem_of_collected. }
  split_and!; [done | apply Sorted_merge_sort, _ | done |].
  intros amzDate payloadHash headers0 ->.
  split; apply Hmem; right; (split; [done|]).
  - exists "X-Amz-Date". split; [|done]. rewrite signing_headers_names.
    unfold signingNames. rewrite !elem_of_union, !elem_of_singleton. tauto.
  - exists "X-Amz-Content-Sha256". split; [|done]. rewrite signing_headers_names.
    unfold signingNames. rewrite !elem_of_union, !elem_of_singleton. tauto.
Qed.

Lemma signed_headers_names_witness :
  exists names,
    snd (awsv4.canonicalizeHeaders backwards 1
           (awsv4.HeaderSet "X-Amz-Content-Sha256" "UNSIGNED-PAYLOAD"
              (awsv4.HeaderSet "Host" "gateway.example"
                 (awsv4.HeaderSet "X-Amz-Date" "20240307T235909Z"
                    (awsv4.Headers uploadRequest))))
           "gateway.example")
    = GoStrings.Join names ";"
    /\ "x-amz-date" ∈ names /\ "host" ∈ names.
Proof.
  destruct (signed_headers_names backwards 1
              (awsv4.HeaderSet "X-Amz-Content-Sha256" "UNSIGNED-PAYLOAD"
                 (awsv4.HeaderSet "Host" "gateway.example"
                    (awsv4.HeaderSet "X-Amz-Date" "20240307T235909Z"
                       (awsv4.Headers uploadRequest))))
              "gateway.example")
    as (names & Hjoin & _ & Hmem & Hown).
  - intros n l. apply reverse_Permutation.
  - exists names. split; [exact Hjoin|]. split.
    + exact (proj1 (Hown _ _ _ eq_refl)).
    + apply Hmem. by left.
Defined.

(** ** The canonical URI *)

Lemma escape_app (s1 s2 : string) (mode : awsv4.escapeMode) :
  awsv4.escape (s1 +:+ s2) mode = awsv4.escape s1 mode +:+ awsv4.escape s2 mode.
Proof.
  induction s1 as [|c s1 IH]; [done|]. rewrite append_cons. simpl.
  destruct (awsv4.shouldEscape c mode), mode; try destruct (Ascii.eqb c " ");
    rewrite ?append_cons, IH; done.
Qed.

Lemma splitGo_nonempty (sep : ascii) (acc : list ascii) (s : string) :
  GoStrings.splitGo sep acc s <> [].
Proof.
  revert acc. induction s as [|c s IH]; intros acc; simpl; [done|].
  destruct (Ascii.eqb c sep); [done | apply IH].
Qed.

Lemma Join_cons (x : string) (l : list string) (sep : string) :
  l <> [] -> GoStrings.Join (x :: l) sep = x +:+ sep +:+ GoStrings.Join l sep.
Proof. by destruct l. Qed.

Lemma canonicalURIEncode_acc (acc : list ascii) (s : string) :
  GoStrings.Join (List.map awsv4.PathEscape (GoStrings.splitGo "/" acc s)) "/"
  = awsv4.PathEscape (string_of_list_ascii (rev acc)) +:+ escapeKeepingSlashes s.
Proof.
  revert acc. induction s as [|c s IH]; intros acc.
  - simpl. by rewrite append_empty_r.
  - cbn [GoStrings.splitGo escapeKeepingSlashes].
    destruct (Ascii.eqb c "/") eqn:Hc.
    + cbn [List.map]. rewrite Join_cons.
      * by rewrite (IH []).
      * destruct (GoStrings.splitGo "/" [] s) eqn:E; [|done].
        by destruct (splitGo_nonempty "/" [] s).
    + rewrite IH. cbn [rev]. rewrite string_of_list_ascii_app. unfold awsv4.PathEscape.
      by rewrite escape_app, append_assoc.
Qed.

Lemma escapeKeepingSlashes_safe (path : string) :
  awsv4.allChars (fun c => Ascii.eqb c "/" || negb (awsv4.shouldEscape c awsv4.encodePathSegment))
    path = true ->
  escapeKeepingSlashes path = path.
Proof.
  induction path as [|c path IH]; simpl; [done|].
  rewrite andb_true_iff. intros [Hc Hpath]. rewrite (IH Hpath).
  destruct (Ascii.eqb_spec c "/") as [->|]; [done|].
  simpl in Hc. apply negb_true_iff in Hc. unfold awsv4.PathEscape. simpl. by rewrite Hc.
Qed.

(** X13.  [canonicalURIEncode] keeps every slash of the path and
    escapes each other character on its own, as [url.PathEscape] does.  A
    path made of letters, digits, [-], [_], [.], [~] and slashes (the
    object names the executors build) is therefore signed as it is. *)
Theorem canonicalURIEncode_keeps_slashes (path : string) :
  awsv4.canonicalURIEncode path = escapeKeepingSlashes path
  /\ (awsv4.allChars
        (fun c => Ascii.eqb c "/" || negb (awsv4.shouldEscape c awsv4.encodePathSegment))
        path = true ->
      awsv4.canonicalURIEncode path = path).
Proof.
  assert (Henc : awsv4.canonicalURIEncode path = escapeKeepingSlashes path)
    by apply (canonicalURIEncode_acc [] path).
  split; [done|]. intros Hsafe. by rewrite Henc, escapeKeepingSlashes_safe.
Qed.

Lemma canonicalURIEncode_keeps_slashes_witness :
  awsv4.canonicalURIEncode "/synthetics/t1-01J9ZK3V7Q4M8N2K5T9R6W1YB0.bin"
  = "/synthetics/t1-01J9ZK3V7Q4M8N2K5T9R6W1YB0.bin".
Proof.
  apply (canonicalURIEncode_keeps_slashes "/synthetics/t1-01J9ZK3V7Q4M8N2K5T9R6W1YB0.bin").
  reflexivity.
Defined.

(** ** The curl timing report *)

Lemma wrap64_range (z : Z) : minInt64 <= wrap64 z <= maxInt64.
Proof.
  unfold wrap64, minInt64, maxInt64.
  pose proof (Z.mod_pos_bound (z + 2 ^ 63) (2 ^ 64) ltac:(lia)). lia.
Qed.

Lemma wrap64_add_wrap64 (a b : Z) : wrap64 (a + wrap64 b) = wrap64 (a + b).
Proof.
  unfold wrap64. f_equal.
  replace (a + ((b + 2 ^ 63) mod 2 ^ 64 - 2 ^ 63) + 2 ^ 63)
    with (a + (b + 2 ^ 63) mod 2 ^ 64) by lia.
  rewrite Zplus_mod_idemp_r. f_equal. lia.
Qed.

(** X14.  [parseCurlOutput] fails exactly when the trimmed line does not
    have six fields separated by [|], whatever the fields contain.  When
    it succeeds, the status is the first field and the five phases add up,
    in [int64] arithmetic, to the total: the phases partition the total
    time. *)
Theorem parseCurlOutput_fields (output : string) :
  match executor.parseCurlOutput output with
  | inl (statusCode, t) =>
      length (GoStrings.Split (GoStrings.TrimSpace output) "|") = 6%nat
      /\ head (GoStrings.Split (GoStrings.TrimSpace output) "|") = Some statusCode
      /\ wrap64 (metrics.DNSLookup t + metrics.TCPConnect t + metrics.TLSHandshake t
                 + metrics.TTFB t + metrics.Transfer t)
         = metrics.Total t
  | inr e =>
      length (GoStrings.Split (GoStrings.TrimSpace output) "|") <> 6%nat
      /\ e = executor.ErrCurlFormat output
  end.
Proof.
  unfold executor.parseCurlOutput.
  destruct (GoStrings.Split _ _) as [|p0 [|p1 [|p2 [|p3 [|p4 [|p5 [|p6 rest]]]]]]];
    try (split; [simpl; lia | done]).
  split; [done|]. split; [done|]. simpl.
  rewrite wrap64_add_wrap64.
  replace (executor.parseSeconds p1 + wrap64 (executor.parseSeconds p2 - executor.parseSeconds p1)
           + wrap64 (executor.parseSeconds p3 - executor.parseSeconds p2)
           + wrap64 (executor.parseSeconds p4 - executor.parseSeconds p3)
           + (executor.parseSeconds p5 - executor.parseSeconds p4))
    with (executor.parseSeconds p1 + wrap64 (executor.parseSeconds p2 - executor.parseSeconds p1)
          + wrap64 (executor.parseSeconds p3 - executor.parseSeconds p2)
          + (executor.parseSeconds p5 - executor.parseSeconds p4)
          + wrap64 (executor.parseSeconds p4 - executor.parseSeconds p3)) by lia.
  rewrite wrap64_add_wrap64.
  replace (executor.parseSeconds p1 + wrap64 (executor.parseSeconds p2 - executor.parseSeconds p1)
           + wrap64 (executor.parseSeconds p3 - executor.parseSeconds p2)
           + (executor.parseSeconds p5 - executor.parseSeconds p4)
           + (executor.parseSeconds p4 - executor.parseSeconds p3))
    with (executor.parseSeconds p1 + wrap64 (executor.parseSeconds p2 - executor.parseSeconds p1)
          + (executor.parseSeconds p5 - executor.parseSeconds p3)
          + wrap64 (executor.parseSeconds p3 - executor.parseSeconds p2)) by lia.
  rewrite wrap64_add_wrap64.
  replace (executor.parseSeconds p1 + wrap64 (executor.parseSeconds p2 - executor.parseSeconds p1)
           + (executor.parseSeconds p5 - executor.parseSeconds p3)
           + (executor.parseSeconds p3 - executor.parseSeconds p2))
    with (executor.parseSeconds p1 + (executor.parseSeconds p5 - executor.parseSeconds p2)
          + wrap64 (executor.parseSeconds p2 - executor.parseSeconds p1)) by lia.
  rewrite wrap64_add_wrap64.
  replace (executor.parseSeconds p1 + (executor.parseSeconds p5 - executor.parseSeconds p2)
           + (executor.parseSeconds p2 - executor.parseSeconds p1))
    with (executor.parseSeconds p5) by lia.
  apply wrap64_small, parseSeconds_range.
Qed.

(** ** Step jitter *)

(** X15.  The jitter of a step is never a percentage: when the step's
    jitter maximum is written with a [%] sign, [runStep] applies no jitter
    at all, whatever the percentage; so does a step whose jitter block is
    absent or not enabled. *)
Theorem stepJitter_ignores_percentage {W : Type} (w : executor.StepWorld W)
  (testName : string) (step : config.TestStep.t) :
  (forall j, config.TestStep.Jitter step = Some j ->
             GoStrings.HasSuffix (GoStrings.TrimSpace (config.JitterConfig.Max j)) "%" = true ->
             executor.stepJitter w testName step = None)
  /\ (config.IsEnabled (config.TestStep.Jitter step) = false ->
      executor.stepJitter w testName step = None).
Proof.
  unfold executor.stepJitter. split.
  - intros j -> Hsuffix. destruct (config.IsEnabled (Some j)); [|done].
    replace (config.ParseMaxJitter (Some j) 0) with (@None time.Duration); [done|].
    unfold config.ParseMaxJitter.
    destruct (String.eqb_spec (config.JitterConfig.Max j) "") as [Heq|_].
    { by rewrite Heq in Hsuffix. }
    rewrite Hsuffix. destruct (strconv.ParseFloat _); [|done].
    by destruct (_ || _).
  - destruct (config.TestStep.Jitter step) as [j|]; [|done]. by intros ->.
Qed.

Lemma stepJitter_ignores_percentage_witness :
  executor.stepJitter
    {| executor.ctx := {| jitter.cancelledAfter := Some 0 |};
       executor.Int63n := fun n => n - 1;
       executor.timerWinsTie := false;
       executor.opWorld := s3Fine;
       executor.sinceStepStart := 0;
       executor.sinceTestStart := 0 |}
    "t1"
    {| config.TestStep.Name := "upload"; config.TestStep.Script := "";
       config.TestStep.Timeout := "30s"; config.TestStep.FileSize := None;
       config.TestStep.TTLSeconds := None; config.TestStep.FilePrefix := None;
       config.TestStep.MaxAgeMinutes := None; config.TestStep.MaxDelete := None;
       config.TestStep.Jitter :=
         Some {| config.JitterConfig.Enabled := Some true;
                 config.JitterConfig.Max := "50%" |} |}
  = None
  /\ executor.stepJitter (stepWorldOf s3Fine) "t1" (stepNamed "upload") = None.
Proof.
  split.
  - match goal with
    | |- executor.stepJitter ?w ?t ?s = _ =>
        exact (proj1 (stepJitter_ignores_percentage w t s) _ eq_refl eq_refl)
    end.
  - exact (proj2 (stepJitter_ignores_percentage (stepWorldOf s3Fine) "t1" (stepNamed "upload"))
             eq_refl).
Defined.

(** ** Ensuring the bucket *)

(** X16.  What the gateway answers to the request that creates the
    bucket never decides [ensureBucket]: with the SDK the outcome of
    [CreateBucket] is ignored altogether, and with curl and raw HTTP only
    whether the PUT could be signed and sent matters, not its status.  Two
    worlds that agree on everything else give the same result. *)
Theorem ensureBucket_ignores_create_answer (bucket : string) :
  (forall w1 w2 : executor.S3Executor.BucketWorld,
      executor.S3Executor.headOk w1 = executor.S3Executor.headOk w2 ->
      executor.S3Executor.verifyOk w1 = executor.S3Executor.verifyOk w2 ->
      executor.S3Executor.ensureBucket w1 bucket = executor.S3Executor.ensureBucket w2 bucket)
  /\ (forall w1 w2 : executor.CurlS3Executor.BucketWorld,
        executor.CurlS3Executor.head w1 = executor.CurlS3Executor.head w2 ->
        executor.CurlS3Executor.verify w1 = executor.CurlS3Executor.verify w2 ->
        executor.CurlS3Executor.signOk (executor.CurlS3Executor.put w1)
        = executor.CurlS3Executor.signOk (executor.CurlS3Executor.put w2) ->
        is_Some (executor.CurlS3Executor.output (executor.CurlS3Executor.put w1))
        <-> is_Some (executor.CurlS3Executor.output (executor.CurlS3Executor.put w2)) ->
        executor.CurlS3Executor.ensureBucket w1 bucket
        = executor.CurlS3Executor.ensureBucket w2 bucket)
  /\ (forall w1 w2 : executor.HttpS3Executor.BucketWorld,
        executor.HttpS3Executor.head w1 = executor.HttpS3Executor.head w2 ->
        executor.HttpS3Executor.verify w1 = executor.HttpS3Executor.verify w2 ->
        executor.HttpS3Executor.requestOk (executor.HttpS3Executor.put w1)
        = executor.HttpS3Executor.requestOk (executor.HttpS3Executor.put w2) ->
        executor.HttpS3Executor.signOk (executor.HttpS3Executor.put w1)
        = executor.HttpS3Executor.signOk (executor.HttpS3Executor.put w2) ->
        is_Some (executor.HttpS3Executor.status (executor.HttpS3Executor.put w1))
        <-> is_Some (executor.HttpS3Executor.status (executor.HttpS3Executor.put w2)) ->
        executor.HttpS3Executor.ensureBucket w1 bucket
        = executor.HttpS3Executor.ensureBucket w2 bucket).
Proof.
  split_and!.
  - intros w1 w2 Hhead Hverify. unfold executor.S3Executor.ensureBucket.
    by rewrite Hhead, Hverify.
  - intros w1 w2 Hhead Hverify Hsign Hsent. unfold executor.CurlS3Executor.ensureBucket.
    rewrite Hhead, Hverify, Hsign.
    destruct (executor.CurlS3Executor.output (executor.CurlS3Executor.put w1)) as [o1|],
      (executor.CurlS3Executor.output (executor.CurlS3Executor.put w2)) as [o2|]; try done.
    + destruct Hsent as [Hsent _]. by destruct (Hsent ltac:(eauto)).
    + destruct Hsent as [_ Hsent]. by destruct (Hsent ltac:(eauto)).
  - intros w1 w2 Hhead Hverify Hreq Hsign Hsent. unfold executor.HttpS3Executor.ensureBucket.
    rewrite Hhead, Hverify, Hreq, Hsign.
    destruct (executor.HttpS3Executor.status (executor.HttpS3Executor.put w1)) as [o1|],
      (executor.HttpS3Executor.status (executor.HttpS3Executor.put w2)) as [o2|]; try done.
    + destruct Hsent as [Hsent _]. by destruct (Hsent ltac:(eauto)).
    + destruct Hsent as [_ Hsent]. by destruct (Hsent ltac:(eauto)).
Qed.

Lemma ensureBucket_ignores_create_answer_witness :
  executor.CurlS3Executor.ensureBucket
    {| executor.CurlS3Executor.head :=
         {| executor.CurlS3Executor.signOk := true;
            executor.CurlS3Executor.output := Some "404" |};
       executor.CurlS3Executor.put :=
         {| executor.CurlS3Executor.signOk := true;
            executor.CurlS3Executor.output := Some "500" |};
       executor.CurlS3Executor.verify :=
         {| executor.CurlS3Executor.signOk := true;
            executor.CurlS3Executor.output := Some "200" |} |}
    "synthetics"
  = executor.CurlS3Executor.ensureBucket
      {| executor.CurlS3Executor.head :=
           {| executor.CurlS3Executor.signOk := true;
              executor.CurlS3Executor.output := Some "404" |};
         executor.CurlS3Executor.put :=
           {| executor.CurlS3Executor.signOk := true;
              executor.CurlS3Executor.output := Some "201" |};
         executor.CurlS3Executor.verify :=
           {| executor.CurlS3Executor.signOk := true;
              executor.CurlS3Executor.output := Some "200" |} |}
      "synthetics".
Proof.
  apply (ensureBucket_ignores_create_answer "synthetics"); try reflexivity.
  split; intros _; eexists; reflexivity.
Defined.

(** ** Operations and their counters *)

Lemma sameCounters_refl c : sameCounters c c.
Proof. by repeat split. Qed.

Lemma sameCounters_trans c1 c2 c3 :
  sameCounters c1 c2 -> sameCounters c2 c3 -> sameCounters c1 c3.
Proof. intros (? & ? & ?) (? & ? & ?). repeat split; congruence. Qed.

Lemma operationAccounted_before testName action executorName bucket c0 c c' e :
  sameCounters c0 c ->
  operationAccounted testName action executorName bucket c0 c' e ->
  operationAccounted testName action executorName bucket c c' e.
Proof.
  intros (Hb & Hc & Hs). unfold operationAccounted. rewrite Hb, Hc, Hs. done.
Qed.

Lemma operationAccounted_after testName action executorName bucket c c1 c' e :
  sameCounters c' c1 ->
  operationAccounted testName action executorName bucket c c1 e ->
  operationAccounted testName action executorName bucket c c' e.
Proof.
  intros (Hb & Hc & Hs). unfold operationAccounted. rewrite Hb, Hc, Hs. done.
Qed.

Lemma operationAccounted_untouched testName action executorName bucket c err :
  operationAccounted testName action executorName bucket c c (Some err).
Proof. split; [done|]. split; [done|]. by left. Qed.

Lemma RecordHTTPTimingPhase_sameCounters testName action executor phase duration c :
  sameCounters (metrics.RecordHTTPTimingPhase testName action executor phase duration c) c.
Proof. unfold metrics.RecordHTTPTimingPhase. by destruct (0 <? duration). Qed.

Lemma RecordHTTPTiming_sameCounters testName action executor t c :
  sameCounters (metrics.RecordHTTPTiming testName action executor t c) c.
Proof.
  unfold metrics.RecordHTTPTiming.
  repeat (eapply sameCounters_trans; [apply RecordHTTPTimingPhase_sameCounters|]).
  apply sameCounters_refl.
Qed.

Lemma RecordTestRun_sameCounters testName stepName executor success duration c :
  sameCounters (metrics.RecordTestRun testName stepName executor success duration c) c.
Proof. by repeat split. Qed.

Lemma recordOutcome_accounted testName action executor bucket bytes (success : bool) c c' :
  metrics.recordOutcome testName action executor bucket bytes success c = Some c' ->
  forall e, (success = true <-> e = None) ->
            operationAccounted testName action executor bucket c c' e.
Proof.
  unfold metrics.recordOutcome. intros Hrec e He. destruct success.
  - destruct (metrics.Add _ _ _); [|done]. injection Hrec as <-.
    rewrite (proj1 He eq_refl). by split.
  - injection Hrec as <-. destruct e as [err|]; [|discriminate (proj2 He eq_refl)].
    split; [done|]. split; [done|]. by right.
Qed.

Lemma RecordStorjUpload_accounted testName executor bucket fileSize duration bytes
  (success : bool) c c' e :
  metrics.RecordStorjUpload testName executor bucket fileSize duration bytes success c
  = Some c' ->
  (success = true <-> e = None) ->
  operationAccounted testName "upload" executor bucket c c' e.
Proof.
  destruct (RecordStorjUpload_tail testName executor bucket fileSize duration bytes success c)
    as (c0 & -> & Hb & Hc & Hs & _).
  intros Hrec He. apply (operationAccounted_before _ _ _ _ c0); [done|].
  by eapply recordOutcome_accounted.
Qed.

Lemma RecordStorjDownload_accounted testName executor bucket fileSize duration bytes
  (success : bool) c c' e :
  metrics.RecordStorjDownload testName executor bucket fileSize duration bytes success c
  = Some c' ->
  (success = true <-> e = None) ->
  operationAccounted testName "download" executor bucket c c' e.
Proof.
  destruct (RecordStorjDownload_tail testName executor bucket fileSize duration bytes success c)
    as (c0 & -> & Hb & Hc & Hs & _).
  intros Hrec He. apply (operationAccounted_before _ _ _ _ c0); [done|].
  by eapply recordOutcome_accounted.
Qed.

(** A delete of one object, or a failed delete. *)
Lemma RecordStorjDelete_accounted testName executor bucket fileSize duration
  (success : bool) c e :
  (success = true <-> e = None) ->
  operationAccounted testName "delete" executor bucket c
    (metrics.RecordStorjDelete testName executor bucket fileSize duration
       (if success then 1 else 0) success c) e.
Proof.
  intros He. unfold metrics.RecordStorjDelete. destruct success.
  - rewrite (proj1 He eq_refl). simpl.
    destruct (negb _ && _), (0 <? duration); by split.
  - destruct e as [err|]; [|discriminate (proj2 He eq_refl)]. simpl.
    destruct (negb _ && _), (0 <? duration); (split; [done|]); (split; [done|]); by right.
Qed.

(** A recorder that may panic, followed by a return. *)
Lemma bind_accounted testName action executorName bucket
  (r : option metrics.Collector) (e : option executor.error) c c' e' :
  (forall c1, r = Some c1 -> operationAccounted testName action executorName bucket c c1 e) ->
  (c1 ← r; Some (c1, e)) = Some (c', e') ->
  operationAccounted testName action executorName bucket c c' e'.
Proof. destruct r as [c1|]; [|done]. intros Hr [= <- <-]. by apply Hr. Qed.

Ltac accounted_failure :=
  apply bind_accounted; intros c1 Hrec;
  first [ eapply RecordStorjUpload_accounted | eapply RecordStorjDownload_accounted ];
  [exact Hrec | done].

Ltac accounted_after_timings :=
  intros Hb; eapply bind_accounted in Hb; [exact Hb|];
  intros c1 Hrec;
  eapply operationAccounted_before;
  [ eapply sameCounters_trans;
    [apply RecordHTTPTimingPhase_sameCounters | apply RecordHTTPTiming_sameCounters]
  | first [ eapply RecordStorjUpload_accounted | eapply RecordStorjDownload_accounted ];
    [exact Hrec | done] ].

Ltac accounted_delete_after_timings :=
  intros [= <- <-];
  eapply operationAccounted_before;
  [ eapply sameCounters_trans;
    [apply RecordHTTPTimingPhase_sameCounters | apply RecordHTTPTiming_sameCounters]
  | first [ by apply (RecordStorjDelete_accounted _ _ _ _ _ true)
          | by apply (RecordStorjDelete_accounted _ _ _ _ _ false) ] ].

#[global] Instance S3Executor_accounting : BackendAccounting executor.S3Executor.backend.
Proof.
  split; simpl.
  - intros w testName bucket filename step c c' e.
    unfold executor.S3Executor.uploadObject. destruct (executor.uploadSize step) as [size label].
    destruct (size <? 0); [done|].
    destruct (negb _); [intros [= <- <-]; apply operationAccounted_untouched|].
    destruct (negb _); accounted_failure.
  - intros w testName bucket filename c c' e.
    unfold executor.S3Executor.downloadObject.
    destruct (negb _); [accounted_failure|].
    destruct (negb _); accounted_failure.
  - intros w testName bucket filename label c c' e.
    unfold executor.S3Executor.deleteObject.
    destruct (negb _); intros [= <- <-].
    + by apply (RecordStorjDelete_accounted _ _ _ _ _ false).
    + by apply (RecordStorjDelete_accounted _ _ _ _ _ true).
Qed.

#[global] Instance CurlS3Executor_accounting :
  BackendAccounting executor.CurlS3Executor.backend.
Proof.
  split; simpl.
  - intros w testName bucket filename step c c' e.
    unfold executor.CurlS3Executor.uploadObject.
    destruct (executor.uploadSize step) as [size label].
    destruct (size <? 0); [done|].
    repeat (destruct (negb _); [intros [= <- <-]; apply operationAccounted_untouched|]).
    destruct (executor.CurlS3Executor.signed w) as [[headers signDuration]|];
      [|intros [= <- <-]; apply operationAccounted_untouched].
    destruct (executor.CurlS3Executor.cmdOutput w) as [out|]; [|accounted_failure].
    destruct (executor.parseCurlOutput out) as [[status timings]|]; [|accounted_failure].
    destruct (negb _ && negb _); accounted_after_timings.
  - intros w testName bucket filename c c' e.
    unfold executor.CurlS3Executor.downloadObject.
    destruct (executor.CurlS3Executor.signed w) as [[headers signDuration]|];
      [|intros [= <- <-]; apply operationAccounted_untouched].
    destruct (negb _); [intros [= <- <-]; apply operationAccounted_untouched|].
    destruct (executor.CurlS3Executor.cmdOutput w) as [out|]; [|accounted_failure].
    destruct (executor.parseCurlOutput out) as [[status timings]|]; [|accounted_failure].
    destruct (negb _); [|destruct (executor.CurlS3Executor.statSize w)];
      accounted_after_timings.
  - intros w testName bucket filename label c c' e.
    unfold executor.CurlS3Executor.deleteObject.
    destruct (executor.CurlS3Executor.signed w) as [[headers signDuration]|];
      [|intros [= <- <-]; apply operationAccounted_untouched].
    destruct (executor.CurlS3Executor.cmdOutput w) as [out|];
      [|intros [= <- <-]; by apply (RecordStorjDelete_accounted _ _ _ _ _ false)].
    destruct (executor.parseCurlOutput out) as [[status timings]|];
      [|intros [= <- <-]; by apply (RecordStorjDelete_accounted _ _ _ _ _ false)].
    destruct (negb _ && negb _); accounted_delete_after_timings.
Qed.

#[global] Instance HttpS3Executor_accounting :
  BackendAccounting executor.HttpS3Executor.backend.
Proof.
  split; simpl.
  - intros w testName bucket filename step c c' e.
    unfold executor.HttpS3Executor.uploadObject, executor.HttpS3Executor.recordTimings.
    destruct (executor.uploadSize step) as [size label].
    destruct (size <? 0); [done|].
    repeat (destruct (negb _); [intros [= <- <-]; apply operationAccounted_untouched|]).
    destruct (executor.HttpS3Executor.signed w) as [signDuration|];
      [|intros [= <- <-]; apply operationAccounted_untouched].
    destruct (executor.HttpS3Executor.response w) as [code|]; [|accounted_failure].
    destruct (negb _ && negb _); accounted_after_timings.
  - intros w testName bucket filename c c' e.
    unfold executor.HttpS3Executor.downloadObject, executor.HttpS3Executor.recordTimings.
    destruct (negb _); [intros [= <- <-]; apply operationAccounted_untouched|].
    destruct (executor.HttpS3Executor.signed w) as [signDuration|];
      [|intros [= <- <-]; apply operationAccounted_untouched].
    destruct (executor.HttpS3Executor.response w) as [code|]; [|accounted_failure].
    destruct (negb (code =? 200)); [accounted_failure|].
    destruct (negb _); accounted_after_timings.
  - intros w testName bucket filename label c c' e.
    unfold executor.HttpS3Executor.deleteObject, executor.HttpS3Executor.recordTimings.
    destruct (negb _); [intros [= <- <-]; apply operationAccounted_untouched|].
    destruct (executor.HttpS3Executor.signed w) as [signDuration|];
      [|intros [= <- <-]; apply operationAccounted_untouched].
    destruct (executor.HttpS3Executor.response w) as [code|];
      [|intros [= <- <-]; by apply (RecordStorjDelete_accounted _ _ _ _ _ false)].
    destruct (negb _ && negb _); accounted_delete_after_timings.
Qed.

Section Accounting.
Context {B W : Type} {H : executor.Backend B W} {HA : BackendAccounting H}.

Lemma Generic_runStep_accounted (w : executor.StepWorld W) testName step filename bucket
  single c c' e :
  executor.Generic.runStep w testName step filename bucket single c = Some (c', e) ->
  operationAccounted testName (config.TestStep.Name step) executor.executorName bucket
    c c' e.
Proof.
  unfold executor.Generic.runStep.
  destruct (executor.stepJitter w testName step).
  { intros [= <- <-]. apply operationAccounted_untouched. }
  destruct (executor.Generic.dispatch _ _ _ _ _ _ _) as [[c1 [err|]]|] eqn:Hd; [| |done].
  all: intros [= <- <-];
    eapply operationAccounted_after; [apply RecordTestRun_sameCounters|].
  all: unfold executor.Generic.dispatch in Hd.
  all: destruct (String.eqb_spec (config.TestStep.Name step) "upload") as [->|_];
    [by apply uploadObject_accounted in Hd|].
  all: destruct (String.eqb_spec (config.TestStep.Name step) "download") as [->|_];
    [by apply downloadObject_accounted in Hd|].
  all: destruct (String.eqb_spec (config.TestStep.Name step) "delete") as [->|_];
    [by apply deleteObject_accounted in Hd|].
  - injection Hd as <- _. apply operationAccounted_untouched.
  - done.
Qed.
End Accounting.

(** X17.  With each of the three S3-style executors, what [runStep]
    returns and what it counts agree.  A step that returns nil has counted
    exactly one operation under the bucket and one success, under the
    step's name; a step that returns an error has counted no bytes and no
    operation, and at most one failure. *)
Theorem step_result_matches_counters (testName : string) (step : config.TestStep.t)
  (filename bucket : string) (single : bool) (c c' : metrics.Collector)
  (e : option executor.error) :
  (forall w,
      executor.S3Executor.runStep w testName step filename bucket single c = Some (c', e) ->
      operationAccounted testName (config.TestStep.Name step) "s3" bucket c c' e)
  /\ (forall w,
        executor.CurlS3Executor.runStep w testName step filename bucket single c
        = Some (c', e) ->
        operationAccounted testName (config.TestStep.Name step) "curl-s3" bucket c c' e)
  /\ (forall w,
        executor.HttpS3Executor.runStep w testName step filename bucket single c
        = Some (c', e) ->
        operationAccounted testName (config.TestStep.Name step) "http-s3" bucket c c' e).
Proof.
  split; [|split]; intros w Hrun.
  - exact (Generic_runStep_accounted (H := executor.S3Executor.backend) _ _ _ _ _ _ _ _ _ Hrun).
  - exact (Generic_runStep_accounted (H := executor.CurlS3Executor.backend)
             _ _ _ _ _ _ _ _ _ Hrun).
  - exact (Generic_runStep_accounted (H := executor.HttpS3Executor.backend)
             _ _ _ _ _ _ _ _ _ Hrun).
Qed.

Lemma step_result_matches_counters_witness :
  exists c',
    executor.CurlS3Executor.runStep (stepWorldOf curlFine) "t1" (stepNamed "download")
      "t1-01.bin" "synthetics" false metrics.NewCollector = Some (c', None)
    /\ metrics.value (metrics.storjOperationCount c') ("t1", "download", "curl-s3", "synthetics")
       = 1.
Proof.
  assert (Hrun : exists c',
             executor.CurlS3Executor.runStep (stepWorldOf curlFine) "t1" (stepNamed "download")
               "t1-01.bin" "synthetics" false metrics.NewCollector = Some (c', None))
    by (eexists; vm_compute; reflexivity).
  destruct Hrun as [c' Hrun].
  pose proof (proj1 (proj2 (step_result_matches_counters "t1" (stepNamed "download")
                              "t1-01.bin" "synthetics" false metrics.NewCollector c' None))
                _ Hrun) as [Hcount _].
  exists c'. split; [exact Hrun|]. simpl in Hcount. rewrite Hcount.
  reflexivity.
Defined.

(** ** The loop over the steps *)

(** X18.  A run stops at the first step that fails: the steps after it
    are not run, so the result is the same whatever follows the failing
    step, and the error names that step. *)
Theorem runLoop_stops_at_first_failure (executorName testName : string)
  (runStep : nat -> config.TestStep.t -> metrics.Collector -> executor.outcome)
  (sinceStart : nat -> time.Duration) (runDuration : time.Duration)
  (steps : list config.TestStep.t) (i : nat) (c c' : metrics.Collector)
  (e : executor.error) :
  executor.runLoop executorName testName runStep sinceStart runDuration i steps c
  = Some (c', Some e) ->
  exists j step cause,
    steps !! j = Some step
    /\ e = executor.ErrTestFailed testName (config.TestStep.Name step) cause
    /\ forall later,
         executor.runLoop executorName testName runStep sinceStart runDuration i
           (take (S j) steps ++ later) c
         = Some (c', Some e).
Proof.
  revert i c. induction steps as [|step steps IH]; intros i c; simpl; [done|].
  destruct (runStep i step c) as [[c1 [err|]]|] eqn:Hstep; [| |done].
  - intros [= <- <-]. exists 0%nat, step, err. split; [done|]. split; [done|].
    intros later. simpl. by rewrite ?Hstep.
  - intros Hrest. destruct (IH _ _ Hrest) as (j & st & cause & Hj & He & Hlater).
    exists (S j), st, cause. split; [done|]. split; [done|].
    intros later. simpl. rewrite ?Hstep. apply Hlater.
Qed.

Lemma runLoop_stops_at_first_failure_witness :
  exists c' e j step,
    executor.runLoop "s3" "t1"
      (fun i step =>
         executor.S3Executor.runStep (executor.stepWorld (s3Run s3Down) i) "t1" step
           "t1-01.bin" "synthetics" false)
      (fun i => executor.sinceTestStart (executor.stepWorld (s3Run s3Down) i))
      time.Second 0 (config.Test.Steps roundTrip) metrics.NewCollector
    = Some (c', Some e)
    /\ config.Test.Steps roundTrip !! j = Some step
    /\ forall later,
         executor.runLoop "s3" "t1"
           (fun i step =>
              executor.S3Executor.runStep (executor.stepWorld (s3Run s3Down) i) "t1" step
                "t1-01.bin" "synthetics" false)
           (fun i => executor.sinceTestStart (executor.stepWorld (s3Run s3Down) i))
           time.Second 0 (take (S j) (config.Test.Steps roundTrip) ++ later)%list
           metrics.NewCollector
         = Some (c', Some e).
Proof.
  destruct (executor.runLoop "s3" "t1"
              (fun i step =>
                 executor.S3Executor.runStep (executor.stepWorld (s3Run s3Down) i) "t1" step
                   "t1-01.bin" "synthetics" false)
              (fun i => executor.sinceTestStart (executor.stepWorld (s3Run s3Down) i))
              time.Second 0 (config.Test.Steps roundTrip) metrics.NewCollector)
    as [[c' [e|]]|] eqn:Hrun; [|discriminate Hrun..].
  destruct (runLoop_stops_at_first_failure _ _ _ _ _ _ _ _ _ _ Hrun)
    as (j & step & cause & Hj & He & Hlater).
  exists c', e, j, step. split; [reflexivity|]. split; [exact Hj | exact Hlater].
Defined.

(** ** The metric stream of the native executor *)

Lemma GroupMetricsByName_filter (points : list k6output.MetricPoint) (name : string) :
  In name uplinkMetricNames ->
  k6output.GroupMetricsByName (List.filter isUplinkMetric points) name
  = k6output.GroupMetricsByName points name.
Proof.
  intros Hname. unfold k6output.GroupMetricsByName.
  induction points as [|p points IH]; simpl; [done|].
  destruct (isUplinkMetric p) eqn:Hp; simpl; rewrite IH; [done|].
  destruct (String.eqb_spec (k6output.Metric p) name) as [Heq|]; [|done].
  exfalso. apply not_true_iff_false in Hp. apply Hp.
  unfold isUplinkMetric. apply existsb_exists. exists name. split; [done|].
  by apply String.eqb_eq.
Qed.

Lemma filter_none (points : list k6output.MetricPoint) :
  Forall (fun p => isUplinkMetric p = false) points ->
  List.filter isUplinkMetric points = [].
Proof. induction 1 as [|p points Hp _ IH]; simpl; [done|]. by rewrite Hp. Qed.

(** X19.  [parseAndRecordMetrics] reads nine metrics of the stream and
    nothing else: the points of every other metric (k6's own
    [http_reqs], [iterations], ...) can be dropped from the stream without
    changing what is recorded; a stream with none of the nine records
    nothing. *)
Theorem recordMetrics_reads_only_its_metrics (points : list k6output.MetricPoint)
  (testName bucket fileSizeLabel : string) (c : metrics.Collector) :
  executor.UplinkExecutor.recordMetrics points testName bucket fileSizeLabel c
  = executor.UplinkExecutor.recordMetrics (List.filter isUplinkMetric points) testName bucket
      fileSizeLabel c
  /\ (Forall (fun p => isUplinkMetric p = false) points ->
      executor.UplinkExecutor.recordMetrics points testName bucket fileSizeLabel c = Some c).
Proof.
  assert (Hfilter :
    executor.UplinkExecutor.recordMetrics points testName bucket fileSizeLabel c
    = executor.UplinkExecutor.recordMetrics (List.filter isUplinkMetric points) testName
        bucket fileSizeLabel c).
  { unfold executor.UplinkExecutor.recordMetrics.
    rewrite !GroupMetricsByName_filter by (unfold uplinkMetricNames; simpl; tauto).
    done. }
  split; [done|]. intros Hnone. rewrite Hfilter.
  by rewrite (filter_none points Hnone).
Qed.

Lemma recordMetrics_reads_only_its_metrics_witness :
  executor.UplinkExecutor.recordMetrics
    [ {| k6output.Metric := "http_reqs";
         k6output.Value := {| strconv.mant := 12; strconv.scale := 0 |} |};
      {| k6output.Metric := "iteration_duration";
         k6output.Value := {| strconv.mant := 7345; strconv.scale := 1 |} |} ]
    "t1" "synthetics" "1MB" metrics.NewCollector
  = Some metrics.NewCollector.
Proof.
  apply recordMetrics_reads_only_its_metrics. repeat constructor.
Defined.

(** ** The cron table *)

Section StartProperties.
Context {E W : Type} `{executor.TestExecutor E W}.
Variable cronAccepts : string -> bool.

Lemma schedule_table (s : scheduler.Scheduler E) (tests : list config.Test.t)
  (table table' : list (scheduler.Entry E)) (err : option scheduler.error) :
  scheduler.schedule cronAccepts s tests table = (table', err) ->
  exists added,
    table' = (table ++ added)%list
    /\ Forall (entryBuilt cronAccepts s) added
    /\ match err with
       | None => scheduler.entryTest <$> added = List.filter (eligible s) tests
       | Some er =>
           exists test rest,
             List.filter (eligible s) tests
             = ((scheduler.entryTest <$> added) ++ test :: rest)%list
             /\ cronAccepts (config.Test.Schedule test) = false
             /\ er = scheduler.ErrCron (config.Test.Schedule test)
       end.
Proof.
  revert table. induction tests as [|test tests IH]; intros table.
  - simpl. intros [= <- <-]. exists []. by rewrite app_nil_r.
  - cbn [scheduler.schedule List.filter].
    destruct (config.Test.Enabled test) eqn:Hen; cbn [negb].
    2: { replace (eligible s test) with false
           by (unfold eligible; by rewrite Hen).
         apply IH. }
    destruct (scheduler.executors s !! config.GetExecutor test) as [exec|] eqn:Hexec.
    2: { replace (eligible s test) with false.
         - apply IH.
         - unfold eligible. by rewrite Hen, Hexec. }
    replace (eligible s test) with true.
    2: { unfold eligible. by rewrite Hen, Hexec. }
    destruct (cronAccepts (config.Test.Schedule test)) eqn:Hcron.
    + intros Hrest. destruct (IH _ Hrest) as (added & -> & Hbuilt & Herr).
      eexists (_ :: added). split; [by rewrite <- app_assoc|].
      split; [constructor; [by repeat split | done]|].
      rewrite fmap_cons. cbn [scheduler.entryTest].
      destruct err as [er|].
      * destruct Herr as (t & rest & -> & Hrej & ->). by exists t, rest.
      * by rewrite Herr.
    + intros [= <- <-]. exists []. rewrite app_nil_r. split; [done|]. split; [done|].
      by exists test, (List.filter (eligible s) tests).
Qed.

(** X20.  [Start] puts into the cron table exactly the tests that are
    enabled and whose executor is registered, in the order of the
    configuration, each with its own schedule, executor and jitter.  It
    returns an error only when cron rejects a schedule: the error is about
    the first such test, and the table holds the tests before it. *)
Theorem Start_table (s : scheduler.Scheduler E) :
  let '(table, err) := scheduler.Start cronAccepts s in
  let tests := List.filter (eligible s) (config.Config.Tests (scheduler.config s)) in
  Forall (entryBuilt cronAccepts s) table
  /\ match err with
     | None => scheduler.entryTest <$> table = tests
     | Some er =>
         exists test rest,
           tests = ((scheduler.entryTest <$> table) ++ test :: rest)%list
           /\ cronAccepts (config.Test.Schedule test) = false
           /\ er = scheduler.ErrCron (config.Test.Schedule test)
     end.
Proof.
  unfold scheduler.Start.
  destruct (scheduler.schedule _ _ _ _) as [table err] eqn:Hs.
  by destruct (schedule_table _ _ _ _ _ Hs) as (added & -> & Hbuilt & Herr).
Qed.

(** X21.  One firing of a cron entry.  Without jitter, or when the
    context is never cancelled, the test is run, and the collector is the
    one the run leaves, whether it failed or not.  When the context is
    cancelled before the jitter has elapsed, the test is not run and the
    collector is left as it was. *)
Theorem fire_runs_unless_interrupted (e : scheduler.Entry E) (ctx : jitter.Context)
  (Int63n : Z -> Z) (timerWinsTie : bool) (w : W) (c : metrics.Collector) :
  (scheduler.entryMaxJitter e <= 0 \/ jitter.cancelledAfter ctx = None ->
   scheduler.fire e ctx Int63n timerWinsTie w c
   = fst <$> executor.RunTest (scheduler.entryExecutor e) w (scheduler.entryTest e) c)
  /\ (forall t,
        0 < scheduler.entryMaxJitter e ->
        jitter.cancelledAfter ctx = Some t ->
        Z.max 0 t < Int63n (scheduler.entryMaxJitter e) ->
        scheduler.fire e ctx Int63n timerWinsTie w c = Some c).
Proof.
  unfold scheduler.fire, jitter.Apply. split.
  - intros Hrun.
    assert (Hres : forall o : executor.outcome,
               match o with Some (c', _) => Some c' | None => None end = fst <$> o)
      by (by intros [[? ?]|]).
    destruct (Z.ltb_spec 0 (scheduler.entryMaxJitter e)); [|apply Hres].
    destruct (Z.leb_spec (scheduler.entryMaxJitter e) 0); [lia|].
    destruct Hrun as [Hle | Hnever]; [lia|]. rewrite Hnever. apply Hres.
  - intros t Hpos -> Hlate.
    destruct (Z.ltb_spec 0 (scheduler.entryMaxJitter e)); [|lia].
    destruct (Z.leb_spec (scheduler.entryMaxJitter e) 0); [lia|].
    destruct (Z.ltb_spec (Int63n (scheduler.entryMaxJitter e)) (Z.max 0 t)); [lia|].
    destruct (Z.ltb_spec (Z.max 0 t) (Int63n (scheduler.entryMaxJitter e))); [done|lia].
Qed.

(** X22.  [RunNow] refuses without running anything, and leaves the
    collector as it is, when no configured test has the given name, and
    when the first test of that name asks for an executor that is not
    registered (a later test of the same name is not tried). *)
Theorem RunNow_refuses (s : scheduler.Scheduler E) (w : W) (testName : string)
  (c : metrics.Collector) :
  (Forall (fun t => config.Test.Name t <> testName) (config.Config.Tests (scheduler.config s)) ->
   scheduler.RunNow s w testName c = Some (c, Some (scheduler.ErrTestNotFound testName)))
  /\ (forall before test after,
        config.Config.Tests (scheduler.config s) = (before ++ test :: after)%list ->
        Forall (fun t => config.Test.Name t <> testName) before ->
        config.Test.Name test = testName ->
        scheduler.executors s !! config.GetExecutor test = None ->
        scheduler.RunNow s w testName c
        = Some (c, Some (scheduler.ErrUnknownExecutor (config.GetExecutor test) testName))).
Proof.
  unfold scheduler.RunNow. split.
  - induction 1 as [|t tests Hne _ IH]; simpl; [done|].
    by destruct (String.eqb_spec (config.Test.Name t) testName).
  - intros before test after -> Hbefore Hname Hexec.
    induction Hbefore as [|t before Hne _ IH]; simpl.
    + rewrite Hname, String.eqb_refl. by rewrite Hexec.
    + by destruct (String.eqb_spec (config.Test.Name t) testName).
Qed.
End StartProperties.

Lemma fire_runs_unless_interrupted_witness :
  scheduler.fire
    {| scheduler.entrySchedule := "*/5 * * * *"; scheduler.entryTest := roundTrip;
       scheduler.entryExecutorType := "s3"; scheduler.entryExecutor := s3Executor;
       scheduler.entryMaxJitter := 30 * time.Second |}
    {| jitter.cancelledAfter := Some time.Second |} (fun n => n / 2) true
    (s3Run s3Fine) metrics.NewCollector
  = Some metrics.NewCollector
  /\ scheduler.fire
       {| scheduler.entrySchedule := "*/5 * * * *"; scheduler.entryTest := roundTrip;
          scheduler.entryExecutorType := "s3"; scheduler.entryExecutor := s3Executor;
          scheduler.entryMaxJitter := 0 |}
       {| jitter.cancelledAfter := Some time.Second |} (fun n => n / 2) true
       (s3Run s3Fine) metrics.NewCollector
     = fst <$> executor.RunTest s3Executor (s3Run s3Fine) roundTrip metrics.NewCollector.
Proof.
  split.
  - match goal with
    | |- scheduler.fire ?e ?ctx ?r ?tie ?w ?c = _ =>
        exact (proj2 (fire_runs_unless_interrupted e ctx r tie w c) time.Second
                 ltac:(reflexivity) eq_refl ltac:(reflexivity))
    end.
  - match goal with
    | |- scheduler.fire ?e ?ctx ?r ?tie ?w ?c = _ =>
        pose proof (proj1 (fire_runs_unless_interrupted e ctx r tie w c)) as Hfire
    end.
    simpl scheduler.entryMaxJitter in Hfire.
    exact (Hfire (or_introl (Z.le_refl 0))).
Defined.

Lemma RunNow_refuses_witness :
  scheduler.RunNow sampleScheduler (s3Run s3Fine) "weekly" metrics.NewCollector
  = Some (metrics.NewCollector, Some (scheduler.ErrTestNotFound "weekly"))
  /\ scheduler.RunNow
       {| scheduler.executors := (∅ : gmap string executor.S3Executor.t);
          scheduler.config := sampleConfig [roundTrip; nightly] |}
       (s3Run s3Fine) "nightly" metrics.NewCollector
     = Some (metrics.NewCollector, Some (scheduler.ErrUnknownExecutor "s3" "nightly")).
Proof.
  split.
  - refine (proj1 (RunNow_refuses sampleScheduler (s3Run s3Fine) "weekly"
                     metrics.NewCollector) _).
    repeat constructor; discriminate.
  - refine (proj2 (RunNow_refuses
                     {| scheduler.executors := (∅ : gmap string executor.S3Executor.t);
                        scheduler.config := sampleConfig [roundTrip; nightly] |}
                     (s3Run s3Fine) "nightly" metrics.NewCollector)
              [roundTrip] nightly [] eq_refl _ eq_refl eq_refl).
    repeat constructor; discriminate.
Defined.

(** ** Log levels *)

(** X23.  Whatever string [SetLevel] is given, messages at [Error]
    level are printed afterwards, and the levels nest: what prints [Debug]
    prints [Info], what prints [Info] prints [Warn].  [Debug] messages are
    printed only for the level [debug], [Info] messages for every level
    but [warn], [warning] and [error] (so also for an unknown one), and
    [Warn] messages for every level but [error]; the case of the ASCII
    letters does not matter. *)
Theorem SetLevel_filters (level : string) :
  let current := logging.SetLevel level in
  let l := GoStrings.ToLower level in
  logging.Error current = true
  /\ (logging.Debug current = true -> logging.Info current = true)
  /\ (logging.Info current = true -> logging.Warn current = true)
  /\ (logging.Debug current = true <-> l = "debug")
  /\ (logging.Info current = false <-> l = "warn" \/ l = "warning" \/ l = "error")
  /\ (logging.Warn current = false <-> l = "error").
Proof.
  unfold logging.SetLevel. cbv zeta.
  destruct (String.eqb_spec (GoStrings.ToLower level) "debug") as [->|Hd];
    [by split_and!; try done; split; try done; intros [|[|]]|].
  destruct (String.eqb_spec (GoStrings.ToLower level) "info") as [->|Hi];
    [by split_and!; try done; split; try done; intros [|[|]]|].
  destruct (String.eqb_spec (GoStrings.ToLower level) "warn") as [->|Hw];
    [split_and!; try done; split; try done; auto|].
  destruct (String.eqb_spec (GoStrings.ToLower level) "warning") as [->|Hwg];
    [split_and!; try done; split; try done; auto|].
  destruct (String.eqb_spec (GoStrings.ToLower level) "error") as [->|He];
    [split_and!; try done; split; try done; auto|].
  split_and!; try done; split; try done. by intros [|[|]].
Qed.

(** ** Test data files *)

Lemma writeChunks_all (fuel : nat) (w : testdata.World) (i : nat) (remaining : Z) :
  (forall k, testdata.randOk w k = true) -> (forall k, testdata.writeOk w k = true) ->
  0 <= remaining <= Z.of_nat fuel * testdata.chunkSize ->
  testdata.writeChunks fuel w i remaining
  = Some ((replicate (Z.to_nat (remaining / testdata.chunkSize)) testdata.chunkSize
             ++ (if remaining mod testdata.chunkSize =? 0 then []
                 else [remaining mod testdata.chunkSize]))%list,
          None).
Proof.
  intros Hrand Hwrite. revert i remaining.
  induction fuel as [|fuel IH]; intros i remaining Hrem.
  - assert (remaining = 0) as -> by (unfold testdata.chunkSize in Hrem; lia). done.
  - cbn [testdata.writeChunks].
    destruct (Z.leb_spec remaining 0) as [Hz|Hpos].
    { assert (remaining = 0) as -> by lia. done. }
    rewrite Hrand, Hwrite. cbn [negb].
    destruct (Z.ltb_spec remaining testdata.chunkSize) as [Hlt|Hge].
    + rewrite Z.sub_diag. destruct fuel; simpl;
        rewrite Z.div_small, Z.mod_small by lia;
        destruct (Z.eqb_spec remaining 0); try lia; done.
    + rewrite IH by (unfold testdata.chunkSize in *; lia).
      replace (remaining / testdata.chunkSize)
        with ((remaining - testdata.chunkSize) / testdata.chunkSize + 1).
      2: { replace remaining with (remaining - testdata.chunkSize + 1 * testdata.chunkSize)
             at 2 by lia.
           by rewrite Z_div_plus by done. }
      replace (remaining mod testdata.chunkSize)
        with ((remaining - testdata.chunkSize) mod testdata.chunkSize).
      2: { replace remaining with (remaining - testdata.chunkSize + 1 * testdata.chunkSize)
             at 2 by lia.
           by rewrite Z_mod_plus by done. }
      rewrite Z2Nat.inj_add by (try apply Z.div_pos; unfold testdata.chunkSize in *; lia).
      rewrite Nat.add_comm. done.
Qed.

Lemma sum_replicate (n : nat) (x a : Z) :
  foldr Z.add a (replicate n x) = Z.of_nat n * x + a.
Proof. induction n as [|n IH]; [done|]. cbn [replicate foldr]. rewrite IH. lia. Qed.

(** X24.  [ensureFile] keeps a file that already has the wanted size
    and writes nothing.  Otherwise, when the file can be created and every
    read of random bytes and every write succeeds, it writes the wanted
    size exactly, in chunks of 1 MiB followed by one shorter chunk for the
    rest, if any; so no chunk is larger than the buffer and the sizes add
    up to the size asked for. *)
Theorem ensureFile_writes_the_size (fuel : nat) (w : testdata.World) (filename : string)
  (size : Z) :
  (testdata.statSize w = Some size ->
   testdata.ensureFile fuel w filename size = Some testdata.Kept)
  /\ (testdata.statSize w <> Some size ->
      testdata.createOk w = true ->
      (forall k, testdata.randOk w k = true) -> (forall k, testdata.writeOk w k = true) ->
      0 <= size <= Z.of_nat fuel * testdata.chunkSize ->
      exists chunks,
        testdata.ensureFile fuel w filename size = Some (testdata.Written chunks None)
        /\ chunks
           = (replicate (Z.to_nat (size / testdata.chunkSize)) testdata.chunkSize
              ++ (if size mod testdata.chunkSize =? 0 then []
                  else [size mod testdata.chunkSize]))%list
        /\ foldr Z.add 0 chunks = size
        /\ Forall (fun n => 0 < n <= testdata.chunkSize) chunks).
Proof.
  unfold testdata.ensureFile. split.
  - intros ->. by rewrite Z.eqb_refl.
  - intros Hstat Hcreate Hrand Hwrite Hsize.
    replace (match testdata.statSize w with
             | Some existing => existing =? size
             | None => false
             end) with false.
    2: { destruct (testdata.statSize w) as [existing|]; [|done].
         destruct (Z.eqb_spec existing size); [congruence | done]. }
    rewrite Hcreate, writeChunks_all by done. cbn [negb].
    eexists. split; [reflexivity|]. split; [reflexivity|].
    pose proof (Z.mod_pos_bound size testdata.chunkSize ltac:(done)) as Hmod.
    pose proof (Z.div_mod size testdata.chunkSize ltac:(done)) as Hdiv.
    assert (0 <= size / testdata.chunkSize) by (apply Z.div_pos; [lia | done]).
    split.
    + rewrite foldr_app, sum_replicate, Z2Nat.id by done.
      destruct (Z.eqb_spec (size mod testdata.chunkSize) 0) as [Hr|]; simpl; lia.
    + apply Forall_app. split.
      * apply Forall_replicate. by unfold testdata.chunkSize.
      * destruct (Z.eqb_spec (size mod testdata.chunkSize) 0); constructor; [lia | done].
Qed.

Lemma ensureFile_writes_the_size_witness :
  exists chunks,
    testdata.ensureFile 3
      {| testdata.statSize := Some 4096; testdata.createOk := true;
         testdata.randOk := fun _ => true; testdata.writeOk := fun _ => true |}
      "/tmp/test-data/t1-2621440.bin" 2621440
    = Some (testdata.Written chunks None)
    /\ chunks = [1048576; 1048576; 524288].
Proof.
  destruct (proj2 (ensureFile_writes_the_size 3
                     {| testdata.statSize := Some 4096; testdata.createOk := true;
                        testdata.randOk := fun _ => true; testdata.writeOk := fun _ => true |}
                     "/tmp/test-data/t1-2621440.bin" 2621440))
    as (chunks & Hrun & Hchunks & _).
  - discriminate.
  - reflexivity.
  - reflexivity.
  - reflexivity.
  - vm_compute. split; discriminate.
  - exists chunks. split; [exact Hrun | exact Hchunks].
Defined.

(** ** Deletes in the metric stream of the native executor *)

Lemma RecordStorjDelete_values testName executor bucket fileSize duration count
  (success : bool) c k :
  metrics.value
    (metrics.storjOperationCount
       (metrics.RecordStorjDelete testName executor bucket fileSize duration count success c))
    k
  = metrics.value (metrics.storjOperationCount c) k
    + (if decide ((testName, "delete", executor, bucket) = k)
       then (if success then Z.max 0 count else 0) else 0)
  /\ metrics.value
       (metrics.storjOperationSuccess
          (metrics.RecordStorjDelete testName executor bucket fileSize duration count
             success c))
       k
     = metrics.value (metrics.storjOperationSuccess c) k
       + (if decide ((testName, "delete", executor, metrics.statusLabel success) = k)
          then 1 else 0).
Proof.
  unfold metrics.RecordStorjDelete.
  destruct (negb _ && _), (0 <? duration), success, (Z.ltb_spec 0 count); simpl;
    split; rewrite ?value_Inc, ?value_insert; try done;
    destruct (decide _); simplify_eq; lia.
Qed.

Lemma recordOutcome_other_action testName action executor bucket bytes success c c' k :
  metrics.recordOutcome testName action executor bucket bytes success c = Some c' ->
  k.1.1.2 <> action ->
  metrics.value (metrics.storjOperationCount c') k
  = metrics.value (metrics.storjOperationCount c) k
  /\ metrics.value (metrics.storjOperationSuccess c') k
     = metrics.value (metrics.storjOperationSuccess c) k.
Proof.
  unfold metrics.recordOutcome. intros Hrec Hk. destruct success.
  - destruct (metrics.Add _ _ _); [|done]. injection Hrec as <-. simpl.
    rewrite !value_Inc. split; destruct (decide _) as [<-|]; simpl in *; done || lia.
  - injection Hrec as <-. simpl. split; [done|].
    rewrite value_Inc. destruct (decide _) as [<-|]; simpl in *; done || lia.
Qed.

Lemma recordDeleteDurations_values testName bucket fileSizeLabel points c :
  let key := (testName, "delete", executor.UplinkExecutor.name, bucket) in
  let failure := (testName, "delete", executor.UplinkExecutor.name, "failure") in
  metrics.value
    (metrics.storjOperationCount
       (executor.UplinkExecutor.recordDeleteDurations testName bucket fileSizeLabel points c))
    key
  = metrics.value (metrics.storjOperationCount c) key + Z.of_nat (length points)
  /\ metrics.value
       (metrics.storjOperationSuccess
          (executor.UplinkExecutor.recordDeleteDurations testName bucket fileSizeLabel
             points c))
       failure
     = metrics.value (metrics.storjOperationSuccess c) failure.
Proof.
  intros key failure. unfold executor.UplinkExecutor.recordDeleteDurations.
  revert c. induction points as [|p points IH]; intros c; [simpl; lia|].
  cbn [foldl]. destruct (IH (metrics.RecordStorjDelete testName executor.UplinkExecutor.name
                               bucket fileSizeLabel (executor.UplinkExecutor.valueMillis p)
                               1 true c)) as [-> ->].
  destruct (RecordStorjDelete_values testName executor.UplinkExecutor.name bucket
              fileSizeLabel (executor.UplinkExecutor.valueMillis p) 1 true c key)
    as [-> _].
  destruct (RecordStorjDelete_values testName executor.UplinkExecutor.name bucket
              fileSizeLabel (executor.UplinkExecutor.valueMillis p) 1 true c failure)
    as [_ ->].
  unfold key, failure. rewrite decide_True by done. rewrite decide_False by done.
  cbn [length]. lia.
Qed.

Lemma recordDeleteFailures_values testName bucket fileSizeLabel points c :
  let key := (testName, "delete", executor.UplinkExecutor.name, bucket) in
  let failure := (testName, "delete", executor.UplinkExecutor.name, "failure") in
  metrics.value
    (metrics.storjOperationCount
       (executor.UplinkExecutor.recordDeleteFailures testName bucket fileSizeLabel points c))
    key
  = metrics.value (metrics.storjOperationCount c) key
  /\ metrics.value
       (metrics.storjOperationSuccess
          (executor.UplinkExecutor.recordDeleteFailures testName bucket fileSizeLabel
             points c))
       failure
     = metrics.value (metrics.storjOperationSuccess c) failure
       + Z.of_nat (length (List.filter (fun p => negb (executor.UplinkExecutor.valuePositive p))
                             points)).
Proof.
  intros key failure. unfold executor.UplinkExecutor.recordDeleteFailures.
  revert c. induction points as [|p points IH]; intros c; [simpl; lia|].
  cbn [foldl List.filter].
  destruct (executor.UplinkExecutor.valuePositive p); cbn [negb]; [apply IH|].
  destruct (IH (metrics.RecordStorjDelete testName executor.UplinkExecutor.name bucket
                  fileSizeLabel 0 1 false c)) as [-> ->].
  destruct (RecordStorjDelete_values testName executor.UplinkExecutor.name bucket
              fileSizeLabel 0 1 false c key) as [-> _].
  destruct (RecordStorjDelete_values testName executor.UplinkExecutor.name bucket
              fileSizeLabel 0 1 false c failure) as [_ ->].
  unfold key, failure. cbn [metrics.statusLabel]. rewrite !decide_True by done.
  cbn [length]. lia.
Qed.

(** X25.  What [parseAndRecordMetrics] adds for deletes, whatever else
    the stream holds: the operation counter of the bucket grows by one for
    every [storj_delete_duration_ms] point and, besides, by the sum of the
    [storj_delete_count_total] points when that sum is positive; the
    failure counter grows by one for every [storj_delete_success] point
    that is not positive. *)
Theorem recordMetrics_counts_deletes (points : list k6output.MetricPoint)
  (testName bucket fileSizeLabel : string) (c c' : metrics.Collector) :
  executor.UplinkExecutor.recordMetrics points testName bucket fileSizeLabel c = Some c' ->
  let grouped := k6output.GroupMetricsByName points in
  let total :=
    foldl (fun total p => wrap64 (total + executor.UplinkExecutor.valueInt p)) 0
      (grouped "storj_delete_count_total") in
  metrics.value (metrics.storjOperationCount c') (testName, "delete", "uplink", bucket)
  = metrics.value (metrics.storjOperationCount c) (testName, "delete", "uplink", bucket)
    + Z.of_nat (length (grouped "storj_delete_duration_ms")) + Z.max 0 total
  /\ metrics.value (metrics.storjOperationSuccess c') (testName, "delete", "uplink", "failure")
     = metrics.value (metrics.storjOperationSuccess c) (testName, "delete", "uplink", "failure")
       + Z.of_nat (length (List.filter
                             (fun p => negb (executor.UplinkExecutor.valuePositive p))
                             (grouped "storj_delete_success"))).
Proof.
  intros Hrec grouped total. unfold executor.UplinkExecutor.recordMetrics in Hrec.
  set (key := (testName, "delete", "uplink", bucket)).
  set (failure := (testName, "delete", "uplink", "failure")).
  set (up := if _ || _ then _ else Some c) in Hrec.
  destruct up as [c1|] eqn:Hup; [|done]. simpl in Hrec.
  assert (H1 : metrics.value (metrics.storjOperationCount c1) key
               = metrics.value (metrics.storjOperationCount c) key
               /\ metrics.value (metrics.storjOperationSuccess c1) failure
                  = metrics.value (metrics.storjOperationSuccess c) failure).
  { subst up.
    match type of Hup with (if ?b then _ else _) = _ => destruct b end;
      [|by injection Hup as <-].
    match type of Hup with
    | metrics.RecordStorjUpload ?t ?e ?b ?l ?d ?n ?s ?c0 = _ =>
        destruct (RecordStorjUpload_tail t e b l d n s c0) as (c0' & Heq & _ & Hc & Hs & _)
    end.
    rewrite Heq in Hup. rewrite <- Hc, <- Hs.
    split; eapply (recordOutcome_other_action _ _ _ _ _ _ _ _ _ Hup); done. }
  clear Hup up.
  set (down := if _ || _ then _ else Some c1) in Hrec.
  destruct down as [c2|] eqn:Hdown; [|done]. simpl in Hrec.
  assert (H2 : metrics.value (metrics.storjOperationCount c2) key
               = metrics.value (metrics.storjOperationCount c1) key
               /\ metrics.value (metrics.storjOperationSuccess c2) failure
                  = metrics.value (metrics.storjOperationSuccess c1) failure).
  { subst down.
    match type of Hdown with (if ?b then _ else _) = _ => destruct b end;
      [|by injection Hdown as <-].
    match type of Hdown with
    | metrics.RecordStorjDownload ?t ?e ?b ?l ?d ?n ?s ?c0 = _ =>
        destruct (RecordStorjDownload_tail t e b l d n s c0)
          as (c0' & Heq & _ & Hc & Hs & _)
    end.
    rewrite Heq in Hdown. rewrite <- Hc, <- Hs.
    split; eapply (recordOutcome_other_action _ _ _ _ _ _ _ _ _ Hdown); done. }
  clear Hdown down.
  injection Hrec as <-. fold grouped. fold total.
  destruct H1 as [H1c H1s], H2 as [H2c H2s].
  change executor.UplinkExecutor.name with "uplink". fold key. fold failure.
  destruct (recordDeleteDurations_values testName bucket fileSizeLabel
              (grouped "storj_delete_duration_ms") c2) as [Hdc Hds].
  destruct (recordDeleteFailures_values testName bucket fileSizeLabel
              (grouped "storj_delete_success")
              (executor.UplinkExecutor.recordDeleteDurations testName bucket fileSizeLabel
                 (grouped "storj_delete_duration_ms") c2)) as [Hfc Hfs].
  cbv zeta in Hdc, Hds, Hfc, Hfs.
  change executor.UplinkExecutor.name with "uplink" in Hdc, Hds, Hfc, Hfs.
  fold key in Hdc, Hfc. fold failure in Hds, Hfs.
  destruct (Z.ltb_spec 0 total) as [Hpos|Hneg]; [|split; lia].
  destruct (RecordStorjDelete_values testName "uplink" bucket "" 0 total true
              (executor.UplinkExecutor.recordDeleteFailures testName bucket fileSizeLabel
                 (grouped "storj_delete_success")
                 (executor.UplinkExecutor.recordDeleteDurations testName bucket
                    fileSizeLabel (grouped "storj_delete_duration_ms") c2)) key)
    as [Hc _].
  destruct (RecordStorjDelete_values testName "uplink" bucket "" 0 total true
              (executor.UplinkExecutor.recordDeleteFailures testName bucket fileSizeLabel
                 (grouped "storj_delete_success")
                 (executor.UplinkExecutor.recordDeleteDurations testName bucket
                    fileSizeLabel (grouped "storj_delete_duration_ms") c2)) failure)
    as [_ Hs].
  cbn [metrics.statusLabel] in Hs.
  rewrite decide_True in Hc by done. rewrite decide_False in Hs by done.
  split; lia.
Qed.

Lemma recordMetrics_counts_deletes_witness :
  exists c',
    executor.UplinkExecutor.recordMetrics
      [ {| k6output.Metric := "storj_delete_duration_ms";
           k6output.Value := {| strconv.mant := 120; strconv.scale := 0 |} |};
        {| k6output.Metric := "storj_delete_success";
           k6output.Value := {| strconv.mant := 0; strconv.scale := 0 |} |};
        {| k6output.Metric := "storj_delete_count_total";
           k6output.Value := {| strconv.mant := 3; strconv.scale := 0 |} |} ]
      "cleanup" "synthetics" "" metrics.NewCollector = Some c'
    /\ metrics.value (metrics.storjOperationCount c') ("cleanup", "delete", "uplink", "synthetics")
       = 4
    /\ metrics.value (metrics.storjOperationSuccess c')
         ("cleanup", "delete", "uplink", "failure") = 1.
Proof.
  destruct (executor.UplinkExecutor.recordMetrics
              [ {| k6output.Metric := "storj_delete_duration_ms";
                   k6output.Value := {| strconv.mant := 120; strconv.scale := 0 |} |};
                {| k6output.Metric := "storj_delete_success";
                   k6output.Value := {| strconv.mant := 0; strconv.scale := 0 |} |};
                {| k6output.Metric := "storj_delete_count_total";
                   k6output.Value := {| strconv.mant := 3; strconv.scale := 0 |} |} ]
              "cleanup" "synthetics" "" metrics.NewCollector) as [c'|] eqn:Hrec;
    [|discriminate Hrec].
  destruct (recordMetrics_counts_deletes _ _ _ _ _ _ Hrec) as [Hcount Hfailure].
  exists c'. split; [reflexivity|]. split; [exact Hcount | exact Hfailure].
Defined.
